(** * permetrics: regression and clustering metrics

    A shallow embedding of [permetrics/regression.py] and
    [permetrics/clustering.py].

    Numbers.  numpy's [float64] is idealised: a finite value is a real
    number of [R] and the three non-finite values of IEEE arithmetic are
    kept apart ([npfloat]).  Signed zeros and rounding errors of binary
    arithmetic are outside the model; every operation below is the exact
    operation followed by numpy's conventions for division by zero.

    Control.  A Python exception is a value of [exn]; code that may raise
    lives in the [result] monad, and the clustering evaluator, whose
    methods assign [self.le], threads the instance through a state-and-error
    monad. *)

From Stdlib Require Import Reals Lra Lia ZArith List String Bool PeanoNat.
From stdpp Require Import base gmap strings.
Import ListNotations.

(** ** Python exceptions and results *)

Module Py.

Inductive exn : Type :=
| ValueError (msg : string)
| AttributeError (msg : string)
| ShapeError (msg : string)
| TypeError (msg : string)
| IndexError
| ZeroDivisionError
| SystemExit (code : Z).

Inductive result (A : Type) : Type :=
| Ok (a : A)
| Raise (e : exn).
Arguments Ok {A} a.
Arguments Raise {A} e.

Definition bind {A B} (m : result A) (k : A -> result B) : result B :=
  match m with
  | Ok a => k a
  | Raise e => Raise e
  end.

(** [x / y] on Python numbers ([int] or [float]): a zero divisor raises. *)
Definition truediv (x y : R) : result R :=
  if Req_dec_T y 0 then Raise ZeroDivisionError else Ok (x / y)%R.

(** [for x in xs: body], with the loop-carried variables as the state. *)
Fixpoint for_each {X S} (xs : list X) (body : X -> S -> result S) (s : S)
  : result S :=
  match xs with
  | [] => Ok s
  | x :: xs' => bind (body x s) (for_each xs' body)
  end.

(** A computation that may raise, on each element in turn. *)
Fixpoint mapM {X Y} (f : X -> result Y) (xs : list X) : result (list Y) :=
  match xs with
  | [] => Ok []
  | x :: xs' =>
      bind (f x) (fun y => bind (mapM f xs') (fun ys => Ok (y :: ys)))
  end.

(** [range(lo, hi)] *)
Definition range (lo hi : nat) : list nat := seq lo (hi - lo).

(** [l[i]] for a non-negative index. *)
Definition getitem {A} (l : list A) (i : nat) : result A :=
  match nth_error l i with
  | Some x => Ok x
  | None => Raise IndexError
  end.

(** [for idx in range(n): for jdx in range(idx + 1, n): body] *)
Definition for_pairs {S} (n : nat) (body : nat -> nat -> S -> result S)
  : S -> result S :=
  for_each (range 0 n) (fun idx => for_each (range (idx + 1) n) (body idx)).

(** Two runs agree: both return, with related values, or both raise the
    same exception. *)
Definition result_rel {A B} (Rel : A -> B -> Prop)
  (r1 : result A) (r2 : result B) : Prop :=
  match r1, r2 with
  | Ok a, Ok b => Rel a b
  | Raise e1, Raise e2 => e1 = e2
  | _, _ => False
  end.

Definition Zsum (l : list Z) : Z := fold_right Z.add 0%Z l.

End Py.

Import Py.

#[global] Instance result_ret : MRet result := fun A a => Ok a.
#[global] Instance result_bind : MBind result := fun A B k m => Py.bind m k.

Open Scope R_scope.

(** ** numpy floating point values, idealised *)

Module Np.

Inductive npfloat : Type :=
| Num (r : R)
| PInf
| NInf
| NaN.

(** Sign of a value that is not [NaN]: [1], [0] or [-1]. *)
Definition sgn (a : npfloat) : Z :=
  match a with
  | Num r => if Rlt_dec 0 r then 1%Z else if Rlt_dec r 0 then (-1)%Z else 0%Z
  | PInf => 1%Z
  | NInf => (-1)%Z
  | NaN => 0%Z
  end.

Definition of_sign (s : Z) : npfloat :=
  match s with
  | Zpos _ => PInf
  | Zneg _ => NInf
  | Z0 => NaN
  end.

Definition neg (a : npfloat) : npfloat :=
  match a with
  | Num r => Num (- r)
  | PInf => NInf
  | NInf => PInf
  | NaN => NaN
  end.

Definition add (a b : npfloat) : npfloat :=
  match a, b with
  | NaN, _ | _, NaN => NaN
  | Num x, Num y => Num (x + y)
  | PInf, NInf | NInf, PInf => NaN
  | PInf, _ | _, PInf => PInf
  | NInf, _ | _, NInf => NInf
  end.

Definition sub (a b : npfloat) : npfloat := add a (neg b).

Definition mul (a b : npfloat) : npfloat :=
  match a, b with
  | NaN, _ | _, NaN => NaN
  | Num x, Num y => Num (x * y)
  | _, _ => of_sign (sgn a * sgn b)
  end.

(** [a / b] on numpy scalars and arrays: a zero divisor gives [nan] or an
    infinity (and a warning), never an exception. *)
Definition div (a b : npfloat) : npfloat :=
  match a, b with
  | NaN, _ | _, NaN => NaN
  | Num x, Num y =>
      if Req_dec_T y 0 then of_sign (sgn a) else Num (x / y)
  | Num _, _ => Num 0
  | _, Num y => if Rlt_dec y 0 then neg a else a
  | _, _ => NaN
  end.

Definition abs (a : npfloat) : npfloat :=
  match a with
  | Num r => Num (Rabs r)
  | PInf | NInf => PInf
  | NaN => NaN
  end.

Definition sqrt (a : npfloat) : npfloat :=
  match a with
  | Num r => if Rlt_dec r 0 then NaN else Num (R_sqrt.sqrt r)
  | PInf => PInf
  | NInf | NaN => NaN
  end.

(** [a ** 2] *)
Definition sq (a : npfloat) : npfloat := mul a a.

(** [a >= b] and [a <= b]; a comparison with [nan] is false. *)
Definition ge (a b : npfloat) : bool :=
  match a, b with
  | NaN, _ | _, NaN => false
  | Num x, Num y => if Rle_dec y x then true else false
  | PInf, _ | _, NInf => true
  | _, _ => false
  end.

Definition le (a b : npfloat) : bool := ge b a.

(** [np.sum] of a one-dimensional array. *)
Definition sum (l : list npfloat) : npfloat := fold_left add l (Num 0).

(** [np.mean]: the sum over the number of elements ([nan] when empty). *)
Definition mean (l : list npfloat) : npfloat :=
  div (sum l) (Num (INR (length l))).

(** Round to the nearest integer, ties to the even one ([np.rint]). *)
Definition rint (x : R) : Z :=
  let n := Int_part x in
  let f := x - IZR n in
  if Rlt_dec f (1 / 2) then n
  else if Rlt_dec (1 / 2) f then (n + 1)%Z
  else if Z.even n then n else (n + 1)%Z.

Definition pow10 (d : Z) : R := 10 ^ Z.to_nat d.

(** [np.round(x, decimal)]: scale by [10 ** decimal], [rint], scale back; a
    negative [decimal] rounds to tens, hundreds, ... *)
Definition round_R (x : R) (decimal : Z) : R :=
  if (0 <=? decimal)%Z
  then IZR (rint (x * pow10 decimal)) / pow10 decimal
  else IZR (rint (x / pow10 (- decimal))) * pow10 (- decimal).

Definition round (a : npfloat) (decimal : Z) : npfloat :=
  match a with
  | Num r => Num (round_R r decimal)
  | _ => a
  end.

End Np.

Import Np(npfloat(..), rint, pow10, round_R).

(** ** Label vectors and their encoding *)

Definition labels := list Z.

(** [np.unique]: the sorted distinct values of an array. *)
Fixpoint insert_sorted (x : Z) (l : list Z) : list Z :=
  match l with
  | [] => [x]
  | y :: t =>
      if (x <? y)%Z then x :: l
      else if (x =? y)%Z then l
      else y :: insert_sorted x t
  end.

Definition np_unique (l : labels) : list Z := fold_right insert_sorted [] l.

Module DataUtil.

(** Modelled from the spec: [permetrics/utils/data_util.py] is not among the
    sources.  Section 4.1: the label encoder is the bijection from the
    sorted distinct labels observed to [0..K-1]; the true and the predicted
    vector are encoded independently, each with an encoder of its own.
    Section 7: arrays with inconsistent sample counts are surfaced
    immediately. *)

Record LabelEncoder := { classes_ : list Z }.

Fixpoint index_of (x : Z) (cls : list Z) : nat :=
  match cls with
  | [] => 0
  | c :: t => if (x =? c)%Z then 0 else S (index_of x t)
  end.

Definition fit (y : labels) : LabelEncoder := {| classes_ := np_unique y |}.

Definition transform (enc : LabelEncoder) (y : labels) : labels :=
  map (fun x => Z.of_nat (index_of x (classes_ enc))) y.

Definition fit_transform (y : labels) : labels := transform (fit y) y.

Definition encoders := list LabelEncoder.

Definition shape_mismatch : exn :=
  ShapeError "y_true and y_pred have different sample counts".

Definition format_external_clustering_data (y_true y_pred : labels)
  : result (labels * labels * encoders) :=
  if length y_true =? length y_pred
  then Ok (fit_transform y_true, fit_transform y_pred, [fit y_true; fit y_pred])
  else Raise shape_mismatch.

Definition format_internal_clustering_data (y_pred : labels)
  : labels * encoders :=
  (fit_transform y_pred, [fit y_pred]).

End DataUtil.

Module ClusterUtil.

(** Modelled from the spec: [permetrics/utils/cluster_util.py] is not among
    the sources.  Section 4.2: for all [i < j] in [0..N-1], with
    [same_true = (y_true[i] == y_true[j])] and
    [same_pred = (y_pred[i] == y_pred[j])], increment [yy] if both are same,
    [nn] if both are different, [yn] if same_true only, [ny] if same_pred
    only; with [normalize], divide the four counts by [N*(N-1)/2]. *)

Definition pair_cell (y_true y_pred : labels) (i j : nat)
  (c : Z * Z * Z * Z) : result (Z * Z * Z * Z) :=
  ti ← getitem y_true i;
  tj ← getitem y_true j;
  pi ← getitem y_pred i;
  pj ← getitem y_pred j;
  let '(yy, yn, ny, nn) := c in
  let same_true := (ti =? tj)%Z in
  let same_pred := (pi =? pj)%Z in
  mret (if same_true && same_pred then (yy + 1, yn, ny, nn)
        else if negb same_true && negb same_pred then (yy, yn, ny, nn + 1)
        else if same_true then (yy, yn + 1, ny, nn)
        else (yy, yn, ny + 1, nn))%Z.

Definition cells_sum (c : Z * Z * Z * Z) : Z :=
  let '(yy, yn, ny, nn) := c in (yy + yn + ny + nn)%Z.

Definition cells_nonneg (c : Z * Z * Z * Z) : Prop :=
  let '(yy, yn, ny, nn) := c in (0 <= yy /\ 0 <= yn /\ 0 <= ny /\ 0 <= nn)%Z.

Definition pair_counts (y_true y_pred : labels) : result (Z * Z * Z * Z) :=
  for_pairs (length y_true) (pair_cell y_true y_pred) (0, 0, 0, 0)%Z.

Definition compute_confusion_matrix (y_true y_pred : labels) (normalize : bool)
  : result (npfloat * npfloat * npfloat * npfloat) :=
  '(yy, yn, ny, nn) ← pair_counts y_true y_pred;
  let N := Z.of_nat (length y_true) in
  let total := Num (IZR (N * (N - 1)) / 2) in
  let cell (c : Z) := if normalize then Np.div (Num (IZR c)) total
                      else Num (IZR c) in
  mret (cell yy, cell yn, cell ny, cell nn).

End ClusterUtil.

(** ** clustering.py: the evaluator *)

Module Clustering.

Import DataUtil ClusterUtil.

(** A feature matrix: the rows of a two-dimensional array of shape (N, D). *)
Definition matrix := list (list R).

(** The attributes [__init__] sets (clustering.py, lines 94-103). *)
Record ClusteringMetric := {
  self_y_true : option labels;
  self_y_pred : option labels;
  self_X : option matrix;
  self_decimal : Z;
  self_le : option encoders;
  self_raise_error : bool;
  self_biggest_value : npfloat;
  self_smallest_value : npfloat
}.

Definition init (y_true y_pred : option labels) (X : option matrix)
  (decimal : Z) (raise_error : bool)
  (biggest_value smallest_value : option npfloat) : ClusteringMetric :=
  {| self_y_true := y_true;
     self_y_pred := y_pred;
     self_X := X;
     self_decimal := decimal;
     self_le := None;
     self_raise_error := raise_error;
     self_biggest_value := default PInf biggest_value;
     self_smallest_value := default NInf smallest_value |}.

(** A method: it reads and may update the instance, and returns or raises. *)
Definition M (A : Type) : Type :=
  ClusteringMetric -> result A * ClusteringMetric.

#[global] Instance M_ret : MRet M := fun A a self => (Ok a, self).
#[global] Instance M_bind : MBind M := fun A B k m self =>
  match m self with
  | (Ok a, self') => k a self'
  | (Raise e, self') => (Raise e, self')
  end.

Definition raise {A} (e : exn) : M A := fun self => (Raise e, self).
Definition lift {A} (r : result A) : M A := fun self => (r, self).
Definition get_self : M ClusteringMetric := fun self => (Ok self, self).

(** [self.le = le] *)
Definition set_le (le : encoders) : M unit := fun self =>
  (Ok tt,
   {| self_y_true := self_y_true self;
      self_y_pred := self_y_pred self;
      self_X := self_X self;
      self_decimal := self_decimal self;
      self_le := Some le;
      self_raise_error := self_raise_error self;
      self_biggest_value := self_biggest_value self;
      self_smallest_value := self_smallest_value self |}).

(** What a call returns, the instance left aside. *)
Definition returns {A} (m : M A) (self : ClusteringMetric) : result A :=
  fst (m self).

Definition external_missing : string :=
  "You need to pass y_true and y_pred to calculate external clustering metrics.".
Definition internal_missing : string :=
  "You need to pass y_pred to calculate external clustering metrics.".
Definition X_missing : string :=
  "To calculate internal metrics, you need to pass X.".

(** clustering.py, lines 119-148 *)
Definition get_processed_external_data
  (y_true y_pred : option labels) (decimal : option Z)
  : M (labels * labels * option encoders * Z) :=
  self ← get_self;
  let decimal := default (self_decimal self) decimal in
  match y_pred with
  | None =>
      match self_y_pred self with
      | None => raise (ValueError external_missing)
      | Some sp =>
          match self_y_true self with
          | None => raise (ValueError external_missing)
          | Some st =>
              '(yt, yp, le) ← lift (format_external_clustering_data st sp);
              _ ← set_le le;
              self ← get_self;
              mret (yt, yp, self_le self, decimal)
          end
      end
  | Some yp0 =>
      match y_true with
      | None => raise (ValueError external_missing)
      | Some yt0 =>
          '(yt, yp, le) ← lift (format_external_clustering_data yt0 yp0);
          _ ← set_le le;
          self ← get_self;
          mret (yt, yp, self_le self, decimal)
      end
  end.

(** clustering.py, lines 150-169 *)
Definition get_processed_internal_data
  (y_pred : option labels) (decimal : option Z)
  : M (labels * option encoders * Z) :=
  self ← get_self;
  let decimal := default (self_decimal self) decimal in
  match y_pred with
  | None =>
      match self_y_pred self with
      | None => raise (ValueError internal_missing)
      | Some sp =>
          let '(yp, le) := format_internal_clustering_data sp in
          _ ← set_le le;
          self ← get_self;
          mret (yp, self_le self, decimal)
      end
  | Some yp0 =>
      let '(yp, le) := format_internal_clustering_data yp0 in
      _ ← set_le le;
      self ← get_self;
      mret (yp, self_le self, decimal)
  end.

(** clustering.py, lines 171-177 *)
Definition check_X (X : option matrix) : M matrix :=
  self ← get_self;
  match X with
  | None =>
      match self_X self with
      | None => raise (ValueError X_missing)
      | Some sX => mret sX
      end
  | Some X => mret X
  end.

(** [np.zeros(n)] *)
Definition np_zeros (n : Z) : list R := repeat 0 (Z.to_nat n).

(** clustering.py, lines 570-584.  [num_samples], [n_pairs] and
    [num_discordant_pairs] are Python integers, so the last division raises
    on a zero divisor. *)
Definition g_plus_index (X : option matrix) (y_pred : option labels)
  (decimal : option Z) : M npfloat :=
  X ← check_X X;
  '(y_pred, _, decimal) ← get_processed_internal_data y_pred decimal;
  let num_samples := Z.of_nat (length X) in
  let n_pairs := (num_samples * (num_samples - 1) / 2)%Z in
  let distances := np_zeros n_pairs in
  let binary_vector := np_zeros n_pairs in
  let n := Z.to_nat n_pairs in
  num_discordant_pairs ← lift (
    for_each (range 0 (Z.to_nat (n_pairs - 1))) (fun idx =>
      for_each (range (idx + 1) n) (fun jdx (acc : Z) =>
        bi ← getitem binary_vector idx;
        if Req_dec_T bi 0 then
          bj ← getitem binary_vector jdx;
          if Req_dec_T bj 1 then
            di ← getitem distances idx;
            dj ← getitem distances jdx;
            mret (acc + (if Rlt_dec dj di then 1 else 0))%Z
          else mret acc
        else mret acc)) 0%Z);
  g_p ← lift (truediv (IZR (2 * num_discordant_pairs))
                      (IZR (n_pairs * (n_pairs - 1))));
  mret (Np.round (Num g_p) decimal).

(** clustering.py, lines 635-649 *)
Definition rand_score (y_true y_pred : option labels) (decimal : option Z)
  : M npfloat :=
  '(y_true, y_pred, _, decimal) ←
    get_processed_external_data y_true y_pred decimal;
  let n_samples := length y_true in
  let n_pairs := IZR (Z.of_nat n_samples * (Z.of_nat n_samples - 1)) / 2 in
  '(a, b) ← lift (
    for_pairs n_samples (fun idx jdx '(a, b) =>
      ti ← getitem y_true idx;
      tj ← getitem y_true jdx;
      let same_cluster_true := (ti =? tj)%Z in
      pi ← getitem y_pred idx;
      pj ← getitem y_pred jdx;
      let same_cluster_pred := (pi =? pj)%Z in
      mret (if same_cluster_true && same_cluster_pred then (a + 1, b)
            else if negb same_cluster_true && negb same_cluster_pred
                 then (a, b + 1)
                 else (a, b))%Z) (0, 0)%Z);
  ri ← lift (truediv (IZR (a + b)) n_pairs);
  mret (Np.round (Num ri) decimal).

(** clustering.py, lines 665-681 *)
Definition fowlkes_mallows_score (y_true y_pred : option labels)
  (decimal : option Z) : M npfloat :=
  '(y_true, y_pred, _, decimal) ←
    get_processed_external_data y_true y_pred decimal;
  let n_samples := length y_true in
  '(TP, FP, FN) ← lift (
    for_pairs n_samples (fun idx jdx '(TP, FP, FN) =>
      ti ← getitem y_true idx;
      tj ← getitem y_true jdx;
      let a := (ti =? tj)%Z in
      pi ← getitem y_pred idx;
      pj ← getitem y_pred jdx;
      let b := (pi =? pj)%Z in
      mret (if a && b then (TP + 1, FP, FN)
            else if a && negb b then (TP, FP, FN + 1)
            else if negb a && b then (TP, FP + 1, FN)
            else (TP, FP, FN))%Z) (0, 0, 0)%Z);
  let fm := Np.div (Num (IZR TP))
                   (Np.sqrt (Num (IZR ((TP + FP) * (TP + FN))))) in
  mret (Np.round fm decimal).

Section Homogeneity.

(** [cu.compute_homogeneity] is not among the sources; the three scores
    below are settled for whatever function of the two encoded label
    vectors it is. *)
Variable compute_homogeneity : labels -> labels -> npfloat.

(** clustering.py, lines 700-702 *)
Definition homogeneity_score (y_true y_pred : option labels)
  (decimal : option Z) : M npfloat :=
  '(y_true, y_pred, _, decimal) ←
    get_processed_external_data y_true y_pred decimal;
  let cc := compute_homogeneity y_true y_pred in
  mret (Np.round cc decimal).

(** clustering.py, lines 719-721 *)
Definition completeness_score (y_true y_pred : option labels)
  (decimal : option Z) : M npfloat :=
  '(y_true, y_pred, _, decimal) ←
    get_processed_external_data y_true y_pred decimal;
  let cc := compute_homogeneity y_pred y_true in
  mret (Np.round cc decimal).

(** [a == 0] on a numpy scalar *)
Definition is_zero (a : npfloat) : bool :=
  match a with
  | Num r => if Req_dec_T r 0 then true else false
  | _ => false
  end.

(** clustering.py, lines 740-747 *)
Definition v_measure_score (y_true y_pred : option labels)
  (decimal : option Z) : M npfloat :=
  '(y_true, y_pred, _, decimal) ←
    get_processed_external_data y_true y_pred decimal;
  let h := compute_homogeneity y_true y_pred in
  let c := compute_homogeneity y_pred y_true in
  let cc := if is_zero (Np.add h c) then Num 0
            else Np.div (Np.mul (Num 2) (Np.mul h c)) (Np.add h c) in
  mret (Np.round cc decimal).

End Homogeneity.

(** The prologue shared by the scores computed from the pair-contingency
    tuple: [get_processed_external_data], then
    [cu.compute_confusion_matrix(y_true, y_pred)]. *)
Definition with_confusion_matrix (normalize : bool)
  (formula : npfloat * npfloat * npfloat * npfloat -> npfloat)
  (y_true y_pred : option labels) (decimal : option Z) : M npfloat :=
  '(y_true, y_pred, _, decimal) ←
    get_processed_external_data y_true y_pred decimal;
  cm ← lift (compute_confusion_matrix y_true y_pred normalize);
  mret (Np.round (formula cm) decimal).

(** clustering.py, lines 767-769 *)
Definition precision_score :=
  with_confusion_matrix false (fun '(yy, yn, ny, nn) =>
    Np.div yy (Np.add yy ny)).

(** clustering.py, lines 788-790 *)
Definition recall_score :=
  with_confusion_matrix false (fun '(yy, yn, ny, nn) =>
    Np.div yy (Np.add yy yn)).

(** clustering.py, lines 810-814 *)
Definition f_measure_score :=
  with_confusion_matrix false (fun '(yy, yn, ny, nn) =>
    let p := Np.div yy (Np.add yy ny) in
    let r := Np.div yy (Np.add yy yn) in
    Np.div (Np.mul (Np.mul (Num 2) p) r) (Np.add p r)).

(** clustering.py, lines 829-832 *)
Definition czekanowski_dice_score :=
  with_confusion_matrix false (fun '(yy, yn, ny, nn) =>
    Np.div (Np.mul (Num 2) yy)
           (Np.add (Np.add (Np.mul (Num 2) yy) yn) ny)).

Definition hubert_gamma_undefined : string :=
  "The Hubert Gamma score is undefined when y_pred has only 1 cluster.".

(** clustering.py, lines 851-862 *)
Definition hubert_gamma_score (y_true y_pred : option labels)
  (decimal : option Z) : M npfloat :=
  '(y_true, y_pred, _, decimal) ←
    get_processed_external_data y_true y_pred decimal;
  let n_clusters := length (np_unique y_pred) in
  if n_clusters =? 1 then
    self ← get_self;
    if self_raise_error self
    then raise (ValueError hubert_gamma_undefined)
    else mret (Num (-1))
  else
    '(yy, yn, ny, nn) ← lift (compute_confusion_matrix y_true y_pred true);
    let NT := Np.sum [yy; yn; ny; nn] in
    let cc :=
      Np.div (Np.sub (Np.mul NT yy) (Np.mul (Np.add yy yn) (Np.add yy ny)))
             (Np.sqrt (Np.mul (Np.mul (Np.mul (Np.add yy yn) (Np.add yy ny))
                                      (Np.add nn yn))
                              (Np.add nn ny))) in
    mret (Np.round cc decimal).

(** clustering.py, lines 884-887 *)
Definition jaccard_score :=
  with_confusion_matrix false (fun '(yy, yn, ny, nn) =>
    Np.div yy (Np.add (Np.add yy yn) ny)).

(** clustering.py, lines 906-910 *)
Definition kulczynski_score :=
  with_confusion_matrix false (fun '(yy, yn, ny, nn) =>
    Np.mul (Num 0.5)
           (Np.add (Np.div yy (Np.add yy ny)) (Np.div yy (Np.add yy yn)))).

(** clustering.py, lines 933-936 *)
Definition mc_nemar_score :=
  with_confusion_matrix false (fun '(yy, yn, ny, nn) =>
    Np.div (Np.sub nn ny) (Np.sqrt (Np.add nn ny))).

Definition phi_undefined : string :=
  "The Phi score is undefined when y_pred has only 1 cluster.".

(** clustering.py, lines 956-966 *)
Definition phi_score (y_true y_pred : option labels) (decimal : option Z)
  : M npfloat :=
  '(y_true, y_pred, _, decimal) ←
    get_processed_external_data y_true y_pred decimal;
  let n_clusters := length (np_unique y_pred) in
  if n_clusters =? 1 then
    self ← get_self;
    if self_raise_error self
    then raise (ValueError phi_undefined)
    else mret (self_smallest_value self)
  else
    '(yy, yn, ny, nn) ← lift (compute_confusion_matrix y_true y_pred true);
    let numerator := Np.sub (Np.mul yy nn) (Np.mul yn ny) in
    let denominator :=
      Np.mul (Np.mul (Np.mul (Np.add yy yn) (Np.add yy ny)) (Np.add yn nn))
             (Np.add ny nn) in
    mret (Np.round (Np.div numerator denominator) decimal).

(** clustering.py, lines 987-991 *)
Definition rogers_tanimoto_score :=
  with_confusion_matrix false (fun '(yy, yn, ny, nn) =>
    Np.div (Np.add yy nn)
           (Np.add (Np.add yy nn) (Np.mul (Num 2) (Np.add yn ny)))).

(** clustering.py, lines 1010-1014 *)
Definition russel_rao_score :=
  with_confusion_matrix false (fun '(yy, yn, ny, nn) =>
    Np.div yy (Np.sum [yy; yn; ny; nn])).

(** clustering.py, lines 1034-1038 *)
Definition sokal_sneath1_score :=
  with_confusion_matrix false (fun '(yy, yn, ny, nn) =>
    Np.div yy (Np.add yy (Np.mul (Num 2) (Np.add yn ny)))).

(** clustering.py, lines 1058-1062 *)
Definition sokal_sneath2_score :=
  with_confusion_matrix false (fun '(yy, yn, ny, nn) =>
    Np.div (Np.add yy nn)
           (Np.add (Np.add yy nn) (Np.mul (Num 0.5) (Np.add yn ny)))).

(** clustering.py, lines 1169-1182 *)
Definition tau_score (y_true y_pred : option labels) (decimal : option Z)
  : M npfloat :=
  '(y_true, y_pred, _, decimal) ←
    get_processed_external_data y_true y_pred decimal;
  let n := length y_true in
  '(concordant_pairs, discordant_pairs) ← lift (
    for_pairs n (fun idx jdx '(c, d) =>
      ti ← getitem y_true idx;
      tj ← getitem y_true jdx;
      pi ← getitem y_pred idx;
      pj ← getitem y_pred jdx;
      mret (if (ti =? tj)%Z && (pi =? pj)%Z then (c + 1, d)
            else if negb (ti =? tj)%Z && negb (pi =? pj)%Z then (c + 1, d)
            else (c, d + 1))%Z) (0, 0)%Z);
  result ← lift (truediv (IZR (concordant_pairs - discordant_pairs))
                         (IZR (concordant_pairs + discordant_pairs)));
  mret (Np.round (Num result) decimal).

(** [a[i] = v] on an array: an index out of range raises. *)
Definition setitem {A} (l : list A) (i : nat) (v : A) : result (list A) :=
  if i <? length l then Ok (<[i := v]> l) else Raise IndexError.

(** [np.linalg.norm(u - v)] of two rows *)
Definition norm_diff (u v : list R) : R :=
  sqrt (fold_right Rplus 0
          (map (fun ab => (fst ab - snd ab) * (fst ab - snd ab))
               (combine u v))).

(** clustering.py, lines 531-554.  [s_plus] and [s_minus] count
    comparisons, so the last division is one of integers by an integer
    that is not zero. *)
Definition baker_hubert_gamma_index (X : option matrix)
  (y_pred : option labels) (decimal : option Z) : M npfloat :=
  X ← check_X X;
  '(y_pred, _, decimal) ← get_processed_internal_data y_pred decimal;
  let num_samples := Z.of_nat (length X) in
  let n_pairs := (num_samples * (num_samples - 1) / 2)%Z in
  let distances := np_zeros n_pairs in
  let binary_vector := np_zeros n_pairs in
  '(distances, binary_vector, _) ← lift (
    for_each (range 0 (Z.to_nat (num_samples - 1))) (fun idx =>
      for_each (range (idx + 1) (Z.to_nat num_samples))
        (fun jdx '(distances, binary_vector, index) =>
           xi ← getitem X idx;
           xj ← getitem X jdx;
           distances ← setitem distances index (norm_diff xi xj);
           pi ← getitem y_pred idx;
           pj ← getitem y_pred jdx;
           binary_vector ← setitem binary_vector index
                             (if (pi =? pj)%Z then 0 else 1);
           mret (distances, binary_vector, S index)))
      (distances, binary_vector, 0%nat));
  let n := Z.to_nat n_pairs in
  '(s_plus, s_minus) ← lift (
    for_each (range 0 (Z.to_nat (n_pairs - 1))) (fun idx =>
      for_each (range (idx + 1) n) (fun jdx '(s_plus, s_minus) =>
        bi ← getitem binary_vector idx;
        if Req_dec_T bi 0 then
          bj ← getitem binary_vector jdx;
          if Req_dec_T bj 1 then
            di ← getitem distances idx;
            dj ← getitem distances jdx;
            mret (s_plus + (if Rlt_dec di dj then 1 else 0),
                  s_minus + (if Rlt_dec dj di then 1 else 0))%Z
          else mret (s_plus, s_minus)
        else mret (s_plus, s_minus))) (0, 0)%Z);
  let denominator := (s_plus + s_minus)%Z in
  let gamma_index :=
    if (denominator =? 0)%Z then 0
    else IZR (s_plus - s_minus) / IZR denominator in
  mret (Np.round (Num gamma_index) decimal).

(** The state of the first loop of [baker_hubert_gamma_index] before the
    pair ([idx], [jdx]): both arrays have their [n] entries, and [index]
    counts the pairs before this one among the pairs of [N] samples. *)
Definition filling (N n : nat) (zeros_only : bool) (idx jdx : nat)
  (s : list R * list R * nat) : Prop :=
  let '(distances, binary_vector, index) := s in
  length distances = n /\ length binary_vector = n /\
  (2 * Z.of_nat index
   = Z.of_nat idx * (2 * Z.of_nat N - Z.of_nat idx - 1)
     + 2 * (Z.of_nat jdx - Z.of_nat idx - 1))%Z /\
  (zeros_only = true -> binary_vector = repeat 0 n).

(** [np.where(y == c)[0]]: the positions of [y] that hold [c], counted
    from [k]. *)
Fixpoint where_from (k : nat) (y : labels) (c : Z) : list nat :=
  match y with
  | [] => []
  | x :: t =>
      if (x =? c)%Z then k :: where_from (S k) t c else where_from (S k) t c
  end.

Definition np_where_eq (y : labels) (c : Z) : list nat := where_from 0 y c.

(** [y[indices]] *)
Definition take (y : labels) (indices : list nat) : result labels :=
  mapM (getitem y) indices.

Definition negative_bincount : exn :=
  ValueError "'list' argument must have no negative elements".
Definition empty_maximum : exn :=
  ValueError "zero-size array to reduction operation maximum which has no identity".

(** How often [v] occurs in [x]. *)
Definition occurrences (v : Z) (x : labels) : Z :=
  Z.of_nat (length (List.filter (Z.eqb v) x)).

(** [np.bincount]: how often each of 0, ..., max occurs. *)
Definition np_bincount (x : labels) : result (list Z) :=
  match x with
  | [] => Ok []
  | h :: t =>
      if existsb (fun v => (v <? 0)%Z) x then Raise negative_bincount
      else Ok (map (fun k => occurrences (Z.of_nat k) x)
                   (seq 0 (S (Z.to_nat (fold_left Z.max t h)))))
  end.

(** [np.max] of an array of integers *)
Definition np_max_int (l : list Z) : result Z :=
  match l with
  | [] => Raise empty_maximum
  | h :: t => Ok (fold_left Z.max t h)
  end.

(** clustering.py, lines 1086-1104.  [purity] is the Python integer 0
    until the loop has run once, which it has unless there is no sample;
    so the division raises on [N = 0]. *)
Definition purity_score (y_true y_pred : option labels) (decimal : option Z)
  : M npfloat :=
  '(y_true, y_pred, _, decimal) ←
    get_processed_external_data y_true y_pred decimal;
  let N := length y_true in
  let unique_classes := np_unique y_true in
  purity ← lift (
    for_each unique_classes (fun c purity =>
      let class_indices := np_where_eq y_true c in
      class_predictions ← take y_pred class_indices;
      class_counts ← np_bincount class_predictions;
      m ← np_max_int class_counts;
      mret (purity + m)%Z) 0%Z);
  r ← lift (truediv (IZR purity) (IZR (Z.of_nat N)));
  mret (Np.round (Num r) decimal).

(** The predicted labels of the samples whose true label is [c]. *)
Definition class_predictions_of (y_true y_pred : labels) (c : Z) : labels :=
  map snd (List.filter (fun tp => (fst tp =? c)%Z) (combine y_true y_pred)).

(** The size of the majority among the predicted labels [x] of one class. *)
Definition majority (x : labels) : Z :=
  match x with
  | [] => 0%Z
  | h :: t =>
      fold_left Z.max
        (map (fun k => occurrences (Z.of_nat k) x)
             (seq 1 (Z.to_nat (fold_left Z.max t h))))
        (occurrences 0 x)
  end.

(** A list in strictly increasing order. *)
Fixpoint increasing (l : list Z) : Prop :=
  match l with
  | [] => True
  | x :: t => (forall y, In y t -> (x < y)%Z) /\ increasing t
  end.

(** The predicted label is a function of the true label. *)
Definition determined_by (y_true y_pred : labels) : Prop :=
  forall x u v, In (x, u) (combine y_true y_pred) ->
                In (x, v) (combine y_true y_pred) -> u = v.

(** The vectors a call evaluates: those of the call when it passes [y_pred],
    else those of the instance (the branches of
    [get_processed_external_data] and [get_processed_internal_data]). *)
Definition resolve_external (self : ClusteringMetric)
  (y_true y_pred : option labels) : option (labels * labels) :=
  match y_pred with
  | None =>
      match self_y_pred self, self_y_true self with
      | Some sp, Some st => Some (st, sp)
      | _, _ => None
      end
  | Some yp =>
      match y_true with
      | Some yt => Some (yt, yp)
      | None => None
      end
  end.

Definition resolve_internal (self : ClusteringMetric)
  (y_pred : option labels) : option labels :=
  match y_pred with
  | None => self_y_pred self
  | Some yp => Some yp
  end.

Definition resolve_X (self : ClusteringMetric) (X : option matrix)
  : option matrix :=
  match X with
  | None => self_X self
  | Some X => Some X
  end.

(** The instance after [self.le = le]. *)
Definition with_le (self : ClusteringMetric) (le : encoders)
  : ClusteringMetric := snd (set_le le self).

(** The evaluator [ClusteringMetric()] with every argument at its default. *)
Definition default_evaluator : ClusteringMetric :=
  init None None None 5 false None None.

(** The loop states of the Fowlkes-Mallows score on ([a], [b]) and on
    ([b], [a]): [FP] and [FN] trade places; likewise [yn] and [ny] of the
    contingency tuple. *)
Definition swap_FP_FN (s1 s2 : Z * Z * Z) : Prop :=
  let '(TP1, FP1, FN1) := s1 in
  let '(TP2, FP2, FN2) := s2 in
  TP1 = TP2 /\ FP1 = FN2 /\ FN1 = FP2.

Definition swap_yn_ny (c1 c2 : Z * Z * Z * Z) : Prop :=
  let '(yy1, yn1, ny1, nn1) := c1 in
  let '(yy2, yn2, ny2, nn2) := c2 in
  yy1 = yy2 /\ yn1 = ny2 /\ ny1 = yn2 /\ nn1 = nn2.

(** The external scores of this development, by the short codes the class
    binds to them (clustering.py, lines 1205-1227). *)
Inductive external_code : Type :=
| RaS | FMS | HS | CS | VMS | PrS | ReS | FmS | CDS | HGS | JS | KS | MNS
| PhS | RTS | RRS | SS1S | SS2S | TS.

Definition external_metric (compute_homogeneity : labels -> labels -> npfloat)
  (code : external_code)
  : option labels -> option labels -> option Z -> M npfloat :=
  match code with
  | RaS => rand_score
  | FMS => fowlkes_mallows_score
  | HS => homogeneity_score compute_homogeneity
  | CS => completeness_score compute_homogeneity
  | VMS => v_measure_score compute_homogeneity
  | PrS => precision_score
  | ReS => recall_score
  | FmS => f_measure_score
  | CDS => czekanowski_dice_score
  | HGS => hubert_gamma_score
  | JS => jaccard_score
  | KS => kulczynski_score
  | MNS => mc_nemar_score
  | PhS => phi_score
  | RTS => rogers_tanimoto_score
  | RRS => russel_rao_score
  | SS1S => sokal_sneath1_score
  | SS2S => sokal_sneath2_score
  | TS => tau_score
  end.

End Clustering.

(** ** Arrays of floats *)

Module Arr.

(** A one-dimensional array during a computation. *)
Definition arr := list npfloat.

Definition of_list (l : list R) : arr := map Num l.

Definition zip_with {A B C} (f : A -> B -> C) (a : list A) (b : list B)
  : list C :=
  map (fun ab => f (fst ab) (snd ab)) (combine a b).

(** Element by element: [a - b], [a * b], [a / b], [a + b] *)
Definition vsub (a b : arr) : arr := zip_with Np.sub a b.
Definition vmul (a b : arr) : arr := zip_with Np.mul a b.
Definition vdiv (a b : arr) : arr := zip_with Np.div a b.
Definition vadd (a b : arr) : arr := zip_with Np.add a b.

(** An array against a scalar: [a - s], [s * a], [a + s] *)
Definition vsub_s (a : arr) (s : npfloat) : arr := map (fun x => Np.sub x s) a.
Definition smul (s : npfloat) (a : arr) : arr := map (Np.mul s) a.
Definition vadd_s (a : arr) (s : npfloat) : arr := map (fun x => Np.add x s) a.

Definition vabs (a : arr) : arr := map Np.abs a.
(** [a ** 2] *)
Definition vsq (a : arr) : arr := map Np.sq a.

(** [np.std]: the square root of the mean squared deviation from the mean. *)
Definition std (a : arr) : npfloat :=
  Np.sqrt (Np.mean (vsq (vabs (vsub_s a (Np.mean a))))).

(** [np.var]: the mean squared deviation from the mean. *)
Definition var (a : arr) : npfloat :=
  Np.mean (vsq (vabs (vsub_s a (Np.mean a)))).

(** [np.log] *)
Definition log (a : npfloat) : npfloat :=
  match a with
  | Num r => if Rlt_dec 0 r then Num (ln r)
             else if Rlt_dec r 0 then NaN else NInf
  | PInf => PInf
  | NInf | NaN => NaN
  end.

(** [np.max], [np.min] of a one-dimensional array; on an empty array they
    raise.  A [nan] entry makes the result [nan]. *)
Definition max2 (a b : npfloat) : npfloat :=
  match a, b with
  | NaN, _ | _, NaN => NaN
  | _, _ => if Np.ge a b then a else b
  end.
Definition min2 (a b : npfloat) : npfloat :=
  match a, b with
  | NaN, _ | _, NaN => NaN
  | _, _ => if Np.le a b then a else b
  end.

(** The message names the reduction. *)
Definition empty_reduction : exn :=
  ValueError
    "zero-size array to reduction operation maximum which has no identity".
Definition empty_minimum : exn :=
  ValueError
    "zero-size array to reduction operation minimum which has no identity".

Definition max (a : arr) : result npfloat :=
  match a with
  | [] => Raise empty_reduction
  | x :: t => Ok (fold_left max2 t x)
  end.
Definition min (a : arr) : result npfloat :=
  match a with
  | [] => Raise empty_minimum
  | x :: t => Ok (fold_left min2 t x)
  end.

(** Sum of a list of reals, for statements about finite data. *)
Definition Rsum (l : list R) : R := fold_right Rplus 0 l.

End Arr.

Import Arr(arr, of_list, zip_with, vsub, vmul, vdiv, vadd, vsub_s, smul,
           vadd_s, vabs, vsq, std, Rsum).

(** ** The evaluator base class *)

Module Evaluator.

(** Modelled from the spec: [permetrics/evaluator.py], the base class with
    [get_preprocessed_data] and [get_multi_output_result], is not among the
    sources.  Sections 4.1, 4.5 and 6 of the specification:
    - an input is a one-dimensional array, or a matrix of shape (N, M) whose
      columns are evaluated independently; it is kept here as the list of
      its columns;
    - [y_true] and [y_pred] are those of the call, else those of the
      instance; a metric fails if one is absent from both;
    - [ShapeError] if the lengths of [y_true] and [y_pred] differ;
    - [positive_only] keeps the entries where both values are strictly
      positive; [clean] drops the rows where [y_pred] is zero; both are
      applied to each column independently;
    - a one-dimensional array, or a matrix with M = 1, is a single column;
      a matrix with M > 1 is not;
    - [decimal] is that of the instance when unspecified; [ValueError] if it
      is negative;
    - [multi_output = "raw_values"] returns the rounded vector; a sequence
      of M weights returns the weighted sum over the sum of the weights,
      rounded. *)

Inductive ndarray : Type :=
| Arr1 (v : list R)
| Arr2 (columns : list (list R)).

Record RegressionMetric := {
  self_y_true : option ndarray;
  self_y_pred : option ndarray;
  self_decimal : Z
}.

(** [RegressionMetric(y_true, y_pred, decimal=5)] *)
Definition init (y_true y_pred : option ndarray) (decimal : Z)
  : RegressionMetric :=
  {| self_y_true := y_true; self_y_pred := y_pred; self_decimal := decimal |}.

(** The evaluator [RegressionMetric()] with every argument at its default. *)
Definition default_evaluator : RegressionMetric := init None None 5.

(** [(y_true, y_pred, one_dim)] after preprocessing: two vectors when
    [one_dim] holds, else two lists of columns. *)
Inductive prepared : Type :=
| OneDim (y_true y_pred : list R)
| MultiDim (y_true y_pred : list (list R)).

Definition one_dim (d : prepared) : bool :=
  match d with OneDim _ _ => true | MultiDim _ _ => false end.

(** The arrays of a prepared pair, to pass them on to another metric. *)
Definition arrays (d : prepared) : option ndarray * option ndarray :=
  match d with
  | OneDim t p => (Some (Arr1 t), Some (Arr1 p))
  | MultiDim ts ps => (Some (Arr2 ts), Some (Arr2 ps))
  end.

Definition positive (x : R) : bool := if Rlt_dec 0 x then true else false.
Definition nonzero (x : R) : bool := if Req_dec_T x 0 then false else true.

(** Whether a sample (true, predicted) is kept. *)
Definition keep (clean positive_only : bool) (tp : R * R) : bool :=
  (if positive_only then positive (fst tp) && positive (snd tp) else true)
  && (if clean then nonzero (snd tp) else true).

(** The samples of one column that are kept. *)
Definition retained (clean positive_only : bool) (t p : list R)
  : list (R * R) :=
  List.filter (keep clean positive_only) (combine t p).

Definition filter_column (clean positive_only : bool) (t p : list R)
  : list R * list R :=
  let kept := retained clean positive_only t p in
  (map fst kept, map snd kept).

Definition missing_input : exn :=
  ValueError "y_true or y_pred is missing from the call and the instance".
Definition different_length : exn :=
  ShapeError "y_true and y_pred have different lengths".
Definition negative_decimal : exn :=
  ValueError "decimal must be a non-negative integer".

Fixpoint same_lengths (ts ps : list (list R)) : bool :=
  match ts, ps with
  | [], [] => true
  | t :: ts', p :: ps' => (length t =? length p) && same_lengths ts' ps'
  | _, _ => false
  end.

Definition get_preprocessed_data (self : RegressionMetric)
  (y_true y_pred : option ndarray) (clean : bool) (decimal : option Z)
  (positive_only : bool) : result (prepared * Z) :=
  let y_true := match y_true with Some _ => y_true | None => self_y_true self end in
  let y_pred := match y_pred with Some _ => y_pred | None => self_y_pred self end in
  match y_true, y_pred with
  | Some yt, Some yp =>
      data ← match yt, yp with
             | Arr1 t, Arr1 p =>
                 if length t =? length p
                 then let '(t', p') := filter_column clean positive_only t p in
                      Ok (OneDim t' p')
                 else Raise different_length
             | Arr2 [t], Arr2 [p] =>
                 if length t =? length p
                 then let '(t', p') := filter_column clean positive_only t p in
                      Ok (OneDim t' p')
                 else Raise different_length
             | Arr2 ts, Arr2 ps =>
                 if same_lengths ts ps
                 then let cols := zip_with (filter_column clean positive_only)
                                           ts ps in
                      Ok (MultiDim (map fst cols) (map snd cols))
                 else Raise different_length
             | _, _ => Raise different_length
             end;
      let decimal := default (self_decimal self) decimal in
      if (decimal <? 0)%Z then Raise negative_decimal
      else Ok (data, decimal)
  | _, _ => Raise missing_input
  end.

Inductive multi_output : Type :=
| raw_values
| weights (w : list R).

(** What a metric returns: a number, or one number per column. *)
Inductive value : Type :=
| Scalar (x : npfloat)
| Vector (xs : arr).

Definition round_value (v : value) (decimal : Z) : value :=
  match v with
  | Scalar x => Scalar (Np.round x decimal)
  | Vector xs => Vector (map (fun x => Np.round x decimal) xs)
  end.

Definition decimals_not_an_integer : exn :=
  TypeError "'NoneType' object cannot be interpreted as an integer".

(** [np.round(v, decimal)] where [decimal] is an argument that may still be
    [None]: numpy wants an integer. *)
Definition np_round (v : value) (decimal : option Z) : result value :=
  match decimal with
  | Some d => Ok (round_value v d)
  | None => Raise decimals_not_an_integer
  end.

Definition weights_length : exn :=
  ValueError "multi_output must have one weight for each column".

Definition get_multi_output_result (result : arr) (mo : multi_output)
  (decimal : Z) : Py.result value :=
  match mo with
  | raw_values => Ok (Vector (map (fun x => Np.round x decimal) result))
  | weights w =>
      if length w =? length result
      then Ok (Scalar (Np.round
                 (Np.div (Np.sum (vmul result (of_list w)))
                         (Np.sum (of_list w))) decimal))
      else Raise weights_length
  end.

End Evaluator.

(** ** regression.py *)

Module Regression.

Import Evaluator.

(** [len(y_true)] of a matrix: the number of its rows. *)
Definition len2 (columns : list (list R)) : nat := length (hd [] columns).

Definition len_f (n : nat) : npfloat := Num (INR n).

(** A reduction along [axis=0]: one result for each column. *)
Definition axis0 (f : arr -> arr -> npfloat) (y_true y_pred : list (list R))
  : arr :=
  zip_with (fun t p => f (of_list t) (of_list p)) y_true y_pred.

Section Metrics.

Variable self : RegressionMetric.

(** regression.py, lines 93-98 *)
Definition mean_absolute_error (y_true y_pred : option ndarray)
  (multi_output : multi_output) (decimal : option Z)
  (clean positive_only : bool) : result value :=
  '(data, decimal) ←
    get_preprocessed_data self y_true y_pred clean decimal positive_only;
  match data with
  | OneDim y_true y_pred =>
      let t := of_list y_true in let p := of_list y_pred in
      mret (Scalar (Np.round (Np.div (Np.sum (vabs (vsub p t)))
                                     (len_f (length y_true))) decimal))
  | MultiDim y_true y_pred =>
      let result := axis0 (fun t p =>
        Np.div (Np.sum (vabs (vsub p t))) (len_f (len2 y_true)))
        y_true y_pred in
      get_multi_output_result result multi_output decimal
  end.

(** regression.py, lines 115-120 *)
Definition mean_squared_error (y_true y_pred : option ndarray)
  (multi_output : multi_output) (decimal : option Z)
  (clean positive_only : bool) : result value :=
  '(data, decimal) ←
    get_preprocessed_data self y_true y_pred clean decimal positive_only;
  match data with
  | OneDim y_true y_pred =>
      let t := of_list y_true in let p := of_list y_pred in
      mret (Scalar (Np.round (Np.div (Np.sum (vsq (vsub p t)))
                                     (len_f (length y_true))) decimal))
  | MultiDim y_true y_pred =>
      let result := axis0 (fun t p =>
        Np.div (Np.sum (vsq (vsub p t))) (len_f (len2 y_true)))
        y_true y_pred in
      get_multi_output_result result multi_output decimal
  end.

(** regression.py, lines 137-142 *)
Definition root_mean_squared_error (y_true y_pred : option ndarray)
  (multi_output : multi_output) (decimal : option Z)
  (clean positive_only : bool) : result value :=
  '(data, decimal) ←
    get_preprocessed_data self y_true y_pred clean decimal positive_only;
  match data with
  | OneDim y_true y_pred =>
      let t := of_list y_true in let p := of_list y_pred in
      mret (Scalar (Np.round
        (Np.sqrt (Np.div (Np.sum (vsq (vsub p t))) (len_f (length y_true))))
        decimal))
  | MultiDim y_true y_pred =>
      let result := axis0 (fun t p =>
        Np.sqrt (Np.div (Np.sum (vsq (vsub p t))) (len_f (len2 y_true))))
        y_true y_pred in
      get_multi_output_result result multi_output decimal
  end.

(** regression.py, lines 225-230 *)
Definition mape_formula (t p : arr) : npfloat :=
  Np.mean (vdiv (vabs (vsub t p)) (vabs t)).

Definition mean_absolute_percentage_error (y_true y_pred : option ndarray)
  (multi_output : multi_output) (decimal : option Z)
  (clean positive_only : bool) : result value :=
  '(data, decimal) ←
    get_preprocessed_data self y_true y_pred clean decimal positive_only;
  match data with
  | OneDim y_true y_pred =>
      mret (Scalar (Np.round
        (mape_formula (of_list y_true) (of_list y_pred)) decimal))
  | MultiDim y_true y_pred =>
      let result := axis0 mape_formula y_true y_pred in
      get_multi_output_result result multi_output decimal
  end.

(** regression.py, lines 249-254 *)
Definition smape_formula (t p : arr) : npfloat :=
  Np.mean (vdiv (smul (Num 2) (vabs (vsub p t))) (vadd (vabs t) (vabs p))).

Definition symmetric_mean_absolute_percentage_error
  (y_true y_pred : option ndarray)
  (multi_output : multi_output) (decimal : option Z)
  (clean positive_only : bool) : result value :=
  '(data, decimal) ←
    get_preprocessed_data self y_true y_pred clean decimal positive_only;
  match data with
  | OneDim y_true y_pred =>
      mret (Scalar (Np.round
        (smape_formula (of_list y_true) (of_list y_pred)) decimal))
  | MultiDim y_true y_pred =>
      let result := axis0 smape_formula y_true y_pred in
      get_multi_output_result result multi_output decimal
  end.

(** regression.py, lines 322-327 *)
Definition nse_formula (t p : arr) : npfloat :=
  Np.sub (Num 1)
         (Np.div (Np.sum (vsq (vsub t p)))
                 (Np.sum (vsq (vsub_s t (Np.mean t))))).

Definition nash_sutcliffe_efficiency (y_true y_pred : option ndarray)
  (multi_output : multi_output) (decimal : option Z)
  (clean positive_only : bool) : result value :=
  '(data, decimal) ←
    get_preprocessed_data self y_true y_pred clean decimal positive_only;
  match data with
  | OneDim y_true y_pred =>
      mret (Scalar (Np.round
        (nse_formula (of_list y_true) (of_list y_pred)) decimal))
  | MultiDim y_true y_pred =>
      let result := axis0 nse_formula y_true y_pred in
      get_multi_output_result result multi_output decimal
  end.

(** regression.py, lines 348-355 *)
Definition wi_formula (t p : arr) : npfloat :=
  let m1 := Np.mean t in
  Np.sub (Num 1)
         (Np.div (Np.sum (vsq (vsub p t)))
                 (Np.sum (vsq (vadd (vabs (vsub_s p m1))
                                    (vabs (vsub_s t m1)))))).

Definition willmott_index (y_true y_pred : option ndarray)
  (multi_output : multi_output) (decimal : option Z)
  (clean positive_only : bool) : result value :=
  '(data, decimal) ←
    get_preprocessed_data self y_true y_pred clean decimal positive_only;
  match data with
  | OneDim y_true y_pred =>
      mret (Scalar (Np.round
        (wi_formula (of_list y_true) (of_list y_pred)) decimal))
  | MultiDim y_true y_pred =>
      let result := axis0 wi_formula y_true y_pred in
      get_multi_output_result result multi_output decimal
  end.

(** regression.py, lines 376-381: the expressions of lines 322-327 again *)
Definition coefficient_of_determination (y_true y_pred : option ndarray)
  (multi_output : multi_output) (decimal : option Z)
  (clean positive_only : bool) : result value :=
  '(data, decimal) ←
    get_preprocessed_data self y_true y_pred clean decimal positive_only;
  match data with
  | OneDim y_true y_pred =>
      mret (Scalar (Np.round
        (nse_formula (of_list y_true) (of_list y_pred)) decimal))
  | MultiDim y_true y_pred =>
      let result := axis0 nse_formula y_true y_pred in
      get_multi_output_result result multi_output decimal
  end.

Definition numpy_has_no_m1 : exn :=
  AttributeError "module 'numpy' has no attribute 'm1'".

(** regression.py, lines 408-411, one column *)
Definition pearson_formula (t p : arr) : npfloat :=
  let m1 := Np.mean t in
  let m2 := Np.mean p in
  let numerator := Np.sum (vmul (vsub_s t m1) (vsub_s p m2)) in
  let denominator :=
    Np.mul (Np.sqrt (Np.sum (vsq (vsub_s t m1))))
           (Np.sqrt (Np.sum (vsq (vsub_s p m2)))) in
  Np.div numerator denominator.

(** regression.py, lines 403-411.  The one-dimensional branch (line 406)
    reads [np.m1], an attribute numpy does not have, where [m1] is meant:
    evaluating the expression raises. *)
Definition pearson_correlation_coefficient (y_true y_pred : option ndarray)
  (multi_output : multi_output) (decimal : option Z)
  (clean positive_only : bool) : result value :=
  '(data, decimal) ←
    get_preprocessed_data self y_true y_pred clean decimal positive_only;
  match data with
  | OneDim y_true y_pred => Raise numpy_has_no_m1
  | MultiDim y_true y_pred =>
      let result := axis0 pearson_formula y_true y_pred in
      get_multi_output_result result multi_output decimal
  end.

(** An operation on a returned value, element by element on a vector. *)
Definition value_map (f : npfloat -> npfloat) (v : value) : value :=
  match v with
  | Scalar x => Scalar (f x)
  | Vector xs => Vector (map f xs)
  end.

Definition value_mapM (f : npfloat -> result npfloat) (v : value)
  : result value :=
  match v with
  | Scalar x => y ← f x; mret (Scalar y)
  | Vector xs => ys ← mapM f xs; mret (Vector ys)
  end.

(** [r * d] on returned values, a scalar stretched along a vector. *)
Definition value_mul (a b : value) : value :=
  match a, b with
  | Scalar x, Scalar y => Scalar (Np.mul x y)
  | Scalar x, Vector ys => Vector (map (Np.mul x) ys)
  | Vector xs, Scalar y => Vector (map (fun x => Np.mul x y) xs)
  | Vector xs, Vector ys => Vector (vmul xs ys)
  end.

(** regression.py, lines 435-436 *)
Definition pearson_correlation_coefficient_square
  (y_true y_pred : option ndarray)
  (multi_output : multi_output) (decimal : option Z)
  (clean positive_only : bool) : result value :=
  result ← pearson_correlation_coefficient y_true y_pred multi_output decimal
             clean positive_only;
  np_round (value_map Np.sq result) decimal.

(** regression.py, lines 463-465 *)
Definition confidence_index (y_true y_pred : option ndarray)
  (multi_output : multi_output) (decimal : option Z)
  (clean positive_only : bool) : result value :=
  r ← pearson_correlation_coefficient y_true y_pred multi_output decimal
        clean positive_only;
  d ← willmott_index y_true y_pred multi_output decimal clean positive_only;
  np_round (value_mul r d) decimal.

(** A returned value against an array of M entries. *)
Definition broadcast (v : value) (M : nat) : arr :=
  match v with
  | Scalar x => repeat x M
  | Vector xs => xs
  end.

Definition beta_formula (t p : arr) : npfloat :=
  Np.div (Np.mean p) (Np.mean t).

Definition gamma_formula (t p : arr) : npfloat :=
  Np.div (Np.div (std p) (Np.mean p)) (Np.div (std t) (Np.mean t)).

Definition kge_formula (r beta gamma : npfloat) : npfloat :=
  Np.sub (Num 1)
    (Np.sqrt (Np.add (Np.add (Np.sq (Np.sub r (Num 1)))
                             (Np.sq (Np.sub beta (Num 1))))
                     (Np.sq (Np.sub gamma (Num 1))))).

(** regression.py, lines 510-520.  [r] is what the public
    [pearson_correlation_coefficient] returns for the arrays already
    preprocessed. *)
Definition kling_gupta_efficiency (y_true y_pred : option ndarray)
  (multi_output : multi_output) (decimal : option Z)
  (clean positive_only : bool) : result value :=
  '(data, decimal) ←
    get_preprocessed_data self y_true y_pred clean decimal positive_only;
  r ← pearson_correlation_coefficient (fst (arrays data)) (snd (arrays data))
        multi_output (Some decimal) clean positive_only;
  match data with
  | OneDim y_true y_pred =>
      let t := of_list y_true in let p := of_list y_pred in
      let beta := beta_formula t p in
      let gamma := gamma_formula t p in
      mret (round_value (value_map (fun r => kge_formula r beta gamma) r)
                        decimal)
  | MultiDim y_true y_pred =>
      let beta := axis0 beta_formula y_true y_pred in
      let gamma := axis0 gamma_formula y_true y_pred in
      let result :=
        zip_with (fun r bg => kge_formula r (fst bg) (snd bg))
                 (broadcast r (length y_true)) (combine beta gamma) in
      get_multi_output_result result multi_output decimal
  end.

(** [np.where(np.logical_and(div >= lo, div <= hi), 1, 0)] *)
Definition within (lo hi : R) (div : arr) : arr :=
  map (fun x => if Np.ge x (Num lo) && Np.le x (Num hi) then Num 1 else Num 0)
      div.

Definition a_index_formula (lo hi : R) (t p : arr) : npfloat :=
  let div := vdiv t p in
  let div := within lo hi div in
  Np.mean div.

(** regression.py, lines 873-882 *)
Definition a10_index (y_true y_pred : option ndarray)
  (multi_output : multi_output) (decimal : option Z)
  (clean positive_only : bool) : result value :=
  '(data, decimal) ←
    get_preprocessed_data self y_true y_pred clean decimal positive_only;
  match data with
  | OneDim y_true y_pred =>
      mret (Scalar (Np.round
        (a_index_formula 0.9 1.1 (of_list y_true) (of_list y_pred)) decimal))
  | MultiDim y_true y_pred =>
      get_multi_output_result (axis0 (a_index_formula 0.9 1.1) y_true y_pred)
                              multi_output decimal
  end.

(** regression.py, lines 904-913 *)
Definition a20_index (y_true y_pred : option ndarray)
  (multi_output : multi_output) (decimal : option Z)
  (clean positive_only : bool) : result value :=
  '(data, decimal) ←
    get_preprocessed_data self y_true y_pred clean decimal positive_only;
  match data with
  | OneDim y_true y_pred =>
      mret (Scalar (Np.round
        (a_index_formula 0.8 1.2 (of_list y_true) (of_list y_pred)) decimal))
  | MultiDim y_true y_pred =>
      get_multi_output_result (axis0 (a_index_formula 0.8 1.2) y_true y_pred)
                              multi_output decimal
  end.

(** The divisor of [rmse] for [model] 1, 2 and any other but 3; for
    [model == 3] the result does not use [rmse]. *)
Definition log_ratio_rms (n : nat) (t p : arr) : npfloat :=
  Np.sqrt (Np.div
    (Np.sum (vsq (map Arr.log (vdiv (vadd_s p (Num 1)) (vadd_s t (Num 1))))))
    (len_f n)).

Definition nrmse_column (model : Z) (n : nat) (rmse : npfloat) (t p : arr)
  : result npfloat :=
  if (model =? 1)%Z then mret (Np.div rmse (Np.mean p))
  else if (model =? 2)%Z then
    hi ← Arr.max t;
    lo ← Arr.min t;
    mret (Np.div rmse (Np.sub hi lo))
  else if (model =? 3)%Z then mret (log_ratio_rms n t p)
  else mret (Np.div rmse (std p)).

(** regression.py, lines 935-956.  [rmse] is what the public
    [root_mean_squared_error] returns for the arrays already preprocessed. *)
Definition normalized_root_mean_square_error (y_true y_pred : option ndarray)
  (model : Z) (multi_output : multi_output) (decimal : option Z)
  (clean positive_only : bool) : result value :=
  '(data, decimal) ←
    get_preprocessed_data self y_true y_pred clean decimal positive_only;
  rmse ← root_mean_squared_error (fst (arrays data)) (snd (arrays data))
           multi_output (Some decimal) clean positive_only;
  match data with
  | OneDim y_true y_pred =>
      let t := of_list y_true in let p := of_list y_pred in
      result ← value_mapM (fun rmse =>
                 nrmse_column model (length y_true) rmse t p) rmse;
      mret (round_value result decimal)
  | MultiDim y_true y_pred =>
      result ← mapM (fun x =>
                 nrmse_column model (len2 y_true) (fst x)
                   (of_list (fst (snd x))) (of_list (snd (snd x))))
               (combine (broadcast rmse (length y_true))
                        (combine y_true y_pred));
      get_multi_output_result result multi_output decimal
  end.

(** regression.py, lines 71-76.  [np.max] of an empty array raises. *)
Definition max_error (y_true y_pred : option ndarray)
  (multi_output : multi_output) (decimal : option Z)
  (clean positive_only : bool) : result value :=
  '(data, decimal) ←
    get_preprocessed_data self y_true y_pred clean decimal positive_only;
  match data with
  | OneDim y_true y_pred =>
      m ← Arr.max (vabs (vsub (of_list y_true) (of_list y_pred)));
      mret (Scalar (Np.round m decimal))
  | MultiDim y_true y_pred =>
      result ← mapM (fun tp =>
                 Arr.max (vabs (vsub (of_list (fst tp)) (of_list (snd tp)))))
               (combine y_true y_pred);
      get_multi_output_result result multi_output decimal
  end.

(** regression.py, lines 49-54 *)
Definition evs_formula (t p : arr) : npfloat :=
  Np.sub (Num 1) (Np.div (Arr.var (vsub t p)) (Arr.var t)).

Definition explained_variance_score (y_true y_pred : option ndarray)
  (multi_output : multi_output) (decimal : option Z)
  (clean positive_only : bool) : result value :=
  '(data, decimal) ←
    get_preprocessed_data self y_true y_pred clean decimal positive_only;
  match data with
  | OneDim y_true y_pred =>
      mret (Scalar (Np.round
        (evs_formula (of_list y_true) (of_list y_pred)) decimal))
  | MultiDim y_true y_pred =>
      let result := axis0 evs_formula y_true y_pred in
      get_multi_output_result result multi_output decimal
  end.

(** regression.py, lines 203-208 *)
Definition mre_formula (t p : arr) : npfloat :=
  Np.mean (vdiv (vabs (vsub t p)) t).

Definition mean_relative_error (y_true y_pred : option ndarray)
  (multi_output : multi_output) (decimal : option Z)
  (clean positive_only : bool) : result value :=
  '(data, decimal) ←
    get_preprocessed_data self y_true y_pred clean decimal positive_only;
  match data with
  | OneDim y_true y_pred =>
      mret (Scalar (Np.round
        (mre_formula (of_list y_true) (of_list y_pred)) decimal))
  | MultiDim y_true y_pred =>
      let result := axis0 mre_formula y_true y_pred in
      get_multi_output_result result multi_output decimal
  end.

(** regression.py, lines 159-164 *)
Definition msle_formula (n : nat) (t p : arr) : npfloat :=
  Np.div (Np.sum (vsq (map Arr.log (vdiv t p)))) (len_f n).

Definition mean_squared_log_error (y_true y_pred : option ndarray)
  (multi_output : multi_output) (decimal : option Z)
  (clean positive_only : bool) : result value :=
  '(data, decimal) ←
    get_preprocessed_data self y_true y_pred clean decimal positive_only;
  match data with
  | OneDim y_true y_pred =>
      mret (Scalar (Np.round
        (msle_formula (length y_true) (of_list y_true) (of_list y_pred))
        decimal))
  | MultiDim y_true y_pred =>
      let result := axis0 (msle_formula (len2 y_true)) y_true y_pred in
      get_multi_output_result result multi_output decimal
  end.

(** What a metric of single samples returns: an array of the shape of the
    data, one entry for each sample; a matrix is kept as its columns. *)
Inductive samples : Type :=
| Row (xs : arr)
| Columns (columns : list arr).

Definition each_sample (f : arr -> arr -> arr) (data : prepared) : samples :=
  match data with
  | OneDim y_true y_pred => Row (f (of_list y_true) (of_list y_pred))
  | MultiDim y_true y_pred =>
      Columns (zip_with (fun t p => f (of_list t) (of_list p)) y_true y_pred)
  end.

Definition round_samples (s : samples) (decimal : Z) : samples :=
  match s with
  | Row xs => Row (map (fun x => Np.round x decimal) xs)
  | Columns cs => Columns (map (map (fun x => Np.round x decimal)) cs)
  end.

(** regression.py, lines 1029-1030 *)
Definition single_absolute_error (y_true y_pred : option ndarray)
  (decimal : option Z) (clean positive_only : bool) : result samples :=
  '(data, decimal) ←
    get_preprocessed_data self y_true y_pred clean decimal positive_only;
  mret (round_samples (each_sample (fun t p => vsub (vabs t) (vabs p)) data)
                      decimal).

(** regression.py, lines 1050-1051 *)
Definition single_squared_error (y_true y_pred : option ndarray)
  (decimal : option Z) (clean positive_only : bool) : result samples :=
  '(data, decimal) ←
    get_preprocessed_data self y_true y_pred clean decimal positive_only;
  mret (round_samples (each_sample (fun t p => vsq (vsub t p)) data) decimal).

End Metrics.

(** *** The words of the specification *)

(** The fraction of the samples that satisfy [P] ([nan] of no samples). *)
Definition fraction {A} (P : A -> bool) (l : list A) : npfloat :=
  Np.div (Num (INR (length (List.filter P l)))) (Num (INR (length l))).

(** Whether the ratio [num / den] lies in the interval [[lo, hi]]. *)
Definition ratio_within (lo hi : R) (num den : R) : bool :=
  Np.ge (Np.div (Num num) (Num den)) (Num lo)
  && Np.le (Np.div (Num num) (Num den)) (Num hi).

(** The samples evaluated when [y] is both [y_true] and [y_pred]. *)
Definition kept (clean positive_only : bool) (y : list R) : list R :=
  map fst (retained clean positive_only y y).

Definition not_constant (y : list R) : Prop :=
  exists a b, In a y /\ In b y /\ a <> b.

(** The root mean squared error before any rounding. *)
Definition rmse_unrounded (t p : list R) : npfloat :=
  Np.sqrt (Np.div (Np.sum (vsq (vsub (of_list p) (of_list t))))
                  (len_f (length t))).

(** The normalised RMSE of one column with rounding as the final step only:
    the unrounded RMSE over its divisor, then rounded. *)
Definition nrmse_rounded_once (model : Z) (t p : list R) (decimal : Z)
  : result value :=
  result ← nrmse_column model (length t) (rmse_unrounded t p)
             (of_list t) (of_list p);
  mret (Scalar (Np.round result decimal)).

(** The absolute and the squared errors of the samples kept, each a pair
    (true, predicted). *)
Definition abs_errors (K : list (R * R)) : list R :=
  map (fun x => Rabs (snd x - fst x)) K.
Definition sq_errors (K : list (R * R)) : list R :=
  map (fun x => (snd x - fst x) * (snd x - fst x)) K.

(** A sample with [y_true] and [y_pred] in each other's place. *)
Definition swap_pair (x : R * R) : R * R := (snd x, fst x).

(** A [multi_output] that fits M columns: ["raw_values"], or M weights whose
    sum is not zero. *)
Definition usable (mo : multi_output) (M : nat) : Prop :=
  match mo with
  | raw_values => True
  | weights w => length w = M /\ Rsum w <> 0
  end.

(** The value [c] for each of M columns, as [multi_output] shapes it. *)
Definition const_result (mo : multi_output) (M : nat) (c : R) : value :=
  match mo with
  | raw_values => Vector (repeat (Num c) M)
  | weights _ => Scalar (Num c)
  end.

(** *** Dispatch by name *)

(** Printing, and leaving through [exit]: a call takes what has been printed
    so far and gives its outcome and what has been printed after it. *)
Definition IO (A : Type) : Type := list string -> result A * list string.

#[global] Instance IO_ret : MRet IO := fun A a out => (Ok a, out).
#[global] Instance IO_bind : MBind IO := fun A B k m out =>
  match m out with
  | (Ok a, out') => k a out'
  | (Raise e, out') => (Raise e, out')
  end.

Definition print (line : string) : IO unit := fun out => (Ok tt, out ++ [line]).
(** [exit(code)] raises [SystemExit]. *)
Definition exit {A} (code : Z) : IO A := fun out => (Raise (SystemExit code), out).
Definition io {A} (r : result A) : IO A := fun out => (r, out).

Fixpoint for_each_io {X S} (xs : list X) (body : X -> S -> IO S) (s : S)
  : IO S :=
  match xs with
  | [] => mret s
  | x :: xs' => s' ← body x s; for_each_io xs' body s'
  end.

(** [enumerate(xs)] *)
Definition enumerate {X} (xs : list X) : list (nat * X) :=
  combine (seq 0 (length xs)) xs.

Section Dispatch.

(** [getattr(self, name)] and the call of what it gives, without arguments
    or with a dictionary unpacked into keyword arguments, are Python's; the
    section holds for any attribute table and any way of passing the
    dictionary. *)
Variable method : Type.
Variable kwargs : Type.
Variable getattr : string -> result method.
Variable call : method -> option kwargs -> result value.

Definition length_error_message : string :=
  "Permetrics Error! Different length between list of functions and list of parameters.".

(** regression.py, lines 1085-1088 *)
Definition get_metric_by_name (metric_name : string) (paras : option kwargs)
  : result (gmap string value) :=
  let result : gmap string value := ∅ in
  obj ← getattr metric_name;
  v ← call obj paras;
  mret (<[metric_name := v]> result).

(** regression.py, lines 1101-1114.  An entry of [list_paras] is a
    dictionary or [None]. *)
Definition get_metrics_by_list_names (list_metric_names : list string)
  (list_paras : option (list (option kwargs)))
  : IO (gmap string value) :=
  let results : gmap string value := ∅ in
  for_each_io (enumerate list_metric_names) (fun '(idx, metric_name) results =>
    obj ← io (getattr metric_name);
    match list_paras with
    | None =>
        v ← io (call obj None);
        mret (<[metric_name := v]> results)
    | Some list_paras =>
        _ ← (if negb (length list_metric_names =? length list_paras)
             then (_ ← print length_error_message; exit 0)
             else mret tt);
        paras ← io (getitem list_paras idx);
        match paras with
        | None =>
            v ← io (call obj None);
            mret (<[metric_name := v]> results)
        | Some paras =>
            v ← io (call obj (Some paras));
            mret (<[metric_name := v]> results)
        end
    end) results.

(** regression.py, lines 1129-1136.  A dictionary is read through
    [items()], its keys with their values in the order of insertion; a value
    is a dictionary of parameters or [None]. *)
Definition get_metrics_by_dict (metrics_dict : list (string * option kwargs))
  : result (gmap string value) :=
  let results : gmap string value := ∅ in
  for_each metrics_dict (fun '(metric_name, paras_dict) results =>
    obj ← getattr metric_name;
    match paras_dict with
    | None =>
        v ← call obj None;
        mret (<[metric_name := v]> results)
    | Some paras_dict =>
        v ← call obj (Some paras_dict);
        mret (<[metric_name := v]> results)
    end) results.

End Dispatch.

End Regression.

(** * Properties *)

(** ** Loops *)

Module PyFacts.

Lemma for_each_const {X S} (xs : list X) (body : X -> S -> result S) :
  (forall x s, In x xs -> body x s = Ok s) ->
  forall s, for_each xs body s = Ok s.
Proof.
  induction xs as [|x xs IH]; intros Hbody s; simpl.
  - reflexivity.
  - rewrite Hbody by (left; reflexivity). simpl.
    apply IH. intros y t Hy. apply Hbody. right; exact Hy.
Qed.

(** A loop whose every iteration returns, keeps [P] and adds [w x] to a
    measure of the state returns, keeps [P] and adds the sum of the [w x]. *)
Lemma for_each_measure {X S} (P : S -> Prop) (m : S -> Z) (w : X -> Z)
  (xs : list X) (body : X -> S -> result S) :
  (forall x s, In x xs -> P s ->
     exists s', body x s = Ok s' /\ P s' /\ (m s' = m s + w x)%Z) ->
  forall s, P s -> exists s',
    for_each xs body s = Ok s' /\ P s' /\ (m s' = m s + Zsum (map w xs))%Z.
Proof.
  induction xs as [|x xs IH]; intros Hbody s Hs; simpl.
  - exists s. repeat split; [exact Hs | lia].
  - destruct (Hbody x s (or_introl eq_refl) Hs) as (s1 & E1 & P1 & M1).
    rewrite E1. simpl.
    destruct (IH (fun y t Hy => Hbody y t (or_intror Hy)) s1 P1)
      as (s2 & E2 & P2 & M2).
    exists s2. repeat split; [exact E2 | exact P2 | lia].
Qed.

Lemma Zsum_ones {X} (xs : list X) :
  Zsum (map (fun _ => 1%Z) xs) = Z.of_nat (length xs).
Proof.
  induction xs as [|x xs IH]; [reflexivity|].
  cbn [map Zsum fold_right length]. unfold Zsum in IH. lia.
Qed.

(** Two loops over the same sequence whose bodies agree on related states
    agree. *)
Lemma for_each_rel {X S1 S2} (Rel : S1 -> S2 -> Prop) (xs : list X)
  (b1 : X -> S1 -> result S1) (b2 : X -> S2 -> result S2) :
  (forall x s1 s2, In x xs -> Rel s1 s2 ->
     result_rel Rel (b1 x s1) (b2 x s2)) ->
  forall s1 s2, Rel s1 s2 ->
    result_rel Rel (for_each xs b1 s1) (for_each xs b2 s2).
Proof.
  induction xs as [|x xs IH]; intros Hbody s1 s2 Hs; simpl.
  - exact Hs.
  - pose proof (Hbody x s1 s2 (or_introl eq_refl) Hs) as H.
    destruct (b1 x s1) as [t1|e1], (b2 x s2) as [t2|e2]; simpl in *;
      try contradiction.
    + apply IH; [|exact H]. intros y u1 u2 Hy. apply Hbody. right; exact Hy.
    + exact H.
Qed.

Lemma for_pairs_rel {S1 S2} (Rel : S1 -> S2 -> Prop) (n : nat)
  (b1 : nat -> nat -> S1 -> result S1) (b2 : nat -> nat -> S2 -> result S2) :
  (forall i j s1 s2, Rel s1 s2 ->
     result_rel Rel (b1 i j s1) (b2 i j s2)) ->
  forall s1 s2, Rel s1 s2 ->
    result_rel Rel (for_pairs n b1 s1) (for_pairs n b2 s2).
Proof.
  intros Hbody. unfold for_pairs.
  apply for_each_rel. intros i s1 s2 _ Hs.
  apply for_each_rel; [|exact Hs].
  intros j t1 t2 _ Ht. apply Hbody, Ht.
Qed.

Lemma result_rel_eq {A} (r1 r2 : result A) : result_rel eq r1 r2 -> r1 = r2.
Proof.
  destruct r1, r2; simpl; intros H; subst; try reflexivity; contradiction.
Qed.

Lemma in_range (lo hi i : nat) : In i (range lo hi) <-> (lo <= i < hi)%nat.
Proof. unfold range. rewrite in_seq. lia. Qed.

Lemma getitem_lt {A} (l : list A) (i : nat) :
  (i < length l)%nat -> exists x, getitem l i = Ok x.
Proof.
  intros H. unfold getitem.
  destruct (nth_error l i) as [x|] eqn:E.
  - exists x; reflexivity.
  - apply nth_error_None in E. lia.
Qed.

(** The number of pairs [idx < jdx < n]: [(k-1) + (k-2) + ... + 0]. *)
Lemma Zsum_triangle (k a : nat) :
  (2 * Zsum (map (fun idx => Z.of_nat (a + k - (idx + 1))) (seq a k))
   = Z.of_nat k * (Z.of_nat k - 1))%Z.
Proof.
  revert a. induction k as [|k IH]; intros a.
  - reflexivity.
  - cbn [seq map Zsum fold_right].
    specialize (IH (S a)). unfold Zsum in IH.
    replace (S a + k)%nat with (a + S k)%nat in IH by lia.
    replace (a + S k - (a + 1))%nat with k by lia.
    lia.
Qed.

End PyFacts.

(** ** Arithmetic of the idealised floats *)

Module NpFacts.

Lemma add_comm (a b : npfloat) : Np.add a b = Np.add b a.
Proof. destruct a, b; simpl; try reflexivity. f_equal; lra. Qed.

Lemma mul_comm (a b : npfloat) : Np.mul a b = Np.mul b a.
Proof.
  destruct a, b; unfold Np.mul; try reflexivity;
    try (rewrite Z.mul_comm; reflexivity).
  f_equal; lra.
Qed.

Lemma Int_part_IZR (z : Z) : Int_part (IZR z) = z.
Proof. symmetry. apply Int_part_spec. lra. Qed.

Lemma rint_IZR (z : Z) : rint (IZR z) = z.
Proof.
  unfold rint. rewrite Int_part_IZR.
  destruct (Rlt_dec (IZR z - IZR z) (1 / 2)) as [_|H]; [reflexivity|].
  exfalso. apply H. lra.
Qed.

Lemma pow10_pos (d : Z) : 0 < pow10 d.
Proof. unfold pow10. apply pow_lt. lra. Qed.

Lemma pow10_IZR (d : Z) : pow10 d = IZR (10 ^ Z.of_nat (Z.to_nat d)).
Proof. unfold pow10. rewrite <- pow_IZR. reflexivity. Qed.

(** Rounding leaves an integer alone when [decimal] is not negative. *)
Lemma round_R_IZR (z d : Z) : (0 <= d)%Z -> round_R (IZR z) d = IZR z.
Proof.
  intros Hd. unfold round_R.
  apply Z.leb_le in Hd. rewrite Hd.
  rewrite pow10_IZR, <- mult_IZR, rint_IZR, mult_IZR.
  field. rewrite <- pow10_IZR. pose proof (pow10_pos d). lra.
Qed.

Lemma round_R_0 (d : Z) : round_R 0 d = 0.
Proof.
  unfold round_R. destruct (0 <=? d)%Z.
  - rewrite Rmult_0_l, (rint_IZR 0). unfold Rdiv. apply Rmult_0_l.
  - unfold Rdiv. rewrite Rmult_0_l, (rint_IZR 0). apply Rmult_0_l.
Qed.

Lemma round_0 (d : Z) : Np.round (Num 0) d = Num 0.
Proof. simpl. rewrite round_R_0. reflexivity. Qed.

Lemma round_1 (d : Z) : (0 <= d)%Z -> Np.round (Num 1) d = Num 1.
Proof. intros Hd. simpl. rewrite (round_R_IZR 1 d Hd). reflexivity. Qed.

(** Rounding leaves alone what has no more than [d] decimals. *)
Lemma round_R_exact (x : R) (d z : Z) :
  (0 <= d)%Z -> x * pow10 d = IZR z -> round_R x d = x.
Proof.
  intros Hd Hx. unfold round_R.
  apply Z.leb_le in Hd. rewrite Hd, Hx, rint_IZR, <- Hx.
  field. pose proof (pow10_pos d). lra.
Qed.

(** [rint] between two integers. *)
Lemma rint_below (x : R) (n : Z) :
  IZR n <= x < IZR n + 1 / 2 -> rint x = n.
Proof.
  intros H. unfold rint.
  assert (E : Int_part x = n) by (symmetry; apply Int_part_spec; lra).
  rewrite E.
  destruct (Rlt_dec (x - IZR n) (1 / 2)); [reflexivity|lra].
Qed.

Lemma rint_above (x : R) (n : Z) :
  IZR n + 1 / 2 < x < IZR n + 1 -> rint x = (n + 1)%Z.
Proof.
  intros H. unfold rint.
  assert (E : Int_part x = n) by (symmetry; apply Int_part_spec; lra).
  rewrite E.
  destruct (Rlt_dec (x - IZR n) (1 / 2)); [lra|].
  destruct (Rlt_dec (1 / 2) (x - IZR n)); [reflexivity|lra].
Qed.

Lemma rint_tie (x : R) (n : Z) :
  x = IZR n + 1 / 2 -> rint x = if Z.even n then n else (n + 1)%Z.
Proof.
  intros H. unfold rint.
  assert (E : Int_part x = n) by (symmetry; apply Int_part_spec; lra).
  rewrite E.
  destruct (Rlt_dec (x - IZR n) (1 / 2)); [lra|].
  destruct (Rlt_dec (1 / 2) (x - IZR n)); [lra|reflexivity].
Qed.

Lemma round_R_no_decimals (x : R) : round_R x 0 = IZR (rint x).
Proof.
  unfold round_R, pow10. simpl. rewrite Rmult_1_r. unfold Rdiv.
  rewrite Rinv_1, Rmult_1_r. reflexivity.
Qed.

(** Deciding the comparisons of concrete numbers. *)
Ltac decide_R :=
  repeat match goal with
         | |- context [Req_dec_T ?a ?b] => destruct (Req_dec_T a b); try lra
         | |- context [Rlt_dec ?a ?b] => destruct (Rlt_dec a b); try lra
         | |- context [Rle_dec ?a ?b] => destruct (Rle_dec a b); try lra
         end.

End NpFacts.

(** ** Arrays of finite numbers stay finite *)

Module ArrFacts.

Lemma fold_add_of_list (l : list R) (a : R) :
  fold_left Np.add (of_list l) (Num a) = Num (a + Rsum l).
Proof.
  revert a. induction l as [|x l IH]; intros a; simpl.
  - f_equal; lra.
  - rewrite IH. f_equal; lra.
Qed.

Lemma sum_of_list (l : list R) : Np.sum (of_list l) = Num (Rsum l).
Proof. unfold Np.sum. rewrite fold_add_of_list. f_equal; lra. Qed.

Lemma length_of_list (l : list R) : length (of_list l) = length l.
Proof. apply length_map. Qed.

Lemma INR_length_nonzero {A} (l : list A) : l <> [] -> INR (length l) <> 0.
Proof.
  intros H. destruct l; [contradiction|].
  apply not_0_INR. discriminate.
Qed.

Lemma div_finite (x y : R) : y <> 0 -> Np.div (Num x) (Num y) = Num (x / y).
Proof.
  intros Hy. unfold Np.div.
  destruct (Req_dec_T y 0); [contradiction|reflexivity].
Qed.

Lemma div_zero_by (y : R) : y <> 0 -> Np.div (Num 0) (Num y) = Num 0.
Proof. intros Hy. rewrite div_finite by exact Hy. f_equal. field. exact Hy. Qed.

Lemma div_self (y : R) : y <> 0 -> Np.div (Num y) (Num y) = Num 1.
Proof. intros Hy. rewrite div_finite by exact Hy. f_equal. field. exact Hy. Qed.

Lemma mean_of_list (l : list R) :
  l <> [] -> Np.mean (of_list l) = Num (Rsum l / INR (length l)).
Proof.
  intros H. unfold Np.mean.
  rewrite sum_of_list, length_of_list.
  apply div_finite, INR_length_nonzero, H.
Qed.

Lemma zip_with_same {A C} (f : A -> A -> C) (l : list A) :
  zip_with f l l = map (fun x => f x x) l.
Proof.
  unfold zip_with. induction l as [|x l IH]; simpl; [reflexivity|].
  f_equal. exact IH.
Qed.

Lemma zip_with_map {A B A' B' C} (f : A' -> B' -> C) (g : A -> A')
  (h : B -> B') (a : list A) (b : list B) :
  zip_with f (map g a) (map h b) = zip_with (fun x y => f (g x) (h y)) a b.
Proof.
  unfold zip_with. revert b. induction a as [|x a IH]; intros [|y b]; simpl;
    try reflexivity.
  f_equal. apply IH.
Qed.

(** Operations on one array of finite numbers. *)
Lemma vabs_of_list (l : list R) : vabs (of_list l) = of_list (map Rabs l).
Proof. unfold vabs, of_list. rewrite !map_map. reflexivity. Qed.

Lemma vsq_of_list (l : list R) :
  vsq (of_list l) = of_list (map (fun x => x * x) l).
Proof. unfold vsq, of_list. rewrite !map_map. reflexivity. Qed.

Lemma vsub_s_of_list (l : list R) (m : R) :
  vsub_s (of_list l) (Num m) = of_list (map (fun x => x - m) l).
Proof. unfold vsub_s, of_list. rewrite !map_map. reflexivity. Qed.

Lemma smul_of_list (s : R) (l : list R) :
  smul (Num s) (of_list l) = of_list (map (fun x => s * x) l).
Proof. unfold smul, of_list. rewrite !map_map. reflexivity. Qed.

(** An array against itself. *)
Lemma vsub_self (l : list R) :
  vsub (of_list l) (of_list l) = of_list (map (fun x => x - x) l).
Proof.
  unfold vsub, of_list. rewrite zip_with_same, !map_map. reflexivity.
Qed.

Lemma vmul_self (l : list R) :
  vmul (of_list l) (of_list l) = of_list (map (fun x => x * x) l).
Proof.
  unfold vmul, of_list. rewrite zip_with_same, !map_map. reflexivity.
Qed.

Lemma vadd_self (l : list R) :
  vadd (of_list l) (of_list l) = of_list (map (fun x => x + x) l).
Proof.
  unfold vadd, of_list. rewrite zip_with_same, !map_map. reflexivity.
Qed.

Lemma Rsum_zero {A} (f : A -> R) (l : list A) :
  (forall x, In x l -> f x = 0) -> Rsum (map f l) = 0.
Proof.
  induction l as [|x l IH]; intros H; simpl; [reflexivity|].
  rewrite H by (left; reflexivity).
  rewrite IH by (intros y Hy; apply H; right; exact Hy). lra.
Qed.

Lemma Rsum_nonneg {A} (f : A -> R) (l : list A) :
  (forall x, 0 <= f x) -> 0 <= Rsum (map f l).
Proof.
  intros H. induction l as [|x l IH]; simpl; [lra|].
  specialize (H x). lra.
Qed.

Lemma Rsum_pos {A} (f : A -> R) (l : list A) (a : A) :
  (forall x, 0 <= f x) -> In a l -> 0 < f a -> 0 < Rsum (map f l).
Proof.
  intros H Ha Hpos. induction l as [|x l IH]; [contradiction|].
  simpl. destruct Ha as [->|Ha].
  - pose proof (Rsum_nonneg f l H). lra.
  - specialize (IH Ha). specialize (H x). lra.
Qed.

(** Counting by summing an indicator. *)
Lemma fold_add_indicator {A} (P : A -> bool) (l : list A) (a : R) :
  fold_left Np.add (map (fun x => if P x then Num 1 else Num 0) l) (Num a)
  = Num (a + INR (length (List.filter P l))).
Proof.
  revert a. induction l as [|x l IH]; intros a.
  - simpl. f_equal; lra.
  - cbn [map fold_left List.filter].
    destruct (P x); cbn [Np.add length]; rewrite IH; f_equal.
    + rewrite S_INR. lra.
    + lra.
Qed.

Lemma mean_indicator {A} (P : A -> bool) (l : list A) :
  Np.mean (map (fun x => if P x then Num 1 else Num 0) l)
  = Np.div (Num (INR (length (List.filter P l)))) (Num (INR (length l))).
Proof.
  unfold Np.mean, Np.sum. rewrite fold_add_indicator, length_map.
  rewrite Rplus_0_l. reflexivity.
Qed.

End ArrFacts.

(** ** Rounding keeps the order *)

Module RoundFacts.

(** [rint x] is within one half of [x]. *)
Lemma rint_near (x : R) : IZR (rint x) - 1 / 2 <= x <= IZR (rint x) + 1 / 2.
Proof.
  unfold rint. destruct (base_Int_part x) as [Hlo Hhi].
  set (n := Int_part x) in *.
  destruct (Rlt_dec (x - IZR n) (1 / 2)) as [H1|H1]; [lra|].
  destruct (Rlt_dec (1 / 2) (x - IZR n)) as [H2|H2].
  - rewrite plus_IZR. lra.
  - destruct (Z.even n); [lra|]. rewrite plus_IZR. lra.
Qed.

Lemma rint_mono (x y : R) : x <= y -> (rint x <= rint y)%Z.
Proof.
  intros Hxy.
  destruct (Z_le_gt_dec (rint x) (rint y)) as [H|H]; [exact H|exfalso].
  assert (Hz : (rint y + 1 <= rint x)%Z) by lia.
  apply IZR_le in Hz. rewrite plus_IZR in Hz.
  pose proof (rint_near x) as Hx. pose proof (rint_near y) as Hy.
  assert (E : x = y) by lra. subst y. lia.
Qed.

Lemma round_R_mono (x y : R) (d : Z) :
  (0 <= d)%Z -> x <= y -> round_R x d <= round_R y d.
Proof.
  intros Hd Hxy. unfold round_R. apply Z.leb_le in Hd. rewrite Hd.
  pose proof (NpFacts.pow10_pos d) as Hp.
  apply Rmult_le_compat_r.
  - left. apply Rinv_0_lt_compat, Hp.
  - apply IZR_le, rint_mono. apply Rmult_le_compat_r; lra.
Qed.

(** A rounded number stays between the integers it lies between. *)
Lemma round_R_between (x : R) (lo hi d : Z) :
  (0 <= d)%Z -> IZR lo <= x <= IZR hi ->
  IZR lo <= round_R x d <= IZR hi.
Proof.
  intros Hd [Hlo Hhi]. split.
  - rewrite <- (NpFacts.round_R_IZR lo d Hd). apply round_R_mono; assumption.
  - rewrite <- (NpFacts.round_R_IZR hi d Hd). apply round_R_mono; assumption.
Qed.

Lemma round_R_nonneg (x : R) (d : Z) : (0 <= d)%Z -> 0 <= x -> 0 <= round_R x d.
Proof.
  intros Hd Hx. rewrite <- (NpFacts.round_R_0 d). apply round_R_mono; assumption.
Qed.

End RoundFacts.

(** ** The clustering evaluator *)

Module ClusteringFacts.

Import DataUtil ClusterUtil Clustering PyFacts.

Lemma returns_bind {A B} (m : M A) (k : A -> M B) (self : ClusteringMetric) :
  returns (m ≫= k) self =
  match m self with
  | (Ok a, self') => returns (k a) self'
  | (Raise e, _) => Raise e
  end.
Proof.
  unfold returns, mbind, M_bind.
  destruct (m self) as [[a|e] self']; reflexivity.
Qed.

Lemma returns_lift {A B} (r : result A) (k : A -> M B)
  (self : ClusteringMetric) :
  returns (lift r ≫= k) self =
  match r with
  | Ok a => returns (k a) self
  | Raise e => Raise e
  end.
Proof. rewrite returns_bind. unfold lift. destruct r; reflexivity. Qed.

Lemma returns_mret {A} (a : A) (self : ClusteringMetric) :
  returns (mret a) self = Ok a.
Proof. reflexivity. Qed.

(** [get_processed_external_data], branch by branch. *)
Lemma external_prologue (self : ClusteringMetric)
  (y_true y_pred : option labels) (decimal : option Z) :
  get_processed_external_data y_true y_pred decimal self =
  match resolve_external self y_true y_pred with
  | None => (Raise (ValueError external_missing), self)
  | Some (a, b) =>
      if length a =? length b
      then (Ok (fit_transform a, fit_transform b, Some [fit a; fit b],
                default (self_decimal self) decimal),
            with_le self [fit a; fit b])
      else (Raise shape_mismatch, self)
  end.
Proof.
  unfold get_processed_external_data, resolve_external.
  destruct y_pred as [yp|].
  - destruct y_true as [yt|]; [|reflexivity].
    unfold mbind, M_bind, get_self, lift, format_external_clustering_data.
    destruct (length yt =? length yp); reflexivity.
  - unfold mbind at 1. unfold M_bind at 1. unfold get_self at 1.
    destruct (self_y_pred self) as [sp|]; [|reflexivity].
    destruct (self_y_true self) as [st|]; [|reflexivity].
    unfold mbind, M_bind, get_self, lift, format_external_clustering_data.
    destruct (length st =? length sp); reflexivity.
Qed.

Lemma internal_prologue (self : ClusteringMetric)
  (y_pred : option labels) (decimal : option Z) :
  get_processed_internal_data y_pred decimal self =
  match resolve_internal self y_pred with
  | None => (Raise (ValueError internal_missing), self)
  | Some a =>
      (Ok (fit_transform a, Some [fit a], default (self_decimal self) decimal),
       with_le self [fit a])
  end.
Proof.
  unfold get_processed_internal_data, resolve_internal.
  destruct y_pred as [yp|]; [reflexivity|].
  unfold mbind at 1. unfold M_bind at 1. unfold get_self at 1.
  destruct (self_y_pred self) as [sp|]; reflexivity.
Qed.

Lemma check_X_run (self : ClusteringMetric) (X : option matrix) :
  check_X X self =
  match resolve_X self X with
  | None => (Raise (ValueError X_missing), self)
  | Some Xm => (Ok Xm, self)
  end.
Proof.
  unfold check_X, resolve_X.
  destruct X as [Xm|]; [reflexivity|].
  unfold mbind, M_bind, get_self.
  destruct (self_X self); reflexivity.
Qed.

(** Whatever follows [get_processed_external_data] runs on the encoded
    vectors, when there are two of one length; else the call raises. *)
Lemma returns_external {B} (self : ClusteringMetric)
  (y_true y_pred : option labels) (decimal : option Z)
  (k : labels * labels * option encoders * Z -> M B) :
  returns (get_processed_external_data y_true y_pred decimal ≫= k) self =
  match resolve_external self y_true y_pred with
  | None => Raise (ValueError external_missing)
  | Some (a, b) =>
      if length a =? length b
      then returns (k (fit_transform a, fit_transform b, Some [fit a; fit b],
                       default (self_decimal self) decimal))
                   (with_le self [fit a; fit b])
      else Raise shape_mismatch
  end.
Proof.
  rewrite returns_bind, external_prologue.
  destruct (resolve_external self y_true y_pred) as [[a b]|]; [|reflexivity].
  destruct (length a =? length b); reflexivity.
Qed.

(** *** The pair-contingency tuple *)

(** One pair of samples adds one to exactly one cell. *)
Lemma pair_cell_exactly_one (y_true y_pred : labels) (i j : nat)
  (yy yn ny nn : Z) :
  length y_true = length y_pred ->
  (i < length y_true)%nat -> (j < length y_true)%nat ->
  pair_cell y_true y_pred i j (yy, yn, ny, nn) = Ok (yy + 1, yn, ny, nn)%Z \/
  pair_cell y_true y_pred i j (yy, yn, ny, nn) = Ok (yy, yn + 1, ny, nn)%Z \/
  pair_cell y_true y_pred i j (yy, yn, ny, nn) = Ok (yy, yn, ny + 1, nn)%Z \/
  pair_cell y_true y_pred i j (yy, yn, ny, nn) = Ok (yy, yn, ny, nn + 1)%Z.
Proof.
  intros Hlen Hi Hj. unfold pair_cell.
  destruct (getitem_lt y_true i Hi) as (ti & ->).
  destruct (getitem_lt y_true j Hj) as (tj & ->).
  rewrite Hlen in Hi, Hj.
  destruct (getitem_lt y_pred i Hi) as (pi & ->).
  destruct (getitem_lt y_pred j Hj) as (pj & ->).
  simpl. destruct (ti =? tj)%Z, (pi =? pj)%Z; simpl; tauto.
Qed.

Lemma pair_cell_one (y_true y_pred : labels) (i j : nat) (c : Z * Z * Z * Z) :
  length y_true = length y_pred ->
  (i < length y_true)%nat -> (j < length y_true)%nat ->
  cells_nonneg c ->
  exists c', pair_cell y_true y_pred i j c = Ok c' /\ cells_nonneg c' /\
             (cells_sum c' = cells_sum c + 1)%Z.
Proof.
  intros Hlen Hi Hj Hc. destruct c as [[[yy yn] ny] nn].
  destruct (pair_cell_exactly_one y_true y_pred i j yy yn ny nn Hlen Hi Hj)
    as [E|[E|[E|E]]]; rewrite E; eexists; (split; [reflexivity|]);
    simpl in Hc |- *; lia.
Qed.

Lemma pair_counts_total (y_true y_pred : labels) :
  length y_true = length y_pred ->
  exists c, pair_counts y_true y_pred = Ok c /\ cells_nonneg c /\
    (2 * cells_sum c =
     Z.of_nat (length y_true) * (Z.of_nat (length y_true) - 1))%Z.
Proof.
  intros Hlen. unfold pair_counts, for_pairs.
  set (n := length y_true).
  destruct (for_each_measure cells_nonneg cells_sum
              (fun idx => Z.of_nat (0 + n - (idx + 1)))
              (range 0 n)
              (fun idx => for_each (range (idx + 1) n)
                                   (pair_cell y_true y_pred idx)))
    with (s := (0, 0, 0, 0)%Z) as (c & E & Pc & Mc).
  - intros idx s Hidx Hs. apply in_range in Hidx.
    destruct (for_each_measure cells_nonneg cells_sum (fun _ => 1%Z)
                (range (idx + 1) n) (pair_cell y_true y_pred idx))
      with (s := s) as (s' & E' & P' & M').
    + intros jdx t Hjdx Ht. apply in_range in Hjdx.
      apply pair_cell_one; [exact Hlen | fold n; lia | fold n; lia | exact Ht].
    + exact Hs.
    + exists s'. repeat split; [exact E' | exact P'|].
      rewrite M', Zsum_ones. unfold range. rewrite length_seq. lia.
  - simpl; lia.
  - exists c. repeat split; [exact E | exact Pc|].
    rewrite Mc. unfold range. rewrite Nat.sub_0_r.
    change (cells_sum (0, 0, 0, 0)%Z) with 0%Z.
    rewrite Z.add_0_l. apply Zsum_triangle.
Qed.

(** C3.  For label vectors of one length N, the pair-contingency tuple of
    [compute_confusion_matrix] without normalisation consists of four counts
    that add up to N*(N-1)/2: each of the N*(N-1)/2 unordered pairs of
    samples adds one to exactly one cell. *)
Theorem contingency_cells_partition_the_pairs (y_true y_pred : labels) :
  length y_true = length y_pred ->
  exists yy yn ny nn : Z,
    compute_confusion_matrix y_true y_pred false
      = Ok (Num (IZR yy), Num (IZR yn), Num (IZR ny), Num (IZR nn)) /\
    (0 <= yy /\ 0 <= yn /\ 0 <= ny /\ 0 <= nn)%Z /\
    (yy + yn + ny + nn
     = Z.of_nat (length y_true) * (Z.of_nat (length y_true) - 1) / 2)%Z.
Proof.
  intros Hlen.
  destruct (pair_counts_total y_true y_pred Hlen)
    as ([[[yy yn] ny] nn] & E & Hnn & Hsum).
  exists yy, yn, ny, nn. unfold compute_confusion_matrix.
  rewrite E. simpl in Hsum, Hnn |- *.
  repeat split; try lia.
  rewrite <- Hsum, Z.mul_comm, Z.div_mul by lia. reflexivity.
Qed.

Lemma contingency_cells_partition_the_pairs_witness :
  length [0; 0; 1; 1]%Z = length [0; 1; 1; 1]%Z /\
  exists yy yn ny nn : Z,
    compute_confusion_matrix [0; 0; 1; 1]%Z [0; 1; 1; 1]%Z false
      = Ok (Num (IZR yy), Num (IZR yn), Num (IZR ny), Num (IZR nn)) /\
    (0 <= yy /\ 0 <= yn /\ 0 <= ny /\ 0 <= nn)%Z /\
    (yy + yn + ny + nn
     = Z.of_nat (length [0; 0; 1; 1]%Z)
       * (Z.of_nat (length [0; 0; 1; 1]%Z) - 1) / 2)%Z.
Proof.
  split; [reflexivity|].
  apply (contingency_cells_partition_the_pairs [0; 0; 1; 1]%Z [0; 1; 1; 1]%Z).
  reflexivity.
Defined.

(** *** Swapping the two label vectors *)

Lemma length_fit_transform (y : labels) :
  length (fit_transform y) = length y.
Proof. unfold fit_transform, transform. apply length_map. Qed.

(** Reading the same four entries in the other order gives the same
    values, or raises the same [IndexError]. *)
Ltac read_entries :=
  unfold getitem;
  repeat match goal with
         | |- context [nth_error ?l ?k] => destruct (nth_error l k)
         end;
  simpl; try reflexivity;
  repeat match goal with
         | |- context [(?x =? ?y)%Z] => destruct (x =? y)%Z
         end;
  simpl; try reflexivity.

Lemma rand_score_swap (self : ClusteringMetric) (a b : labels)
  (decimal : option Z) :
  length a = length b ->
  returns (rand_score (Some a) (Some b) decimal) self
  = returns (rand_score (Some b) (Some a) decimal) self.
Proof.
  intros Hlen. unfold rand_score. rewrite !returns_external. simpl.
  rewrite Hlen, Nat.eqb_refl.
  rewrite !returns_lift, !length_fit_transform, Hlen.
  match goal with
  | |- match ?l1 with _ => _ end = match ?l2 with _ => _ end =>
      assert (E : l1 = l2)
  end.
  { apply result_rel_eq, for_pairs_rel; [|reflexivity].
    intros i j [a0 b0] s2 <-. read_entries. }
  rewrite E.
  match goal with
  | |- match ?l with _ => _ end = _ => destruct l as [[a0 b0]|e]
  end; [|reflexivity].
  rewrite !returns_lift. destruct (truediv _ _); reflexivity.
Qed.

Lemma fowlkes_mallows_score_swap (self : ClusteringMetric) (a b : labels)
  (decimal : option Z) :
  length a = length b ->
  returns (fowlkes_mallows_score (Some a) (Some b) decimal) self
  = returns (fowlkes_mallows_score (Some b) (Some a) decimal) self.
Proof.
  intros Hlen. unfold fowlkes_mallows_score. rewrite !returns_external. simpl.
  rewrite Hlen, Nat.eqb_refl.
  rewrite !returns_lift, !length_fit_transform, Hlen.
  match goal with
  | |- match ?l1 with _ => _ end = match ?l2 with _ => _ end =>
      assert (E : result_rel swap_FP_FN l1 l2)
  end.
  { apply for_pairs_rel; [|repeat split].
    intros i j [[TP1 FP1] FN1] [[TP2 FP2] FN2] (-> & -> & ->).
    read_entries; repeat split. }
  match type of E with
  | result_rel _ ?l1 ?l2 =>
      destruct l1 as [[[TP1 FP1] FN1]|e1], l2 as [[[TP2 FP2] FN2]|e2]
  end; simpl in E; try contradiction.
  - destruct E as (-> & -> & ->).
    rewrite !returns_mret. rewrite (Z.mul_comm (TP2 + FP2)). reflexivity.
  - rewrite E. reflexivity.
Qed.

Lemma pair_counts_swap (a b : labels) :
  length a = length b ->
  result_rel swap_yn_ny (pair_counts a b) (pair_counts b a).
Proof.
  intros Hlen. unfold pair_counts. rewrite Hlen.
  apply for_pairs_rel; [|repeat split].
  intros i j [[[yy1 yn1] ny1] nn1] [[[yy2 yn2] ny2] nn2] (-> & -> & -> & ->).
  unfold pair_cell. read_entries; repeat split.
Qed.

Lemma precision_recall_swap (self : ClusteringMetric) (a b : labels)
  (decimal : option Z) :
  length a = length b ->
  returns (precision_score (Some a) (Some b) decimal) self
  = returns (recall_score (Some b) (Some a) decimal) self.
Proof.
  intros Hlen. unfold precision_score, recall_score, with_confusion_matrix.
  rewrite !returns_external. simpl.
  rewrite Hlen, Nat.eqb_refl.
  rewrite !returns_lift. unfold compute_confusion_matrix.
  pose proof (pair_counts_swap (fit_transform a) (fit_transform b)) as E.
  rewrite !length_fit_transform in E. specialize (E Hlen).
  destruct (pair_counts (fit_transform a) (fit_transform b))
    as [[[[yy1 yn1] ny1] nn1]|e1],
    (pair_counts (fit_transform b) (fit_transform a))
    as [[[[yy2 yn2] ny2] nn2]|e2]; simpl in E; try contradiction.
  - destruct E as (-> & -> & -> & ->). reflexivity.
  - rewrite E. reflexivity.
Qed.

(** C7.  For label vectors [a], [b] of one length, the Rand score and the
    Fowlkes-Mallows score of ([a], [b]) are those of ([b], [a]), and the
    precision of ([a], [b]) is the recall of ([b], [a]). *)
Theorem pair_scores_under_swap (self : ClusteringMetric) (a b : labels)
  (decimal : option Z) :
  length a = length b ->
  returns (rand_score (Some a) (Some b) decimal) self
  = returns (rand_score (Some b) (Some a) decimal) self /\
  returns (fowlkes_mallows_score (Some a) (Some b) decimal) self
  = returns (fowlkes_mallows_score (Some b) (Some a) decimal) self /\
  returns (precision_score (Some a) (Some b) decimal) self
  = returns (recall_score (Some b) (Some a) decimal) self.
Proof.
  intros Hlen. repeat split.
  - apply rand_score_swap, Hlen.
  - apply fowlkes_mallows_score_swap, Hlen.
  - apply precision_recall_swap, Hlen.
Qed.

Lemma pair_scores_under_swap_witness :
  length [0; 0; 1; 2]%Z = length [5; 7; 7; 7]%Z /\
  returns (rand_score (Some [0; 0; 1; 2]%Z) (Some [5; 7; 7; 7]%Z) None)
          default_evaluator
  = returns (rand_score (Some [5; 7; 7; 7]%Z) (Some [0; 0; 1; 2]%Z) None)
            default_evaluator /\
  returns (fowlkes_mallows_score (Some [0; 0; 1; 2]%Z) (Some [5; 7; 7; 7]%Z)
                                 None) default_evaluator
  = returns (fowlkes_mallows_score (Some [5; 7; 7; 7]%Z) (Some [0; 0; 1; 2]%Z)
                                   None) default_evaluator /\
  returns (precision_score (Some [0; 0; 1; 2]%Z) (Some [5; 7; 7; 7]%Z) None)
          default_evaluator
  = returns (recall_score (Some [5; 7; 7; 7]%Z) (Some [0; 0; 1; 2]%Z) None)
            default_evaluator.
Proof.
  split; [reflexivity|].
  apply (pair_scores_under_swap default_evaluator
           [0; 0; 1; 2]%Z [5; 7; 7; 7]%Z None).
  reflexivity.
Defined.

(** *** Homogeneity, completeness, V-measure *)

Section HomogeneityFacts.

Variable compute_homogeneity : labels -> labels -> npfloat.

Lemma completeness_is_homogeneity_swapped (self : ClusteringMetric)
  (a b : labels) (decimal : option Z) :
  returns (completeness_score compute_homogeneity (Some a) (Some b) decimal)
          self
  = returns (homogeneity_score compute_homogeneity (Some b) (Some a) decimal)
            self.
Proof.
  unfold completeness_score, homogeneity_score.
  rewrite !returns_external. simpl.
  rewrite (Nat.eqb_sym (length b)).
  destruct (length a =? length b); reflexivity.
Qed.

Lemma v_measure_score_swap (self : ClusteringMetric)
  (a b : labels) (decimal : option Z) :
  returns (v_measure_score compute_homogeneity (Some a) (Some b) decimal) self
  = returns (v_measure_score compute_homogeneity (Some b) (Some a) decimal)
            self.
Proof.
  unfold v_measure_score.
  rewrite !returns_external. simpl.
  rewrite (Nat.eqb_sym (length b)).
  destruct (length a =? length b); [|reflexivity].
  rewrite !returns_mret.
  rewrite (NpFacts.add_comm (compute_homogeneity (fit_transform b) _)).
  rewrite (NpFacts.mul_comm (compute_homogeneity (fit_transform b) _)).
  reflexivity.
Qed.

(** C10.  For label vectors [a], [b] of one length, the completeness score
    of ([a], [b]) is the homogeneity score of ([b], [a]): both hand the
    encoded [b] and then the encoded [a] to [compute_homogeneity]; hence the
    V-measure of ([a], [b]) is that of ([b], [a]). *)
Theorem completeness_homogeneity_duality (self : ClusteringMetric)
  (a b : labels) (decimal : option Z) :
  length a = length b ->
  returns (completeness_score compute_homogeneity (Some a) (Some b) decimal)
          self
  = returns (homogeneity_score compute_homogeneity (Some b) (Some a) decimal)
            self /\
  returns (v_measure_score compute_homogeneity (Some a) (Some b) decimal) self
  = returns (v_measure_score compute_homogeneity (Some b) (Some a) decimal)
            self.
Proof.
  intros _. split.
  - apply completeness_is_homogeneity_swapped.
  - apply v_measure_score_swap.
Qed.

End HomogeneityFacts.

Lemma completeness_homogeneity_duality_witness :
  let H := fun y1 y2 : labels =>
             Num (IZR (Z.of_nat (length (np_unique y1)))
                  / IZR (Z.of_nat (length (np_unique y2)))) in
  length [0; 0; 1; 2]%Z = length [5; 7; 7; 7]%Z /\
  returns (completeness_score H (Some [0; 0; 1; 2]%Z) (Some [5; 7; 7; 7]%Z)
                              None) default_evaluator
  = returns (homogeneity_score H (Some [5; 7; 7; 7]%Z) (Some [0; 0; 1; 2]%Z)
                               None) default_evaluator /\
  returns (v_measure_score H (Some [0; 0; 1; 2]%Z) (Some [5; 7; 7; 7]%Z) None)
          default_evaluator
  = returns (v_measure_score H (Some [5; 7; 7; 7]%Z) (Some [0; 0; 1; 2]%Z)
                             None) default_evaluator.
Proof.
  intros H. split; [reflexivity|].
  apply (completeness_homogeneity_duality H default_evaluator
           [0; 0; 1; 2]%Z [5; 7; 7; 7]%Z None).
  reflexivity.
Defined.

(** *** A single predicted cluster *)

Lemma in_insert_sorted (x y : Z) (l : list Z) :
  In x (insert_sorted y l) <-> x = y \/ In x l.
Proof.
  induction l as [|z l IH]; simpl.
  - intuition.
  - destruct (y <? z)%Z; [simpl; intuition|].
    destruct (y =? z)%Z eqn:E.
    + apply Z.eqb_eq in E. subst z. simpl. intuition.
    + simpl. rewrite IH. intuition.
Qed.

Lemma in_np_unique (x : Z) (l : labels) : In x (np_unique l) <-> In x l.
Proof.
  induction l as [|y l IH]; simpl; [reflexivity|].
  rewrite in_insert_sorted, IH. intuition.
Qed.

Lemma np_unique_const (c : Z) (l : labels) :
  l <> [] -> Forall (eq c) l -> np_unique l = [c].
Proof.
  induction l as [|y l IH]; intros Hne Hall; [contradiction|].
  inversion Hall as [|? ? <- Hall']; subst. simpl.
  destruct l as [|z l'].
  - reflexivity.
  - rewrite IH by (discriminate || exact Hall'). simpl.
    rewrite Z.ltb_irrefl, Z.eqb_refl. reflexivity.
Qed.

Lemma single_cluster_const (l : labels) :
  length (np_unique l) = 1%nat -> exists c, l <> [] /\ Forall (eq c) l.
Proof.
  intros H.
  destruct (np_unique l) as [|c [|? ?]] eqn:E; try discriminate.
  exists c. split.
  - intros ->. discriminate.
  - apply List.Forall_forall. intros x Hx.
    apply in_np_unique in Hx. rewrite E in Hx.
    destruct Hx as [Hx|[]]. exact Hx.
Qed.

(** The encoder sends a vector with one distinct label to zeros, which still
    is one distinct label. *)
Lemma single_cluster_encoded (l : labels) :
  length (np_unique l) = 1%nat ->
  length (np_unique (fit_transform l)) = 1%nat.
Proof.
  intros H. destruct (single_cluster_const l H) as (c & Hne & Hall).
  rewrite (np_unique_const 0%Z); [reflexivity| |].
  - destruct l; [contradiction|discriminate].
  - unfold fit_transform, transform, fit. simpl.
    rewrite (np_unique_const c l Hne Hall).
    apply List.Forall_map. eapply List.Forall_impl; [|exact Hall].
    intros x <-. simpl. rewrite Z.eqb_refl. reflexivity.
Qed.

(** C2, as the code has it.  When the vectors evaluated have one length and
    the predicted one has exactly one distinct cluster, [hubert_gamma_score]
    raises a [ValueError] if [raise_error] is set, and otherwise returns the
    literal [-1.0], whatever [smallest_value] is configured. *)
Theorem hubert_gamma_one_predicted_cluster (self : ClusteringMetric)
  (y_true y_pred : option labels) (decimal : option Z) (a b : labels) :
  resolve_external self y_true y_pred = Some (a, b) ->
  length a = length b ->
  length (np_unique b) = 1%nat ->
  returns (hubert_gamma_score y_true y_pred decimal) self
  = if self_raise_error self
    then Raise (ValueError hubert_gamma_undefined)
    else Ok (Num (-1)).
Proof.
  intros Hres Hlen Hone. unfold hubert_gamma_score.
  rewrite returns_external, Hres, Hlen, Nat.eqb_refl. simpl.
  rewrite (single_cluster_encoded b Hone). simpl.
  rewrite returns_bind. simpl.
  destruct (self_raise_error self); reflexivity.
Qed.

Lemma hubert_gamma_one_predicted_cluster_witness :
  resolve_external default_evaluator
    (Some [0; 1; 0; 1]%Z) (Some [0; 0; 0; 0]%Z)
  = Some ([0; 1; 0; 1]%Z, [0; 0; 0; 0]%Z) /\
  length [0; 1; 0; 1]%Z = length [0; 0; 0; 0]%Z /\
  length (np_unique [0; 0; 0; 0]%Z) = 1%nat /\
  returns (hubert_gamma_score (Some [0; 1; 0; 1]%Z) (Some [0; 0; 0; 0]%Z) None)
          default_evaluator
  = Ok (Num (-1)).
Proof.
  do 3 (split; [reflexivity|]).
  apply (hubert_gamma_one_predicted_cluster default_evaluator
           (Some [0; 1; 0; 1]%Z) (Some [0; 0; 0; 0]%Z) None
           [0; 1; 0; 1]%Z [0; 0; 0; 0]%Z); reflexivity.
Defined.

(** With [raise_error=False] and the default [smallest_value] (minus
    infinity), [y_pred = [0,0,0,0]] does not give the sentinel. *)
Lemma hubert_gamma_not_smallest_value :
  self_raise_error default_evaluator = false /\
  self_smallest_value default_evaluator = NInf /\
  length (np_unique [0; 0; 0; 0]%Z) = 1%nat /\
  returns (hubert_gamma_score (Some [0; 1; 0; 1]%Z) (Some [0; 0; 0; 0]%Z) None)
          default_evaluator
  <> Ok (self_smallest_value default_evaluator).
Proof.
  do 3 (split; [reflexivity|]).
  assert (E : returns (hubert_gamma_score (Some [0; 1; 0; 1]%Z)
                         (Some [0; 0; 0; 0]%Z) None) default_evaluator
              = Ok (Num (-1))) by reflexivity.
  rewrite E. discriminate.
Qed.

(** *** Missing vectors *)

Lemma resolve_external_absent (self : ClusteringMetric)
  (y_true y_pred : option labels) :
  (y_true = None /\ self_y_true self = None) \/
  (y_pred = None /\ self_y_pred self = None) ->
  resolve_external self y_true y_pred = None.
Proof.
  unfold resolve_external.
  intros [[-> E]|[-> E]]; rewrite E.
  - destruct y_pred; [reflexivity|]. destruct (self_y_pred self); reflexivity.
  - reflexivity.
Qed.

Lemma external_metric_unresolved
  (compute_homogeneity : labels -> labels -> npfloat) (code : external_code)
  (self : ClusteringMetric) (y_true y_pred : option labels)
  (decimal : option Z) :
  resolve_external self y_true y_pred = None ->
  returns (external_metric compute_homogeneity code y_true y_pred decimal) self
  = Raise (ValueError external_missing).
Proof.
  intros Hres.
  destruct code; cbn [external_metric];
    unfold rand_score, fowlkes_mallows_score, homogeneity_score,
      completeness_score, v_measure_score, precision_score, recall_score,
      f_measure_score, czekanowski_dice_score, hubert_gamma_score,
      jaccard_score, kulczynski_score, mc_nemar_score, phi_score,
      rogers_tanimoto_score, russel_rao_score, sokal_sneath1_score,
      sokal_sneath2_score, tau_score, with_confusion_matrix;
    rewrite returns_external, Hres; reflexivity.
Qed.

Lemma g_plus_index_unresolved (self : ClusteringMetric) (X : option matrix)
  (y_pred : option labels) (decimal : option Z) :
  resolve_internal self y_pred = None ->
  returns (g_plus_index X y_pred decimal) self
  = Raise (ValueError (match resolve_X self X with
                       | None => X_missing
                       | Some _ => internal_missing
                       end)).
Proof.
  intros Hres. unfold g_plus_index.
  rewrite returns_bind, check_X_run.
  destruct (resolve_X self X) as [Xm|]; [|reflexivity].
  rewrite returns_bind, internal_prologue, Hres. reflexivity.
Qed.

(** C6.  When [y_true] or [y_pred] is absent from the call and from the
    instance, [get_processed_external_data], and with it every external
    score, raises the [ValueError] that asks for [y_true] and [y_pred]; when
    [y_pred] is absent from both, [get_processed_internal_data] raises a
    [ValueError], and so does an internal index (here [g_plus_index], which
    asks for [X] first when that is absent too). *)
Theorem absent_vectors_raise_ValueError
  (compute_homogeneity : labels -> labels -> npfloat)
  (self : ClusteringMetric) (y_true y_pred : option labels)
  (decimal : option Z) :
  ((y_true = None /\ self_y_true self = None) \/
   (y_pred = None /\ self_y_pred self = None) ->
   returns (get_processed_external_data y_true y_pred decimal) self
   = Raise (ValueError external_missing) /\
   forall code,
     returns (external_metric compute_homogeneity code y_true y_pred decimal)
             self
     = Raise (ValueError external_missing)) /\
  (y_pred = None /\ self_y_pred self = None ->
   returns (get_processed_internal_data y_pred decimal) self
   = Raise (ValueError internal_missing) /\
   forall X, exists msg,
     returns (g_plus_index X y_pred decimal) self = Raise (ValueError msg)).
Proof.
  split.
  - intros Habs. apply resolve_external_absent in Habs. split.
    + unfold returns. rewrite external_prologue, Habs. reflexivity.
    + intros code. apply external_metric_unresolved, Habs.
  - intros [-> Hself].
    assert (Hres : resolve_internal self None = None) by exact Hself.
    split.
    + unfold returns. rewrite internal_prologue, Hres. reflexivity.
    + intros X. eexists. apply g_plus_index_unresolved, Hres.
Qed.

Lemma absent_vectors_raise_ValueError_witness :
  let H := fun _ _ : labels => Num 1 in
  ((@None labels = None /\ self_y_true default_evaluator = None) \/
   (@None labels = None /\ self_y_pred default_evaluator = None)) /\
  returns (get_processed_external_data None None None) default_evaluator
  = Raise (ValueError external_missing) /\
  (forall code,
     returns (external_metric H code None None None) default_evaluator
     = Raise (ValueError external_missing)) /\
  returns (get_processed_internal_data None None) default_evaluator
  = Raise (ValueError internal_missing) /\
  (forall X, exists msg,
     returns (g_plus_index X None None) default_evaluator
     = Raise (ValueError msg)).
Proof.
  intros H.
  destruct (absent_vectors_raise_ValueError H default_evaluator None None None)
    as [Hext Hint].
  destruct (Hext (or_introl (conj eq_refl eq_refl))) as [He1 He2].
  destruct (Hint (conj eq_refl eq_refl)) as [Hi1 Hi2].
  split; [left; split; reflexivity|].
  split; [exact He1|]. split; [exact He2|]. split; [exact Hi1|exact Hi2].
Defined.

(** *** The G-plus index *)

Lemma getitem_zeros (n : Z) (i : nat) :
  (i < Z.to_nat n)%nat -> getitem (np_zeros n) i = Ok 0.
Proof.
  intros Hi. unfold getitem, np_zeros.
  rewrite nth_error_repeat by exact Hi. reflexivity.
Qed.

(** The discordant-pair loop reads zeros only, and leaves the counter as it
    is. *)
Lemma g_plus_loop (n_pairs : Z) :
  for_each (range 0 (Z.to_nat (n_pairs - 1))) (fun idx =>
    for_each (range (idx + 1) (Z.to_nat n_pairs)) (fun jdx (acc : Z) =>
      bi ← getitem (np_zeros n_pairs) idx;
      if Req_dec_T bi 0 then
        bj ← getitem (np_zeros n_pairs) jdx;
        if Req_dec_T bj 1 then
          di ← getitem (np_zeros n_pairs) idx;
          dj ← getitem (np_zeros n_pairs) jdx;
          mret (acc + (if Rlt_dec dj di then 1 else 0))%Z
        else mret acc
      else mret acc)) 0%Z
  = Ok 0%Z.
Proof.
  apply for_each_const. intros idx s Hidx. apply in_range in Hidx.
  apply for_each_const. intros jdx acc Hjdx. apply in_range in Hjdx.
  rewrite !getitem_zeros by lia. simpl.
  destruct (Req_dec_T 0 0) as [_|H]; [|contradiction].
  destruct (Req_dec_T 0 1) as [H|_]; [lra|]. reflexivity.
Qed.

Lemma g_plus_index_run (self : ClusteringMetric) (X : option matrix)
  (y_pred : option labels) (decimal : option Z) (Xm : matrix) (a : labels) :
  resolve_X self X = Some Xm ->
  resolve_internal self y_pred = Some a ->
  let N := Z.of_nat (length Xm) in
  let n_pairs := (N * (N - 1) / 2)%Z in
  returns (g_plus_index X y_pred decimal) self
  = if Z.eqb (n_pairs * (n_pairs - 1)) 0
    then Raise ZeroDivisionError
    else Ok (Num 0).
Proof.
  intros HX Hres N n_pairs. unfold g_plus_index.
  rewrite returns_bind, check_X_run, HX.
  rewrite returns_bind, internal_prologue, Hres.
  cbv beta iota zeta. fold N. fold n_pairs.
  rewrite returns_lift, g_plus_loop, returns_lift.
  unfold truediv. rewrite Z.mul_0_r.
  destruct (Z.eqb_spec (n_pairs * (n_pairs - 1)) 0) as [E|E].
  - rewrite E. destruct (Req_dec_T 0 0) as [_|H]; [reflexivity|contradiction].
  - destruct (Req_dec_T (IZR (n_pairs * (n_pairs - 1))) 0) as [H|_].
    + apply eq_IZR in H. contradiction.
    + rewrite returns_mret. unfold Rdiv. rewrite Rmult_0_l.
      rewrite NpFacts.round_0. reflexivity.
Qed.

(** C9, as the code has it.  For a feature matrix of at least 3 samples and
    any predicted labels, [g_plus_index] returns 0.0: the distance array and
    the within/between vector stay all zeros, so no pair is ever counted as
    discordant.  (With 2 samples there is one pair, the divisor
    [n_pairs * (n_pairs - 1)] is zero, and the call raises.) *)
Theorem g_plus_index_is_zero (self : ClusteringMetric) (X : option matrix)
  (y_pred : option labels) (decimal : option Z) (Xm : matrix) (a : labels) :
  resolve_X self X = Some Xm ->
  resolve_internal self y_pred = Some a ->
  (3 <= length Xm)%nat ->
  returns (g_plus_index X y_pred decimal) self = Ok (Num 0).
Proof.
  intros HX Hres HN.
  rewrite (g_plus_index_run self X y_pred decimal Xm a HX Hres).
  set (N := Z.of_nat (length Xm)).
  assert (H3 : (3 <= N * (N - 1) / 2)%Z)
    by (apply Z.div_le_lower_bound; nia).
  destruct (Z.eqb_spec (N * (N - 1) / 2 * (N * (N - 1) / 2 - 1)) 0) as [E|_];
    [nia|reflexivity].
Qed.

Lemma g_plus_index_is_zero_witness :
  resolve_X default_evaluator (Some [[0; 0]; [1; 0]; [4; 3]])
  = Some [[0; 0]; [1; 0]; [4; 3]] /\
  resolve_internal default_evaluator (Some [0; 0; 1]%Z)
  = Some [0; 0; 1]%Z /\
  (3 <= length [[0; 0]; [1; 0]; [4; 3]])%nat /\
  returns (g_plus_index (Some [[0; 0]; [1; 0]; [4; 3]]) (Some [0; 0; 1]%Z) None)
          default_evaluator
  = Ok (Num 0).
Proof.
  do 2 (split; [reflexivity|]). split; [simpl; lia|].
  apply (g_plus_index_is_zero default_evaluator
           (Some [[0; 0]; [1; 0]; [4; 3]]) (Some [0; 0; 1]%Z) None
           [[0; 0]; [1; 0]; [4; 3]] [0; 0; 1]%Z);
    [reflexivity | reflexivity | simpl; lia].
Defined.

(** Two samples: one pair, and a division of Python integers by zero. *)
Lemma g_plus_index_two_samples :
  (2 <= length [[0; 0]; [4; 3]])%nat /\
  returns (g_plus_index (Some [[0; 0]; [4; 3]]) (Some [0; 1]%Z) None)
          default_evaluator
  = Raise ZeroDivisionError /\
  returns (g_plus_index (Some [[0; 0]; [4; 3]]) (Some [0; 1]%Z) None)
          default_evaluator
  <> Ok (Num 0).
Proof.
  split; [simpl; lia|].
  rewrite (g_plus_index_run default_evaluator
             (Some [[0; 0]; [4; 3]]) (Some [0; 1]%Z) None
             [[0; 0]; [4; 3]] [0; 1]%Z eq_refl eq_refl).
  simpl. split; [reflexivity|discriminate].
Qed.

End ClusteringFacts.

(** ** The regression evaluator *)

Module RegressionFacts.

Import Evaluator Regression ArrFacts.

(** *** Preprocessing *)

Lemma combine_fst_snd {A B} (l : list (A * B)) :
  combine (map fst l) (map snd l) = l.
Proof.
  induction l as [|[a b] l IH]; simpl; [reflexivity|]. f_equal. exact IH.
Qed.

Lemma filter_all {A} (P : A -> bool) (l : list A) :
  (forall x, In x l -> P x = true) -> List.filter P l = l.
Proof.
  induction l as [|x l IH]; intros H; simpl; [reflexivity|].
  rewrite H by (left; reflexivity). f_equal.
  apply IH. intros y Hy. apply H. right; exact Hy.
Qed.

(** Preprocessing what has been preprocessed keeps every sample. *)
Lemma retained_idempotent (clean positive_only : bool) (t p : list R) :
  let K := retained clean positive_only t p in
  retained clean positive_only (map fst K) (map snd K) = K.
Proof.
  intros K. unfold retained at 1. rewrite combine_fst_snd.
  apply filter_all. intros x Hx. unfold K, retained in Hx.
  apply filter_In in Hx. apply Hx.
Qed.

Lemma length_retained (clean positive_only : bool) (t p : list R) :
  let K := retained clean positive_only t p in
  length (map fst K) = length (map snd K).
Proof. intros K. rewrite !length_map. reflexivity. Qed.

Lemma retained_same (clean positive_only : bool) (y : list R) :
  map snd (retained clean positive_only y y) = kept clean positive_only y.
Proof.
  unfold kept, retained.
  induction y as [|x y IH]; simpl; [reflexivity|].
  destruct (keep clean positive_only (x, x)); simpl; [f_equal|]; exact IH.
Qed.

Lemma preprocess_1d (self : RegressionMetric) (t p : list R)
  (clean positive_only : bool) (decimal : option Z) :
  length t = length p ->
  (0 <= default (self_decimal self) decimal)%Z ->
  get_preprocessed_data self (Some (Arr1 t)) (Some (Arr1 p)) clean decimal
                        positive_only
  = Ok (OneDim (map fst (retained clean positive_only t p))
               (map snd (retained clean positive_only t p)),
        default (self_decimal self) decimal).
Proof.
  intros Hlen Hd. unfold get_preprocessed_data.
  rewrite Hlen, Nat.eqb_refl. simpl.
  destruct (Z.ltb_spec (default (self_decimal self) decimal) 0);
    [lia|reflexivity].
Qed.

(** *** The A10 and A20 indices *)

Lemma a_index_fraction (lo hi : R) (K : list (R * R)) :
  a_index_formula lo hi (of_list (map fst K)) (of_list (map snd K))
  = fraction (fun tp => ratio_within lo hi (fst tp) (snd tp)) K.
Proof.
  unfold a_index_formula, fraction, Arr.vdiv, Arr.of_list, within.
  rewrite zip_with_map. unfold Arr.zip_with.
  rewrite combine_fst_snd, map_map.
  apply (mean_indicator
           (fun tp => ratio_within lo hi (fst tp) (snd tp)) K).
Qed.

Lemma a10_index_run (self : RegressionMetric) (t p : list R)
  (mo : multi_output) (decimal : option Z) (clean positive_only : bool) :
  length t = length p ->
  (0 <= default (self_decimal self) decimal)%Z ->
  a10_index self (Some (Arr1 t)) (Some (Arr1 p)) mo decimal clean
            positive_only
  = Ok (Scalar (Np.round
         (fraction (fun tp => ratio_within 0.9 1.1 (fst tp) (snd tp))
                   (retained clean positive_only t p))
         (default (self_decimal self) decimal))).
Proof.
  intros Hlen Hd. unfold a10_index.
  rewrite preprocess_1d by assumption. simpl.
  rewrite a_index_fraction. reflexivity.
Qed.

Lemma a20_index_run (self : RegressionMetric) (t p : list R)
  (mo : multi_output) (decimal : option Z) (clean positive_only : bool) :
  length t = length p ->
  (0 <= default (self_decimal self) decimal)%Z ->
  a20_index self (Some (Arr1 t)) (Some (Arr1 p)) mo decimal clean
            positive_only
  = Ok (Scalar (Np.round
         (fraction (fun tp => ratio_within 0.8 1.2 (fst tp) (snd tp))
                   (retained clean positive_only t p))
         (default (self_decimal self) decimal))).
Proof.
  intros Hlen Hd. unfold a20_index.
  rewrite preprocess_1d by assumption. simpl.
  rewrite a_index_fraction. reflexivity.
Qed.

(** C4, as the code has it.  For one-dimensional inputs of one length,
    [a10_index] returns, rounded, the fraction of the samples kept by the
    [clean]/[positive_only] filter whose ratio true/pred (not pred/true)
    lies in [0.9, 1.1], and [a20_index] the fraction whose ratio true/pred
    lies in [0.8, 1.2]. *)
Theorem a_index_is_fraction_of_true_over_pred (self : RegressionMetric)
  (t p : list R) (mo : multi_output) (decimal : option Z)
  (clean positive_only : bool) :
  length t = length p ->
  (0 <= default (self_decimal self) decimal)%Z ->
  a10_index self (Some (Arr1 t)) (Some (Arr1 p)) mo decimal clean
            positive_only
  = Ok (Scalar (Np.round
         (fraction (fun tp => ratio_within 0.9 1.1 (fst tp) (snd tp))
                   (retained clean positive_only t p))
         (default (self_decimal self) decimal))) /\
  a20_index self (Some (Arr1 t)) (Some (Arr1 p)) mo decimal clean
            positive_only
  = Ok (Scalar (Np.round
         (fraction (fun tp => ratio_within 0.8 1.2 (fst tp) (snd tp))
                   (retained clean positive_only t p))
         (default (self_decimal self) decimal))).
Proof.
  intros Hlen Hd. split.
  - apply a10_index_run; assumption.
  - apply a20_index_run; assumption.
Qed.

Lemma retained_example :
  retained true false [1000; 1000] [905; 1000] = [(1000, 905); (1000, 1000)].
Proof.
  unfold retained, keep, nonzero. simpl. NpFacts.decide_R. reflexivity.
Qed.

Lemma pow10_5 : pow10 5 = 100000.
Proof. unfold pow10. simpl. lra. Qed.

Lemma fraction_example_true_over_pred :
  fraction (fun tp => ratio_within 0.9 1.1 (fst tp) (snd tp))
           [(1000, 905); (1000, 1000)] = Num (1 / 2).
Proof.
  unfold fraction, ratio_within, Np.le, Np.ge, Np.div. simpl.
  NpFacts.decide_R. simpl. NpFacts.decide_R. f_equal; try lra.
Qed.

Lemma fraction_example_pred_over_true :
  fraction (fun tp => ratio_within 0.9 1.1 (snd tp) (fst tp))
           [(1000, 905); (1000, 1000)] = Num 1.
Proof.
  unfold fraction, ratio_within, Np.le, Np.ge, Np.div. simpl.
  NpFacts.decide_R. simpl. NpFacts.decide_R. f_equal; try lra.
Qed.

Lemma a_index_is_fraction_of_true_over_pred_witness :
  length [1000; 1000] = length [905; 1000] /\
  (0 <= default (self_decimal default_evaluator) None)%Z /\
  a10_index default_evaluator (Some (Arr1 [1000; 1000]))
            (Some (Arr1 [905; 1000])) raw_values None true false
  = Ok (Scalar (Np.round
         (fraction (fun tp => ratio_within 0.9 1.1 (fst tp) (snd tp))
                   (retained true false [1000; 1000] [905; 1000])) 5)) /\
  a20_index default_evaluator (Some (Arr1 [1000; 1000]))
            (Some (Arr1 [905; 1000])) raw_values None true false
  = Ok (Scalar (Np.round
         (fraction (fun tp => ratio_within 0.8 1.2 (fst tp) (snd tp))
                   (retained true false [1000; 1000] [905; 1000])) 5)).
Proof.
  split; [reflexivity|]. split; [simpl; lia|].
  apply (a_index_is_fraction_of_true_over_pred default_evaluator
           [1000; 1000] [905; 1000] raw_values None true false);
    [reflexivity | simpl; lia].
Defined.

(** [y_true = [1000, 1000]], [y_pred = [905, 1000]]: both ratios pred/true,
    0.905 and 1, lie in [[0.9, 1.1]], but true/pred of the first sample is
    above 1.1, and [a10_index] returns 0.5. *)
Lemma a10_index_is_not_pred_over_true :
  a10_index default_evaluator (Some (Arr1 [1000; 1000]))
            (Some (Arr1 [905; 1000])) raw_values None true false
  = Ok (Scalar (Num (1 / 2))) /\
  Np.round
    (fraction (fun tp => ratio_within 0.9 1.1 (snd tp) (fst tp))
              (retained true false [1000; 1000] [905; 1000])) 5
  = Num 1 /\
  a10_index default_evaluator (Some (Arr1 [1000; 1000]))
            (Some (Arr1 [905; 1000])) raw_values None true false
  <> Ok (Scalar (Np.round
          (fraction (fun tp => ratio_within 0.9 1.1 (snd tp) (fst tp))
                    (retained true false [1000; 1000] [905; 1000])) 5)).
Proof.
  assert (Hcode :
    a10_index default_evaluator (Some (Arr1 [1000; 1000]))
              (Some (Arr1 [905; 1000])) raw_values None true false
    = Ok (Scalar (Num (1 / 2)))).
  { rewrite a10_index_run by (reflexivity || (simpl; lia)).
    rewrite retained_example, fraction_example_true_over_pred.
    simpl. rewrite (NpFacts.round_R_exact (1 / 2) 5 50000);
      [reflexivity | lia | rewrite pow10_5; lra]. }
  assert (Hratio :
    Np.round
      (fraction (fun tp => ratio_within 0.9 1.1 (snd tp) (fst tp))
                (retained true false [1000; 1000] [905; 1000])) 5
    = Num 1).
  { rewrite retained_example, fraction_example_pred_over_true.
    apply NpFacts.round_1. lia. }
  split; [exact Hcode|]. split; [exact Hratio|].
  rewrite Hcode, Hratio. intros H. injection H. lra.
Qed.

(** *** Identical arrays *)

Lemma sqrt_Num_0 : Np.sqrt (Num 0) = Num 0.
Proof.
  unfold Np.sqrt. destruct (Rlt_dec 0 0); [lra|]. rewrite sqrt_0. reflexivity.
Qed.

Lemma INR_nonzero (n : nat) : n <> 0%nat -> INR n <> 0.
Proof. apply not_0_INR. Qed.

(** The sum of the absolute, and of the squared, differences is zero. *)
Lemma abs_error_same (y : list R) :
  Np.sum (vabs (vsub (of_list y) (of_list y))) = Num 0.
Proof.
  rewrite vsub_self, vabs_of_list, map_map, sum_of_list.
  rewrite Rsum_zero; [reflexivity|].
  intros x _. rewrite Rminus_diag. apply Rabs_R0.
Qed.

Lemma sq_error_same (y : list R) :
  Np.sum (vsq (vsub (of_list y) (of_list y))) = Num 0.
Proof.
  rewrite vsub_self, vsq_of_list, map_map, sum_of_list.
  rewrite Rsum_zero; [reflexivity|].
  intros x _. rewrite Rminus_diag. lra.
Qed.

Lemma mae_same (y : list R) (n : nat) :
  n <> 0%nat ->
  Np.div (Np.sum (vabs (vsub (of_list y) (of_list y)))) (len_f n) = Num 0.
Proof.
  intros Hn. rewrite abs_error_same. apply div_zero_by, INR_nonzero, Hn.
Qed.

Lemma mse_same (y : list R) (n : nat) :
  n <> 0%nat ->
  Np.div (Np.sum (vsq (vsub (of_list y) (of_list y)))) (len_f n) = Num 0.
Proof.
  intros Hn. rewrite sq_error_same. apply div_zero_by, INR_nonzero, Hn.
Qed.

Lemma rmse_same (y : list R) (n : nat) :
  n <> 0%nat ->
  Np.sqrt (Np.div (Np.sum (vsq (vsub (of_list y) (of_list y)))) (len_f n))
  = Num 0.
Proof. intros Hn. rewrite mse_same by exact Hn. apply sqrt_Num_0. Qed.

Lemma sum_zeros (l : arr) :
  List.Forall (eq (Num 0)) l -> Np.sum l = Num 0.
Proof.
  unfold Np.sum. generalize 0 at 2 3. intros a H. revert a.
  induction H as [|x l <- _ IH]; intros a; simpl; [reflexivity|].
  rewrite Rplus_0_r. apply IH.
Qed.

Lemma mean_zeros (l : arr) :
  l <> [] -> List.Forall (eq (Num 0)) l -> Np.mean l = Num 0.
Proof.
  intros Hne H. unfold Np.mean. rewrite sum_zeros by exact H.
  apply div_zero_by, INR_length_nonzero, Hne.
Qed.

Lemma Forall_map_const {A} (f : A -> npfloat) (c : npfloat) (l : list A) :
  (forall x, In x l -> f x = c) -> List.Forall (eq c) (map f l).
Proof.
  intros H. apply List.Forall_forall. intros z Hz.
  apply in_map_iff in Hz. destruct Hz as (x & <- & Hx).
  symmetry. apply H, Hx.
Qed.

Lemma map_nonempty {A B} (f : A -> B) (l : list A) : l <> [] -> map f l <> [].
Proof. destruct l; [contradiction|discriminate]. Qed.

Lemma mape_same (y : list R) :
  y <> [] -> List.Forall (fun x => x <> 0) y ->
  mape_formula (of_list y) (of_list y) = Num 0.
Proof.
  intros Hne Hnz. unfold mape_formula.
  rewrite vsub_self, !vabs_of_list, map_map.
  unfold Arr.vdiv, Arr.of_list. rewrite zip_with_map, zip_with_map.
  rewrite zip_with_same.
  apply mean_zeros; [apply map_nonempty, Hne|].
  apply Forall_map_const. intros x Hx.
  rewrite Rminus_diag, Rabs_R0.
  apply div_zero_by, Rabs_no_R0.
  rewrite List.Forall_forall in Hnz. apply Hnz, Hx.
Qed.

Lemma smape_same (y : list R) :
  y <> [] -> List.Forall (fun x => x <> 0) y ->
  smape_formula (of_list y) (of_list y) = Num 0.
Proof.
  intros Hne Hnz. unfold smape_formula.
  rewrite vsub_self, !vabs_of_list, map_map, smul_of_list, map_map.
  rewrite vadd_self, map_map.
  unfold Arr.vdiv, Arr.of_list. rewrite zip_with_map, zip_with_map.
  rewrite zip_with_same.
  apply mean_zeros; [apply map_nonempty, Hne|].
  apply Forall_map_const. intros x Hx.
  rewrite Rminus_diag, Rabs_R0, Rmult_0_r.
  apply div_zero_by.
  rewrite List.Forall_forall in Hnz. specialize (Hnz x Hx).
  pose proof (Rabs_pos_lt x Hnz). lra.
Qed.

Lemma sq_nonneg (a : R) : 0 <= a * a.
Proof. apply (Rle_0_sqr a). Qed.

Lemma sq_pos (a : R) : a <> 0 -> 0 < a * a.
Proof. apply (Rsqr_pos_lt a). Qed.

Lemma not_constant_nonempty (y : list R) : not_constant y -> y <> [].
Proof. intros (a & _ & Ha & _) ->. contradiction. Qed.

(** A list that is not constant has an entry off any given value. *)
Lemma not_constant_off (y : list R) (m : R) :
  not_constant y -> exists a, In a y /\ a <> m.
Proof.
  intros (a & b & Ha & Hb & Hab).
  destruct (Req_dec_T a m) as [->|Ham].
  - exists b. split; [exact Hb|]. intros ->. contradiction.
  - exists a. split; assumption.
Qed.

Lemma sq_dev_pos (y : list R) (m : R) :
  not_constant y -> 0 < Rsum (map (fun x => (x - m) * (x - m)) y).
Proof.
  intros H. destruct (not_constant_off y m H) as (a & Ha & Ham).
  apply (Rsum_pos (fun x => (x - m) * (x - m)) y a); [|exact Ha|].
  - intros x. apply sq_nonneg.
  - apply sq_pos. lra.
Qed.

Lemma nse_same (y : list R) :
  not_constant y -> nse_formula (of_list y) (of_list y) = Num 1.
Proof.
  intros H. pose proof (not_constant_nonempty y H) as Hne.
  unfold nse_formula.
  rewrite sq_error_same, mean_of_list by exact Hne.
  rewrite vsub_s_of_list, vsq_of_list, map_map, sum_of_list.
  pose proof (sq_dev_pos y (Rsum y / INR (length y)) H) as Hpos.
  rewrite div_zero_by by lra.
  simpl. f_equal. lra.
Qed.

Lemma wi_same (y : list R) :
  not_constant y -> wi_formula (of_list y) (of_list y) = Num 1.
Proof.
  intros H. pose proof (not_constant_nonempty y H) as Hne.
  unfold wi_formula.
  rewrite sq_error_same, mean_of_list by exact Hne.
  set (m := Rsum y / INR (length y)).
  rewrite vsub_s_of_list, vabs_of_list, map_map, vadd_self, map_map.
  rewrite vsq_of_list, map_map, sum_of_list.
  destruct (not_constant_off y m H) as (a & Ha & Ham).
  assert (Hpos : 0 < Rsum (map (fun x => (Rabs (x - m) + Rabs (x - m))
                                         * (Rabs (x - m) + Rabs (x - m))) y)).
  { apply (Rsum_pos _ y a); [|exact Ha|].
    - intros x. apply sq_nonneg.
    - apply sq_pos. assert (0 < Rabs (a - m)) by (apply Rabs_pos_lt; lra). lra. }
  rewrite div_zero_by by lra.
  simpl. f_equal. lra.
Qed.

Lemma sqrt_Num (x : R) : 0 <= x -> Np.sqrt (Num x) = Num (sqrt x).
Proof. intros H. unfold Np.sqrt. destruct (Rlt_dec x 0); [lra|reflexivity]. Qed.

Lemma pearson_same (y : list R) :
  not_constant y -> pearson_formula (of_list y) (of_list y) = Num 1.
Proof.
  intros H. pose proof (not_constant_nonempty y H) as Hne.
  unfold pearson_formula.
  rewrite mean_of_list by exact Hne.
  set (m := Rsum y / INR (length y)).
  rewrite vsub_s_of_list, vmul_self, vsq_of_list, !map_map, sum_of_list.
  pose proof (sq_dev_pos y m H) as Hpos.
  rewrite sqrt_Num by lra. simpl Np.mul.
  rewrite sqrt_sqrt by lra.
  apply div_self. lra.
Qed.

Lemma std_of_list (y : list R) :
  y <> [] ->
  std (of_list y)
  = Num (sqrt (Rsum (map (fun x => Rabs (x - Rsum y / INR (length y))
                                   * Rabs (x - Rsum y / INR (length y))) y)
               / INR (length y))).
Proof.
  intros Hne. unfold Arr.std.
  rewrite mean_of_list by exact Hne.
  rewrite vsub_s_of_list, vabs_of_list, vsq_of_list, !map_map.
  rewrite mean_of_list by (apply map_nonempty, Hne).
  rewrite length_map. apply sqrt_Num.
  apply Rmult_le_pos.
  - apply Rsum_nonneg. intros x. apply sq_nonneg.
  - left. apply Rinv_0_lt_compat.
    destruct y; [contradiction|]. apply lt_0_INR. simpl. lia.
Qed.

Lemma beta_same (y : list R) :
  y <> [] -> Rsum y <> 0 -> beta_formula (of_list y) (of_list y) = Num 1.
Proof.
  intros Hne Hs. unfold beta_formula.
  rewrite mean_of_list by exact Hne.
  apply div_self.
  pose proof (INR_length_nonzero y Hne) as Hn.
  unfold Rdiv. apply Rmult_integral_contrapositive_currified;
    [exact Hs | apply Rinv_neq_0_compat, Hn].
Qed.

Lemma gamma_same (y : list R) :
  not_constant y -> Rsum y <> 0 ->
  gamma_formula (of_list y) (of_list y) = Num 1.
Proof.
  intros H Hs. pose proof (not_constant_nonempty y H) as Hne.
  unfold gamma_formula.
  rewrite std_of_list, mean_of_list by exact Hne.
  set (m := Rsum y / INR (length y)).
  pose proof (INR_length_nonzero y Hne) as Hn.
  assert (Hm : m <> 0).
  { unfold m, Rdiv. apply Rmult_integral_contrapositive_currified;
      [exact Hs | apply Rinv_neq_0_compat, Hn]. }
  assert (Hn' : 0 < INR (length y)).
  { destruct y; [contradiction|]. apply lt_0_INR. simpl. lia. }
  assert (Hv : 0 < Rsum (map (fun x => Rabs (x - m) * Rabs (x - m)) y)
                   / INR (length y)).
  { apply Rdiv_lt_0_compat; [|exact Hn'].
    destruct (not_constant_off y m H) as (a & Ha & Ham).
    apply (Rsum_pos _ y a); [|exact Ha|].
    - intros x. apply sq_nonneg.
    - apply sq_pos. assert (0 < Rabs (a - m)) by (apply Rabs_pos_lt; lra). lra. }
  pose proof (sqrt_lt_R0 _ Hv) as Hsd.
  rewrite div_finite by exact Hm.
  apply div_self.
  unfold Rdiv. apply Rmult_integral_contrapositive_currified;
    [lra | apply Rinv_neq_0_compat, Hm].
Qed.

Lemma kge_ones : kge_formula (Num 1) (Num 1) (Num 1) = Num 1.
Proof.
  unfold kge_formula. simpl Np.sub at 2 3 4. simpl Np.sq. simpl Np.add.
  replace ((1 + - (1)) * (1 + - (1)) + (1 + - (1)) * (1 + - (1))
           + (1 + - (1)) * (1 + - (1))) with 0 by lra.
  rewrite sqrt_Num_0. simpl. f_equal. lra.
Qed.

(** *** Identical arrays through the evaluator *)

Lemma bind_Ok {A B} (a : A) (k : A -> result B) : (Ok a ≫= k) = k a.
Proof. reflexivity. Qed.

Lemma preprocess_same_1d (self : RegressionMetric) (y : list R)
  (clean positive_only : bool) (decimal : option Z) :
  (0 <= default (self_decimal self) decimal)%Z ->
  get_preprocessed_data self (Some (Arr1 y)) (Some (Arr1 y)) clean decimal
                        positive_only
  = Ok (OneDim (kept clean positive_only y) (kept clean positive_only y),
        default (self_decimal self) decimal).
Proof.
  intros Hd. rewrite preprocess_1d by (reflexivity || exact Hd).
  rewrite retained_same. reflexivity.
Qed.

Lemma kept_idempotent (clean positive_only : bool) (y : list R) :
  kept clean positive_only (kept clean positive_only y)
  = kept clean positive_only y.
Proof.
  unfold kept at 1.
  rewrite <- (retained_same clean positive_only y) at 2.
  unfold kept. rewrite retained_idempotent. reflexivity.
Qed.

Lemma same_lengths_refl (ys : list (list R)) : same_lengths ys ys = true.
Proof.
  induction ys as [|y ys IH]; simpl; [reflexivity|].
  rewrite Nat.eqb_refl. exact IH.
Qed.

Lemma filter_columns_same (clean positive_only : bool) (ys : list (list R)) :
  zip_with (filter_column clean positive_only) ys ys
  = map (fun y => (kept clean positive_only y, kept clean positive_only y)) ys.
Proof.
  rewrite zip_with_same. apply map_ext. intros y.
  unfold filter_column. rewrite retained_same. reflexivity.
Qed.

Lemma preprocess_same_2d (self : RegressionMetric) (ys : list (list R))
  (clean positive_only : bool) (decimal : option Z) :
  (2 <= length ys)%nat ->
  (0 <= default (self_decimal self) decimal)%Z ->
  get_preprocessed_data self (Some (Arr2 ys)) (Some (Arr2 ys)) clean decimal
                        positive_only
  = Ok (MultiDim (map (kept clean positive_only) ys)
                 (map (kept clean positive_only) ys),
        default (self_decimal self) decimal).
Proof.
  intros HM Hd. unfold get_preprocessed_data.
  destruct ys as [|y1 [|y2 ys]]; simpl in HM; try lia.
  rewrite same_lengths_refl, filter_columns_same, !map_map.
  cbn [fst snd]. rewrite bind_Ok.
  destruct (Z.ltb_spec (default (self_decimal self) decimal) 0);
    [lia|reflexivity].
Qed.

Lemma axis0_same (f : arr -> arr -> npfloat) (ys : list (list R)) :
  axis0 f ys ys = map (fun y => f (of_list y) (of_list y)) ys.
Proof. unfold axis0. apply zip_with_same. Qed.

Lemma map_const_repeat {A B} (c : B) (f : A -> B) (l : list A) :
  (forall x, In x l -> f x = c) -> map f l = repeat c (length l).
Proof.
  induction l as [|x l IH]; intros H; simpl; [reflexivity|].
  rewrite H by (left; reflexivity). f_equal.
  apply IH. intros z Hz. apply H. right; exact Hz.
Qed.

Lemma Rsum_scale (c : R) (w : list R) :
  Rsum (map (fun x => c * x) w) = c * Rsum w.
Proof. induction w as [|x w IH]; simpl; [lra|]. rewrite IH. lra. Qed.

Lemma vmul_const (c : R) (w : list R) :
  vmul (repeat (Num c) (length w)) (of_list w)
  = of_list (map (fun x => c * x) w).
Proof.
  unfold Arr.vmul, Arr.zip_with, Arr.of_list.
  induction w as [|x w IH]; simpl; [reflexivity|]. f_equal. exact IH.
Qed.

Lemma weighted_sum_const (c : R) (w : list R) :
  Np.sum (vmul (repeat (Num c) (length w)) (of_list w)) = Num (c * Rsum w).
Proof.
  rewrite vmul_const, sum_of_list, Rsum_scale. reflexivity.
Qed.

(** A vector of M equal values that rounding leaves alone comes out as it
    is, or as itself when weighted. *)
Lemma multi_output_const (c : R) (M : nat) (mo : multi_output) (d : Z) :
  usable mo M ->
  Np.round (Num c) d = Num c ->
  get_multi_output_result (repeat (Num c) M) mo d = Ok (const_result mo M c).
Proof.
  intros Hmo Hround. destruct mo as [|w]; simpl.
  - f_equal. f_equal.
    rewrite (map_const_repeat (Num c)), repeat_length; [reflexivity|].
    intros x Hx. apply repeat_spec in Hx. subst x. exact Hround.
  - destruct Hmo as [Hlen HW]. rewrite repeat_length, Hlen, Nat.eqb_refl.
    rewrite <- Hlen, weighted_sum_const, sum_of_list.
    rewrite div_finite by exact HW.
    replace (c * Rsum w / Rsum w) with c by (field; exact HW).
    rewrite Hround. reflexivity.
Qed.

Section Same.

Variable self : RegressionMetric.
Variables clean positive_only : bool.
Variable decimal : option Z.
Variable mo : multi_output.
Hypothesis Hd : (0 <= default (self_decimal self) decimal)%Z.

Abbreviation d := (default (self_decimal self) decimal).
Abbreviation k := (kept clean positive_only).

Ltac run_1d :=
  rewrite preprocess_same_1d by exact Hd; rewrite !bind_Ok;
  cbv beta iota zeta.

Ltac run_2d HM :=
  rewrite preprocess_same_2d by (exact HM || exact Hd); rewrite !bind_Ok;
  cbv beta iota zeta.

Lemma length_nonzero {A} (l : list A) : l <> [] -> length l <> 0%nat.
Proof. destruct l; [contradiction|discriminate]. Qed.

Lemma columns_const (f : arr -> arr -> npfloat) (c : R) (ys : list (list R)) :
  (forall y, In y ys -> f (of_list (k y)) (of_list (k y)) = Num c) ->
  usable mo (length ys) ->
  Np.round (Num c) d = Num c ->
  get_multi_output_result (axis0 f (map k ys) (map k ys)) mo d
  = Ok (const_result mo (length ys) c).
Proof.
  intros Hf Hmo Hround.
  rewrite axis0_same, map_map.
  rewrite (map_const_repeat (Num c)) by exact Hf.
  apply multi_output_const; assumption.
Qed.

Lemma len2_kept (ys : list (list R)) :
  ys <> [] -> List.Forall (fun y => k y <> []) ys ->
  len2 (map k ys) <> 0%nat.
Proof.
  intros Hne Hall. destruct ys as [|y ys]; [contradiction|].
  inversion Hall; subst. unfold len2. simpl. apply length_nonzero. assumption.
Qed.

Lemma errors_same_1d (y : list R) :
  k y <> [] ->
  mean_absolute_error self (Some (Arr1 y)) (Some (Arr1 y)) mo decimal
                      clean positive_only = Ok (Scalar (Num 0)) /\
  mean_squared_error self (Some (Arr1 y)) (Some (Arr1 y)) mo decimal
                     clean positive_only = Ok (Scalar (Num 0)) /\
  root_mean_squared_error self (Some (Arr1 y)) (Some (Arr1 y)) mo decimal
                          clean positive_only = Ok (Scalar (Num 0)).
Proof.
  intros Hne. apply length_nonzero in Hne.
  unfold mean_absolute_error, mean_squared_error, root_mean_squared_error.
  run_1d.
  rewrite rmse_same, mae_same, mse_same by exact Hne.
  rewrite NpFacts.round_0. repeat split.
Qed.

Lemma percentage_errors_same_1d (y : list R) :
  k y <> [] -> List.Forall (fun x => x <> 0) (k y) ->
  mean_absolute_percentage_error self (Some (Arr1 y)) (Some (Arr1 y)) mo
    decimal clean positive_only = Ok (Scalar (Num 0)) /\
  symmetric_mean_absolute_percentage_error self (Some (Arr1 y))
    (Some (Arr1 y)) mo decimal clean positive_only = Ok (Scalar (Num 0)).
Proof.
  intros Hne Hnz.
  unfold mean_absolute_percentage_error,
    symmetric_mean_absolute_percentage_error.
  run_1d.
  rewrite mape_same, smape_same by assumption.
  rewrite NpFacts.round_0. split; reflexivity.
Qed.

Lemma efficiencies_same_1d (y : list R) :
  not_constant (k y) ->
  coefficient_of_determination self (Some (Arr1 y)) (Some (Arr1 y)) mo
    decimal clean positive_only = Ok (Scalar (Num 1)) /\
  nash_sutcliffe_efficiency self (Some (Arr1 y)) (Some (Arr1 y)) mo
    decimal clean positive_only = Ok (Scalar (Num 1)) /\
  willmott_index self (Some (Arr1 y)) (Some (Arr1 y)) mo
    decimal clean positive_only = Ok (Scalar (Num 1)).
Proof.
  intros Hnc.
  unfold coefficient_of_determination, nash_sutcliffe_efficiency,
    willmott_index.
  run_1d.
  rewrite nse_same, wi_same by exact Hnc.
  rewrite NpFacts.round_1 by exact Hd. repeat split.
Qed.

(** The one-dimensional branch of the Pearson coefficient raises, whatever
    the data: it reads [np.m1] (regression.py, line 406). *)
Lemma pearson_1d_raises (t p : list R) :
  length t = length p ->
  pearson_correlation_coefficient self (Some (Arr1 t)) (Some (Arr1 p)) mo
    decimal clean positive_only = Raise numpy_has_no_m1.
Proof.
  intros Hlen. unfold pearson_correlation_coefficient.
  rewrite preprocess_1d by assumption. reflexivity.
Qed.

Lemma errors_same_2d (ys : list (list R)) :
  (2 <= length ys)%nat -> usable mo (length ys) ->
  List.Forall (fun y => k y <> []) ys ->
  mean_absolute_error self (Some (Arr2 ys)) (Some (Arr2 ys)) mo decimal
    clean positive_only = Ok (const_result mo (length ys) 0) /\
  mean_squared_error self (Some (Arr2 ys)) (Some (Arr2 ys)) mo decimal
    clean positive_only = Ok (const_result mo (length ys) 0) /\
  root_mean_squared_error self (Some (Arr2 ys)) (Some (Arr2 ys)) mo decimal
    clean positive_only = Ok (const_result mo (length ys) 0).
Proof.
  intros HM Hmo Hne.
  assert (Hlen : len2 (map k ys) <> 0%nat).
  { apply len2_kept; [|exact Hne]. intros ->. simpl in HM. lia. }
  unfold mean_absolute_error, mean_squared_error, root_mean_squared_error.
  run_2d HM.
  repeat split; apply columns_const; try assumption;
    try apply NpFacts.round_0; intros y _.
  - apply mae_same, Hlen.
  - apply mse_same, Hlen.
  - apply rmse_same, Hlen.
Qed.

Lemma percentage_errors_same_2d (ys : list (list R)) :
  (2 <= length ys)%nat -> usable mo (length ys) ->
  List.Forall (fun y => k y <> []) ys ->
  List.Forall (fun y => List.Forall (fun x => x <> 0) (k y)) ys ->
  mean_absolute_percentage_error self (Some (Arr2 ys)) (Some (Arr2 ys)) mo
    decimal clean positive_only = Ok (const_result mo (length ys) 0) /\
  symmetric_mean_absolute_percentage_error self (Some (Arr2 ys))
    (Some (Arr2 ys)) mo decimal clean positive_only
  = Ok (const_result mo (length ys) 0).
Proof.
  intros HM Hmo Hne Hnz.
  rewrite List.Forall_forall in Hne, Hnz.
  unfold mean_absolute_percentage_error,
    symmetric_mean_absolute_percentage_error.
  run_2d HM.
  split; apply columns_const; try assumption;
    try apply NpFacts.round_0; intros y Hy.
  - apply mape_same; [apply Hne, Hy | apply Hnz, Hy].
  - apply smape_same; [apply Hne, Hy | apply Hnz, Hy].
Qed.

Lemma efficiencies_same_2d (ys : list (list R)) :
  (2 <= length ys)%nat -> usable mo (length ys) ->
  List.Forall (fun y => not_constant (k y)) ys ->
  coefficient_of_determination self (Some (Arr2 ys)) (Some (Arr2 ys)) mo
    decimal clean positive_only = Ok (const_result mo (length ys) 1) /\
  nash_sutcliffe_efficiency self (Some (Arr2 ys)) (Some (Arr2 ys)) mo
    decimal clean positive_only = Ok (const_result mo (length ys) 1) /\
  willmott_index self (Some (Arr2 ys)) (Some (Arr2 ys)) mo
    decimal clean positive_only = Ok (const_result mo (length ys) 1) /\
  pearson_correlation_coefficient self (Some (Arr2 ys)) (Some (Arr2 ys)) mo
    decimal clean positive_only = Ok (const_result mo (length ys) 1).
Proof.
  intros HM Hmo Hnc.
  rewrite List.Forall_forall in Hnc.
  unfold coefficient_of_determination, nash_sutcliffe_efficiency,
    willmott_index, pearson_correlation_coefficient.
  run_2d HM.
  repeat split; apply columns_const; try assumption;
    try (apply NpFacts.round_1; exact Hd); intros y Hy.
  - apply nse_same, Hnc, Hy.
  - apply nse_same, Hnc, Hy.
  - apply wi_same, Hnc, Hy.
  - apply pearson_same, Hnc, Hy.
Qed.

End Same.

Lemma zip_with_repeat {A B C} (f : A -> B -> C) (a : A) (b : B) (n : nat) :
  zip_with f (repeat a n) (repeat b n) = repeat (f a b) n.
Proof.
  unfold Arr.zip_with. induction n as [|n IH]; simpl; [reflexivity|].
  f_equal. exact IH.
Qed.

Lemma combine_repeat {A B} (a : A) (b : B) (n : nat) :
  combine (repeat a n) (repeat b n) = repeat (a, b) n.
Proof. induction n as [|n IH]; simpl; [reflexivity|]. f_equal. exact IH. Qed.

Lemma broadcast_const (mo : multi_output) (M : nat) (c : R) :
  broadcast (const_result mo M c) M = repeat (Num c) M.
Proof. destruct mo; reflexivity. Qed.

(** The Kling-Gupta efficiency of a matrix against itself: [r], rounded, is
    1, and so are [beta] and [gamma]. *)
Lemma kge_same_2d (self : RegressionMetric) (clean positive_only : bool)
  (decimal : option Z) (mo : multi_output) (ys : list (list R)) :
  (0 <= default (self_decimal self) decimal)%Z ->
  (2 <= length ys)%nat -> usable mo (length ys) ->
  List.Forall (fun y => not_constant (kept clean positive_only y)) ys ->
  List.Forall (fun y => Rsum (kept clean positive_only y) <> 0) ys ->
  kling_gupta_efficiency self (Some (Arr2 ys)) (Some (Arr2 ys)) mo decimal
    clean positive_only = Ok (const_result mo (length ys) 1).
Proof.
  intros Hd HM Hmo Hnc Hmean.
  unfold kling_gupta_efficiency.
  rewrite preprocess_same_2d by assumption. rewrite bind_Ok.
  cbv beta iota zeta. cbn [arrays fst snd].
  set (ks := map (kept clean positive_only) ys).
  assert (Hks : length ks = length ys) by apply length_map.
  destruct (efficiencies_same_2d self clean positive_only
              (Some (default (self_decimal self) decimal)) mo Hd ks)
    as (_ & _ & _ & Hr).
  - rewrite Hks. exact HM.
  - rewrite Hks. exact Hmo.
  - unfold ks. apply List.Forall_map.
    eapply List.Forall_impl; [|exact Hnc].
    intros y Hy. rewrite kept_idempotent. exact Hy.
  - rewrite Hr, bind_Ok.
    rewrite List.Forall_forall in Hnc, Hmean.
    unfold ks. rewrite !axis0_same, !map_map.
    rewrite (map_const_repeat (Num 1) (fun y => beta_formula _ _)).
    2:{ intros y Hy. apply beta_same;
          [apply not_constant_nonempty, Hnc, Hy | apply Hmean, Hy]. }
    rewrite (map_const_repeat (Num 1) (fun y => gamma_formula _ _)).
    2:{ intros y Hy. apply gamma_same; [apply Hnc, Hy | apply Hmean, Hy]. }
    rewrite !length_map, broadcast_const, combine_repeat, zip_with_repeat.
    cbn [fst snd]. rewrite kge_ones.
    apply multi_output_const; [exact Hmo|].
    apply NpFacts.round_1, Hd.
Qed.

(** C1, as the code has it.  When [y_true] and [y_pred] are one and the same
    array, and some sample is kept by the [clean]/[positive_only] filter:
    MAE, MSE and RMSE return 0; MAPE and SMAPE return 0 when no sample kept
    is zero; R2, NSE and the Willmott index return 1 when the samples kept
    are not all equal; for a matrix of two or more columns (the scores of
    the columns as [multi_output] shapes them) the Pearson coefficient
    returns 1 under the same condition on each column, and KGE returns 1
    when in addition no column has mean zero. *)
Theorem identical_arrays_scores (self : RegressionMetric)
  (clean positive_only : bool) (decimal : option Z) (mo : multi_output) :
  (0 <= default (self_decimal self) decimal)%Z ->
  (forall y : list R,
     let same f := f self (Some (Arr1 y)) (Some (Arr1 y)) mo decimal
                     clean positive_only in
     kept clean positive_only y <> [] ->
     (same mean_absolute_error = Ok (Scalar (Num 0)) /\
      same mean_squared_error = Ok (Scalar (Num 0)) /\
      same root_mean_squared_error = Ok (Scalar (Num 0))) /\
     (List.Forall (fun x => x <> 0) (kept clean positive_only y) ->
      same mean_absolute_percentage_error = Ok (Scalar (Num 0)) /\
      same symmetric_mean_absolute_percentage_error = Ok (Scalar (Num 0))) /\
     (not_constant (kept clean positive_only y) ->
      same coefficient_of_determination = Ok (Scalar (Num 1)) /\
      same nash_sutcliffe_efficiency = Ok (Scalar (Num 1)) /\
      same willmott_index = Ok (Scalar (Num 1)))) /\
  (forall ys : list (list R),
     let same f := f self (Some (Arr2 ys)) (Some (Arr2 ys)) mo decimal
                     clean positive_only in
     let zero := Ok (const_result mo (length ys) 0) in
     let one := Ok (const_result mo (length ys) 1) in
     (2 <= length ys)%nat -> usable mo (length ys) ->
     List.Forall (fun y => kept clean positive_only y <> []) ys ->
     (same mean_absolute_error = zero /\
      same mean_squared_error = zero /\
      same root_mean_squared_error = zero) /\
     (List.Forall (fun y => List.Forall (fun x => x <> 0)
                              (kept clean positive_only y)) ys ->
      same mean_absolute_percentage_error = zero /\
      same symmetric_mean_absolute_percentage_error = zero) /\
     (List.Forall (fun y => not_constant (kept clean positive_only y)) ys ->
      (same coefficient_of_determination = one /\
       same nash_sutcliffe_efficiency = one /\
       same willmott_index = one /\
       same pearson_correlation_coefficient = one) /\
      (List.Forall (fun y => Rsum (kept clean positive_only y) <> 0) ys ->
       same kling_gupta_efficiency = one))).
Proof.
  intros Hd. split.
  - intros y same Hne. split; [|split].
    + apply errors_same_1d; assumption.
    + intros Hnz. apply percentage_errors_same_1d; assumption.
    + intros Hnc. apply efficiencies_same_1d; assumption.
  - intros ys same zero one HM Hmo Hne. split; [|split].
    + apply errors_same_2d; assumption.
    + intros Hnz. apply percentage_errors_same_2d; assumption.
    + intros Hnc. split.
      * apply efficiencies_same_2d; assumption.
      * intros Hmean. apply kge_same_2d; assumption.
Qed.

Lemma identical_arrays_scores_witness :
  (0 <= default (self_decimal default_evaluator) None)%Z /\
  kept false false [1; 2; 3] <> [] /\
  not_constant (kept false false [1; 2; 3]) /\
  mean_absolute_error default_evaluator (Some (Arr1 [1; 2; 3]))
    (Some (Arr1 [1; 2; 3])) raw_values None false false
  = Ok (Scalar (Num 0)) /\
  coefficient_of_determination default_evaluator (Some (Arr1 [1; 2; 3]))
    (Some (Arr1 [1; 2; 3])) raw_values None false false
  = Ok (Scalar (Num 1)).
Proof.
  assert (Hd : (0 <= default (self_decimal default_evaluator) None)%Z)
    by (simpl; lia).
  assert (Hne : kept false false [1; 2; 3] <> []) by discriminate.
  assert (Hnc : not_constant (kept false false [1; 2; 3])).
  { exists 1, 2. simpl. repeat split; [tauto | tauto | lra]. }
  destruct (identical_arrays_scores default_evaluator false false None
              raw_values Hd) as [H1 _].
  destruct (H1 [1; 2; 3] Hne) as ((Hmae & _) & _ & Hone).
  destruct (Hone Hnc) as (Hr2 & _).
  repeat (split; [assumption|]). exact Hr2.
Defined.

(** A constant array against itself: the total sum of squares is zero, and
    0/0 is [nan]. *)
Lemma nse_constant_example :
  nse_formula (of_list [2; 2; 2]) (of_list [2; 2; 2]) = NaN.
Proof.
  unfold nse_formula.
  rewrite sq_error_same, mean_of_list by discriminate.
  rewrite vsub_s_of_list, vsq_of_list, map_map, sum_of_list.
  simpl. unfold Np.div.
  destruct (Req_dec_T _ 0) as [_|H].
  - simpl. NpFacts.decide_R. reflexivity.
  - exfalso. apply H. field.
Qed.

(** [y_true = y_pred = [2, 2, 2]]: the coefficient of determination is
    [nan], not 1. *)
Lemma constant_arrays_have_no_R2 :
  coefficient_of_determination default_evaluator (Some (Arr1 [2; 2; 2]))
    (Some (Arr1 [2; 2; 2])) raw_values None false false
  = Ok (Scalar NaN) /\
  coefficient_of_determination default_evaluator (Some (Arr1 [2; 2; 2]))
    (Some (Arr1 [2; 2; 2])) raw_values None false false
  <> Ok (Scalar (Num 1)).
Proof.
  assert (E : coefficient_of_determination default_evaluator
                (Some (Arr1 [2; 2; 2])) (Some (Arr1 [2; 2; 2]))
                raw_values None false false = Ok (Scalar NaN)).
  { unfold coefficient_of_determination.
    rewrite preprocess_same_1d by (simpl; lia). rewrite bind_Ok.
    cbv beta iota zeta.
    change (kept false false [2; 2; 2]) with [2; 2; 2].
    rewrite nse_constant_example. reflexivity. }
  split; [exact E|]. rewrite E. discriminate.
Qed.

(** *** Where the rounding happens *)

Lemma same_lengths_length (ts ps : list (list R)) :
  same_lengths ts ps = true -> length ts = length ps.
Proof.
  revert ps. induction ts as [|t ts IH]; intros [|p ps] H; simpl in H;
    try discriminate; [reflexivity|].
  apply andb_prop in H. simpl. f_equal. apply IH, H.
Qed.

Lemma same_lengths_columns (cols : list (list R * list R)) :
  (forall x, In x cols -> length (fst x) = length (snd x)) ->
  same_lengths (map fst cols) (map snd cols) = true.
Proof.
  induction cols as [|x cols IH]; intros H; simpl; [reflexivity|].
  rewrite (H x (or_introl eq_refl)), Nat.eqb_refl. simpl.
  apply IH. intros z Hz. apply H. right; exact Hz.
Qed.

Lemma in_filtered_columns (clean positive_only : bool)
  (ts ps : list (list R)) (x : list R * list R) :
  In x (zip_with (filter_column clean positive_only) ts ps) ->
  exists t p, x = filter_column clean positive_only t p.
Proof.
  unfold Arr.zip_with. intros H. apply in_map_iff in H.
  destruct H as ([t p] & <- & _). exists t, p. reflexivity.
Qed.

Lemma filter_column_idempotent (clean positive_only : bool) (t p : list R) :
  let x := filter_column clean positive_only t p in
  filter_column clean positive_only (fst x) (snd x) = x.
Proof.
  intros x. unfold x, filter_column. cbn [fst snd].
  rewrite retained_idempotent. reflexivity.
Qed.

Lemma filtered_columns_idempotent (clean positive_only : bool)
  (ts ps : list (list R)) :
  let cols := zip_with (filter_column clean positive_only) ts ps in
  zip_with (filter_column clean positive_only) (map fst cols) (map snd cols)
  = cols.
Proof.
  intros cols. unfold Arr.zip_with at 1. rewrite combine_fst_snd.
  rewrite <- (map_id cols) at 2. apply map_ext_in. intros x Hx.
  destruct (in_filtered_columns _ _ _ _ _ Hx) as (t & p & ->).
  apply filter_column_idempotent.
Qed.

Lemma length_zip_with {A B C} (f : A -> B -> C) (a : list A) (b : list B) :
  length a = length b -> length (zip_with f a b) = length a.
Proof.
  intros H. unfold Arr.zip_with. rewrite length_map, length_combine. lia.
Qed.

Lemma preprocess_2d (self : RegressionMetric) (ts ps : list (list R))
  (clean positive_only : bool) (decimal : option Z) :
  (2 <= length ts)%nat ->
  same_lengths ts ps = true ->
  (0 <= default (self_decimal self) decimal)%Z ->
  let cols := zip_with (filter_column clean positive_only) ts ps in
  get_preprocessed_data self (Some (Arr2 ts)) (Some (Arr2 ps)) clean decimal
                        positive_only
  = Ok (MultiDim (map fst cols) (map snd cols),
        default (self_decimal self) decimal).
Proof.
  intros HM Hsame Hd cols. unfold get_preprocessed_data.
  pose proof (same_lengths_length ts ps Hsame) as Hlen.
  destruct ts as [|t1 [|t2 ts]]; simpl in HM; try lia.
  destruct ps as [|p1 [|p2 ps]]; simpl in Hlen; try lia.
  rewrite Hsame. fold cols. rewrite bind_Ok.
  destruct (Z.ltb_spec (default (self_decimal self) decimal) 0);
    [lia|reflexivity].
Qed.

(** Handing the preprocessed columns to a metric again changes nothing. *)
Lemma preprocess_2d_again (self : RegressionMetric) (ts ps : list (list R))
  (clean positive_only : bool) (d : Z) :
  (2 <= length ts)%nat ->
  same_lengths ts ps = true ->
  (0 <= d)%Z ->
  let cols := zip_with (filter_column clean positive_only) ts ps in
  get_preprocessed_data self (Some (Arr2 (map fst cols)))
    (Some (Arr2 (map snd cols))) clean (Some d) positive_only
  = Ok (MultiDim (map fst cols) (map snd cols), d).
Proof.
  intros HM Hsame Hd cols. subst cols.
  pose proof (same_lengths_length ts ps Hsame) as Hlen.
  rewrite preprocess_2d.
  - cbv zeta.
    rewrite (filtered_columns_idempotent clean positive_only ts ps).
    reflexivity.
  - rewrite length_map, length_zip_with by exact Hlen.
    exact HM.
  - apply same_lengths_columns. intros x Hx.
    destruct (in_filtered_columns _ _ _ _ _ Hx) as (t & p & ->).
    unfold filter_column. cbn [fst snd]. apply length_retained.
  - exact Hd.
Qed.

Lemma preprocess_1d_again (self : RegressionMetric) (t p : list R)
  (clean positive_only : bool) (d : Z) :
  (0 <= d)%Z ->
  let K := retained clean positive_only t p in
  get_preprocessed_data self (Some (Arr1 (map fst K))) (Some (Arr1 (map snd K)))
    clean (Some d) positive_only
  = Ok (OneDim (map fst K) (map snd K), d).
Proof.
  intros Hd K. subst K. rewrite preprocess_1d.
  - rewrite (retained_idempotent clean positive_only t p). reflexivity.
  - apply length_retained.
  - exact Hd.
Qed.

Section Rounding.

Variable self : RegressionMetric.
Variables clean positive_only : bool.
Variable decimal : option Z.
Variable mo : multi_output.
Hypothesis Hd : (0 <= default (self_decimal self) decimal)%Z.

Abbreviation d := (default (self_decimal self) decimal).

Lemma rmse_run (t p : list R) :
  length t = length p ->
  let K := retained clean positive_only t p in
  root_mean_squared_error self (Some (Arr1 t)) (Some (Arr1 p)) mo decimal
    clean positive_only
  = Ok (Scalar (Np.round (rmse_unrounded (map fst K) (map snd K)) d)).
Proof.
  intros Hlen K. subst K. unfold root_mean_squared_error.
  rewrite preprocess_1d by assumption. reflexivity.
Qed.

Lemma nrmse_run (t p : list R) (model : Z) :
  length t = length p ->
  let K := retained clean positive_only t p in
  normalized_root_mean_square_error self (Some (Arr1 t)) (Some (Arr1 p))
    model mo decimal clean positive_only
  = (result ← nrmse_column model (length (map fst K))
                (Np.round (rmse_unrounded (map fst K) (map snd K)) d)
                (of_list (map fst K)) (of_list (map snd K));
     mret (Scalar (Np.round result d))).
Proof.
  intros Hlen K. subst K.
  unfold normalized_root_mean_square_error, root_mean_squared_error.
  rewrite preprocess_1d by assumption. rewrite bind_Ok.
  cbv beta iota zeta. cbn [arrays fst snd].
  rewrite preprocess_1d_again by exact Hd. rewrite !bind_Ok.
  cbv beta iota zeta. unfold value_mapM, rmse_unrounded.
  destruct (nrmse_column _ _ _ _ _); reflexivity.
Qed.

Lemma r2s_run (ts ps : list (list R)) :
  (2 <= length ts)%nat -> same_lengths ts ps = true ->
  let cols := zip_with (filter_column clean positive_only) ts ps in
  pearson_correlation_coefficient_square self (Some (Arr2 ts)) (Some (Arr2 ps))
    mo decimal clean positive_only
  = (r ← get_multi_output_result
           (axis0 pearson_formula (map fst cols) (map snd cols)) mo d;
     match decimal with
     | Some _ => Ok (round_value (value_map Np.sq r) d)
     | None => Raise decimals_not_an_integer
     end).
Proof.
  intros HM Hsame cols. subst cols.
  unfold pearson_correlation_coefficient_square,
    pearson_correlation_coefficient.
  rewrite preprocess_2d by assumption. rewrite bind_Ok.
  cbv beta iota zeta.
  destruct (get_multi_output_result _ mo _) as [r|e]; [|reflexivity].
  rewrite bind_Ok. destruct decimal; reflexivity.
Qed.

(** Called without [decimal], the squared coefficient cannot be rounded:
    line 436 hands the argument, still [None], to [np.round]. *)
Lemma r2s_needs_decimal (y_true y_pred : option ndarray) (r : value) :
  pearson_correlation_coefficient self y_true y_pred mo None clean
    positive_only = Ok r ->
  pearson_correlation_coefficient_square self y_true y_pred mo None clean
    positive_only = Raise decimals_not_an_integer.
Proof.
  intros Hr. unfold pearson_correlation_coefficient_square.
  rewrite Hr. reflexivity.
Qed.

Lemma kge_run (ts ps : list (list R)) :
  (2 <= length ts)%nat -> same_lengths ts ps = true ->
  let cols := zip_with (filter_column clean positive_only) ts ps in
  let y_true := map fst cols in
  let y_pred := map snd cols in
  kling_gupta_efficiency self (Some (Arr2 ts)) (Some (Arr2 ps)) mo decimal
    clean positive_only
  = (r ← get_multi_output_result (axis0 pearson_formula y_true y_pred) mo d;
     get_multi_output_result
       (zip_with (fun r bg => kge_formula r (fst bg) (snd bg))
          (broadcast r (length y_true))
          (combine (axis0 beta_formula y_true y_pred)
                   (axis0 gamma_formula y_true y_pred)))
       mo d).
Proof.
  intros HM Hsame cols y_true y_pred. subst y_true y_pred cols.
  unfold kling_gupta_efficiency, pearson_correlation_coefficient.
  rewrite preprocess_2d by assumption. rewrite bind_Ok.
  cbv beta iota zeta. cbn [arrays fst snd].
  rewrite preprocess_2d_again by assumption. rewrite !bind_Ok.
  reflexivity.
Qed.

End Rounding.


Lemma retained_example_2 :
  retained true false [2; 2] [3.5; 3.5] = [(2, 3.5); (2, 3.5)].
Proof.
  unfold retained, keep, nonzero. simpl. NpFacts.decide_R. reflexivity.
Qed.

Lemma rmse_example : rmse_unrounded [2; 2] [3.5; 3.5] = Num (3 / 2).
Proof.
  unfold rmse_unrounded.
  assert (E : vsub (of_list [3.5; 3.5]) (of_list [2; 2])
              = of_list [3 / 2; 3 / 2]).
  { unfold Arr.vsub, Arr.zip_with, Arr.of_list. simpl.
    repeat f_equal; lra. }
  rewrite E, vsq_of_list, sum_of_list.
  unfold len_f. rewrite div_finite by (simpl; lra).
  rewrite sqrt_Num by (simpl; lra).
  f_equal. apply sqrt_lem_1; simpl; lra.
Qed.

Lemma mean_example : Np.mean (of_list [3.5; 3.5]) = Num (7 / 2).
Proof. rewrite mean_of_list by discriminate. f_equal. simpl. lra. Qed.

Lemma round_three_halves : Np.round (Num (3 / 2)) 0 = Num 2.
Proof.
  simpl. rewrite NpFacts.round_R_no_decimals.
  rewrite (NpFacts.rint_tie (3 / 2) 1) by lra. reflexivity.
Qed.

Lemma round_four_sevenths : Np.round (Num (2 / (7 / 2))) 0 = Num 1.
Proof.
  simpl. rewrite NpFacts.round_R_no_decimals.
  rewrite (NpFacts.rint_above (2 / (7 / 2)) 0) by lra. reflexivity.
Qed.

Lemma round_three_sevenths : Np.round (Num (3 / 2 / (7 / 2))) 0 = Num 0.
Proof.
  simpl. rewrite NpFacts.round_R_no_decimals.
  rewrite (NpFacts.rint_below (3 / 2 / (7 / 2)) 0) by lra. reflexivity.
Qed.



End RegressionFacts.

(** ** Dispatch by name *)

Module DispatchFacts.

Import Evaluator Regression.

Section Dispatch.

Variable method : Type.
Variable kwargs : Type.
Variable getattr : string -> result method.
Variable call : method -> option kwargs -> result value.

(** C8, at the input where the code misses it.  With no metric names, the
    loop body, and the length check inside it, never runs: a list of
    parameter dictionaries of any length (so also of another length than the
    list of names) gives the empty mapping, with nothing printed and no
    error. *)
Theorem no_names_no_length_check (paras : option kwargs)
  (list_paras : list (option kwargs)) (out : list string) :
  length (@nil string) <> length (paras :: list_paras) /\
  get_metrics_by_list_names method kwargs getattr call []
                            (Some (paras :: list_paras)) out
  = (Ok ∅, out).
Proof. split; [discriminate|reflexivity]. Qed.

(** With a first name that [getattr] finds, lists of different lengths stop
    the call in the first iteration: the message is printed and [exit(0)]
    raises [SystemExit]; no metric has been computed, whatever the lists
    hold. *)
Lemma length_mismatch_exits (name : string) (names : list string)
  (list_paras : list (option kwargs)) (obj : method) (out : list string) :
  getattr name = Ok obj ->
  length (name :: names) <> length list_paras ->
  get_metrics_by_list_names method kwargs getattr call (name :: names)
                            (Some list_paras) out
  = (Raise (SystemExit 0), out ++ [length_error_message]).
Proof.
  intros Hget Hlen. unfold get_metrics_by_list_names.
  cbn [enumerate length seq combine for_each_io].
  unfold mbind at 1. unfold IO_bind at 1.
  unfold mbind at 1. unfold IO_bind at 1.
  unfold io at 1. rewrite Hget.
  apply Nat.eqb_neq in Hlen. cbn [length] in Hlen. rewrite Hlen.
  reflexivity.
Qed.

(** A name that is not an attribute raises first. *)
Lemma unknown_name_raises (name : string) (names : list string)
  (list_paras : option (list (option kwargs))) (e : exn) (out : list string) :
  getattr name = Raise e ->
  get_metrics_by_list_names method kwargs getattr call (name :: names)
                            list_paras out
  = (Raise e, out).
Proof.
  intros Hget. unfold get_metrics_by_list_names.
  cbn [enumerate length seq combine for_each_io].
  unfold mbind at 1. unfold IO_bind at 1.
  unfold mbind at 1. unfold IO_bind at 1.
  unfold io at 1. rewrite Hget. reflexivity.
Qed.

Lemma for_each_io_invariant {X S} (Q : X -> Prop) (P : list X -> S -> Prop)
  (body : X -> S -> IO S) (out : list string) (xs : list X) :
  (forall done x s, Q x -> P done s ->
     exists s', body x s out = (Ok s', out) /\ P (done ++ [x]) s') ->
  List.Forall Q xs ->
  forall done s, P done s ->
    exists s', for_each_io xs body s out = (Ok s', out) /\ P (done ++ xs) s'.
Proof.
  intros Hbody HQ. induction HQ as [|x xs Hx _ IH]; intros done s Hs.
  - exists s. rewrite app_nil_r. split; [reflexivity|exact Hs].
  - destruct (Hbody done x s Hx Hs) as (s1 & E1 & P1).
    destruct (IH (done ++ [x]) s1 P1) as (s2 & E2 & P2).
    exists s2. rewrite <- app_assoc in P2. split; [|exact P2].
    cbn [for_each_io]. unfold mbind, IO_bind. rewrite E1. exact E2.
Qed.

Lemma in_enumerate {X} (xs : list X) (i : nat) (x : X) :
  In (i, x) (enumerate xs) -> (i < length xs)%nat /\ In x xs.
Proof.
  unfold enumerate. intros H. split.
  - apply in_combine_l in H. apply in_seq in H. lia.
  - apply in_combine_r in H. exact H.
Qed.

Lemma map_snd_enumerate {X} (xs : list X) : map snd (enumerate xs) = xs.
Proof.
  unfold enumerate. generalize 0%nat.
  induction xs as [|x xs IH]; intros n; simpl; [reflexivity|].
  f_equal. apply IH.
Qed.

(** With lists of one length, names that are attributes and metrics that
    return, the call returns a mapping whose keys are the names. *)
Lemma matching_lengths_give_mapping (names : list string)
  (list_paras : list (option kwargs)) (out : list string) :
  length names = length list_paras ->
  (forall name, In name names -> exists obj, getattr name = Ok obj) ->
  (forall obj paras, exists v, call obj paras = Ok v) ->
  exists results : gmap string value,
    get_metrics_by_list_names method kwargs getattr call names
                              (Some list_paras) out
    = (Ok results, out) /\
    forall name, is_Some (results !! name) <-> In name names.
Proof.
  intros Hlen Hget Hcall. unfold get_metrics_by_list_names.
  destruct (for_each_io_invariant
    (fun x : nat * string =>
       (fst x < length list_paras)%nat /\
       exists obj, getattr (snd x) = Ok obj)
    (fun done (m : gmap string value) =>
       forall name, is_Some (m !! name) <-> In name (map snd done))
    (fun '(idx, metric_name) (results : gmap string value) =>
       obj ← io (getattr metric_name);
       _ ← (if negb (length names =? length list_paras)
            then (_ ← print length_error_message; exit 0)
            else mret tt);
       paras ← io (getitem list_paras idx);
       match paras with
       | None =>
           v ← io (call obj None);
           mret (<[metric_name := v]> results)
       | Some paras =>
           v ← io (call obj (Some paras));
           mret (<[metric_name := v]> results)
       end)
    out (enumerate names)) with (done := @nil (nat * string))
                                (s := (∅ : gmap string value))
    as (m & E & Pm).
  - intros done [idx name] m (Hidx & obj & Hobj) Hm. simpl in Hidx, Hobj.
    destruct (PyFacts.getitem_lt list_paras idx Hidx) as (paras & Hparas).
    assert (Hins : forall v : value, forall n,
              is_Some (<[name := v]> m !! n) <-> In n (map snd (done ++ [(idx, name)]))).
    { intros v n. rewrite lookup_insert_is_Some, map_app, in_app_iff, Hm.
      simpl. destruct (decide (name = n)); intuition. }
    unfold mbind, IO_bind, io. rewrite Hobj, Hlen, Nat.eqb_refl. simpl.
    rewrite Hparas.
    destruct paras as [kw|].
    + destruct (Hcall obj (Some kw)) as (v & ->).
      eexists. split; [reflexivity|]. apply Hins.
    + destruct (Hcall obj None) as (v & ->).
      eexists. split; [reflexivity|]. apply Hins.
  - apply List.Forall_forall. intros [idx name] Hin.
    apply in_enumerate in Hin. destruct Hin as [Hidx Hname].
    split; [simpl; lia|]. apply Hget, Hname.
  - intros name. rewrite lookup_empty. simpl. split; [intros [? ?]; discriminate|tauto].
  - exists m. split; [exact E|].
    intros name. rewrite Pm. simpl. rewrite map_snd_enumerate. reflexivity.
Qed.

(** *** Dispatch by a dictionary *)

Lemma dispatch_loop (names : list string) (paras : list (option kwargs))
  (out : list string) :
  length names = length paras ->
  forall (rest : list (string * option kwargs)) (k : nat)
         (acc : gmap string value),
    (forall i x, nth_error rest i = Some x ->
                 nth_error paras (k + i) = Some (snd x)) ->
    for_each_io (combine (seq k (length rest)) (map fst rest))
      (fun '(idx, metric_name) (results : gmap string value) =>
         obj ← io (getattr metric_name);
         _ ← (if negb (length names =? length paras)
              then (_ ← print length_error_message; exit 0)
              else mret tt);
         paras ← io (getitem paras idx);
         match paras with
         | None =>
             v ← io (call obj None);
             mret (<[metric_name := v]> results)
         | Some paras =>
             v ← io (call obj (Some paras));
             mret (<[metric_name := v]> results)
         end) acc out
    = (for_each rest (fun '(metric_name, paras_dict) results =>
         obj ← getattr metric_name;
         match paras_dict with
         | None =>
             v ← call obj None;
             mret (<[metric_name := v]> results)
         | Some paras_dict =>
             v ← call obj (Some paras_dict);
             mret (<[metric_name := v]> results)
         end) acc, out).
Proof.
  intros Hlen rest.
  match goal with
  | |- forall k acc, _ -> for_each_io _ ?b _ _ = (for_each _ ?c _, _) =>
      set (body := b); set (dbody := c)
  end.
  induction rest as [|[name para] rest IH]; intros k acc Hnth.
  - reflexivity.
  - cbn [length seq map fst combine for_each_io for_each].
    pose proof (Hnth 0%nat (name, para) eq_refl) as H0.
    rewrite Nat.add_0_r in H0. cbn [snd] in H0.
    assert (Hnext : forall i x, nth_error rest i = Some x ->
                      nth_error paras (S k + i) = Some (snd x)).
    { intros i x Hx. specialize (Hnth (S i) x Hx).
      rewrite Nat.add_succ_r in Hnth. exact Hnth. }
    assert (Hstep : body (k, name) acc out
                    = (dbody (name, para) acc, out)).
    { subst body dbody. cbv beta iota.
      unfold mbind, IO_bind, io, getitem.
      destruct (getattr name) as [obj|e]; [|reflexivity].
      rewrite Hlen, Nat.eqb_refl. cbn [negb].
      unfold mret at 1, IO_ret at 1. rewrite H0. cbn.
      destruct para as [kw|].
      - destruct (call obj (Some kw)) as [v|e]; reflexivity.
      - destruct (call obj None) as [v|e]; reflexivity. }
    unfold mbind at 1. unfold IO_bind at 1. rewrite Hstep.
    destruct (dbody (name, para) acc) as [s|e]; [|reflexivity].
    rewrite (IH (S k) s Hnext). reflexivity.
Qed.

(** The three ways to ask for metrics by name agree.  A dictionary of
    names and parameters gives what its keys and its values give as two
    lists, and prints nothing; one name with its parameters gives what the
    dictionary of that one entry gives. *)
Theorem dispatchers_agree :
  (forall (metrics_dict : list (string * option kwargs)) (out : list string),
     get_metrics_by_list_names method kwargs getattr call
       (map fst metrics_dict) (Some (map snd metrics_dict)) out
     = (get_metrics_by_dict method kwargs getattr call metrics_dict, out)) /\
  (forall (metric_name : string) (paras : option kwargs),
     get_metric_by_name method kwargs getattr call metric_name paras
     = get_metrics_by_dict method kwargs getattr call [(metric_name, paras)]).
Proof.
  split.
  - intros items out.
    unfold get_metrics_by_list_names, get_metrics_by_dict, enumerate.
    rewrite (length_map fst items) at 1.
    apply (dispatch_loop (map fst items) (map snd items) out).
    + rewrite !length_map. reflexivity.
    + intros i x Hx. cbn [Nat.add]. apply map_nth_error, Hx.
  - intros name paras. unfold get_metric_by_name, get_metrics_by_dict.
    cbn [for_each].
    destruct (getattr name) as [obj|e]; [|reflexivity].
    destruct paras as [kw|]; cbn;
      match goal with
      | |- context [call ?o ?a] => destruct (call o a); reflexivity
      end.
Qed.

End Dispatch.

Lemma length_mismatch_exits_witness :
  (fun _ : string => Ok tt) "RMSE"%string = Ok tt /\
  length ["RMSE"%string; "MAE"%string] <> length [@None unit] /\
  get_metrics_by_list_names unit unit (fun _ => Ok tt)
    (fun _ _ => Ok (Scalar (Num 0))) ["RMSE"%string; "MAE"%string]
    (Some [None]) []
  = (Raise (SystemExit 0), [] ++ [length_error_message]).
Proof.
  assert (Hlen : length ["RMSE"%string; "MAE"%string] <> length [@None unit])
    by discriminate.
  split; [reflexivity|]. split; [exact Hlen|].
  apply (length_mismatch_exits unit unit (fun _ => Ok tt)
           (fun _ _ => Ok (Scalar (Num 0))) "RMSE"%string ["MAE"%string]
           [None] tt [] eq_refl Hlen).
Defined.

Lemma matching_lengths_give_mapping_witness :
  length ["RMSE"%string; "MAE"%string] = length [@None unit; None] /\
  exists results : gmap string value,
    get_metrics_by_list_names unit unit (fun _ => Ok tt)
      (fun _ _ => Ok (Scalar (Num 0))) ["RMSE"%string; "MAE"%string]
      (Some [None; None]) []
    = (Ok results, []) /\
    forall name, is_Some (results !! name)
                 <-> In name ["RMSE"%string; "MAE"%string].
Proof.
  split; [reflexivity|].
  apply (matching_lengths_give_mapping unit unit (fun _ => Ok tt)
           (fun _ _ => Ok (Scalar (Num 0))) ["RMSE"%string; "MAE"%string]
           [None; None] [] eq_refl).
  - intros name _. exists tt. reflexivity.
  - intros obj paras. eexists. reflexivity.
Defined.

End DispatchFacts.

(** ** More about the regression metrics *)

Module RegressionMore.

Import Evaluator Regression ArrFacts RegressionFacts RoundFacts.

(** *** Sums and maxima of finite data *)

Lemma zip_with_maps {X A B C} (f : A -> B -> C) (g : X -> A) (h : X -> B)
  (K : list X) :
  zip_with f (map g K) (map h K) = map (fun x => f (g x) (h x)) K.
Proof.
  unfold Arr.zip_with. induction K as [|x K IH]; simpl; [reflexivity|].
  f_equal. exact IH.
Qed.

Lemma vsub_pairs {X} (g h : X -> R) (K : list X) :
  vsub (of_list (map g K)) (of_list (map h K))
  = of_list (map (fun x => g x - h x) K).
Proof.
  unfold Arr.vsub, Arr.of_list. rewrite !map_map, zip_with_maps.
  reflexivity.
Qed.

Lemma Rsum_le {X} (f g : X -> R) (l : list X) :
  (forall x, In x l -> f x <= g x) -> Rsum (map f l) <= Rsum (map g l).
Proof.
  induction l as [|x l IH]; intros H; simpl; [lra|].
  pose proof (H x (or_introl eq_refl)).
  assert (Rsum (map f l) <= Rsum (map g l))
    by (apply IH; intros y Hy; apply H; right; exact Hy).
  lra.
Qed.

Lemma Rsum_const {X} (c : R) (l : list X) :
  Rsum (map (fun _ => c) l) = INR (length l) * c.
Proof.
  induction l as [|x l IH]; [simpl; lra|].
  cbn [map Rsum fold_right length]. unfold Arr.Rsum in IH.
  rewrite IH, S_INR. lra.
Qed.

Lemma Rsum_plus {X} (f g : X -> R) (l : list X) :
  Rsum (map (fun x => f x + g x) l) = Rsum (map f l) + Rsum (map g l).
Proof. induction l as [|x l IH]; simpl; [lra|]. rewrite IH. lra. Qed.

Lemma max2_Num (a b : R) : Arr.max2 (Num a) (Num b) = Num (Rmax a b).
Proof.
  unfold Arr.max2, Np.ge, Rmax.
  destruct (Rle_dec b a), (Rle_dec a b); try reflexivity; f_equal; lra.
Qed.

Lemma fold_max_of_list (l : list R) (a : R) :
  fold_left Arr.max2 (of_list l) (Num a) = Num (fold_left Rmax l a).
Proof.
  revert a. induction l as [|x l IH]; intros a; [reflexivity|].
  cbn [Arr.of_list map fold_left]. rewrite max2_Num. apply IH.
Qed.

Lemma fold_Rmax_ge (l : list R) (a : R) :
  a <= fold_left Rmax l a /\ forall x, In x l -> x <= fold_left Rmax l a.
Proof.
  revert a. induction l as [|y l IH]; intros a; simpl.
  - split; [lra|intros x []].
  - destruct (IH (Rmax a y)) as [H1 H2].
    pose proof (Rmax_l a y). pose proof (Rmax_r a y).
    split; [lra|]. intros x [<-|Hx]; [lra|apply H2, Hx].
Qed.

(** The greatest entry of a non-empty array of finite numbers. *)
Lemma max_of_list (l : list R) :
  l <> [] ->
  exists m, Arr.max (of_list l) = Ok (Num m) /\ forall x, In x l -> x <= m.
Proof.
  intros Hne. destruct l as [|a l]; [contradiction|].
  exists (fold_left Rmax l a). split.
  - simpl. rewrite fold_max_of_list. reflexivity.
  - destruct (fold_Rmax_ge l a) as [H1 H2].
    intros x [<-|Hx]; [exact H1|apply H2, Hx].
Qed.

Lemma fold_Rmax_in (l : list R) (a : R) :
  fold_left Rmax l a = a \/ In (fold_left Rmax l a) l.
Proof.
  revert a. induction l as [|y l IH]; intros a; simpl; [left; reflexivity|].
  destruct (IH (Rmax a y)) as [E|Hin]; [|right; right; exact Hin].
  rewrite E. unfold Rmax. destruct (Rle_dec a y); [right|]; left; reflexivity.
Qed.

(** The greatest entry of a non-empty array is one of its entries. *)
Lemma max_of_list_in (l : list R) (m : R) :
  Arr.max (of_list l) = Ok (Num m) -> In m l.
Proof.
  destruct l as [|a l]; [discriminate|].
  simpl. rewrite fold_max_of_list. intros E. injection E as <-.
  destruct (fold_Rmax_in l a) as [->|Hin]; [left; reflexivity|right; exact Hin].
Qed.

Lemma nonempty_has {A} (l : list A) : l <> [] -> exists x, In x l.
Proof. destruct l as [|x l]; [contradiction|]. exists x. left; reflexivity. Qed.

(** *** The error metrics of one column, before rounding *)

Section Errors.

Variable K : list (R * R).
Hypothesis HK : K <> [].

Abbreviation t := (map fst K).
Abbreviation p := (map snd K).
Abbreviation n := (INR (length K)).

Abbreviation abs_errors := (Regression.abs_errors K).
Abbreviation sq_errors := (Regression.sq_errors K).

Lemma n_pos : 0 < n.
Proof.
  apply lt_0_INR. destruct (nonempty_has K HK) as (x & Hx).
  destruct (length K) eqn:E; [|lia].
  apply length_zero_iff_nil in E. rewrite E in Hx. contradiction.
Qed.

Lemma mae_value :
  Np.div (Np.sum (vabs (vsub (of_list p) (of_list t)))) (len_f (length t))
  = Num (Rsum abs_errors / n).
Proof.
  rewrite vsub_pairs, vabs_of_list, map_map, sum_of_list, length_map.
  apply div_finite. pose proof n_pos. lra.
Qed.

Lemma mse_value :
  Np.div (Np.sum (vsq (vsub (of_list p) (of_list t)))) (len_f (length t))
  = Num (Rsum sq_errors / n).
Proof.
  rewrite vsub_pairs, vsq_of_list, map_map, sum_of_list, length_map.
  apply div_finite. pose proof n_pos. lra.
Qed.

Lemma sq_errors_nonneg : 0 <= Rsum sq_errors.
Proof. apply Rsum_nonneg. intros x. apply sq_nonneg. Qed.

Lemma abs_errors_nonneg : 0 <= Rsum abs_errors.
Proof. apply Rsum_nonneg. intros x. apply Rabs_pos. Qed.

Lemma mse_nonneg : 0 <= Rsum sq_errors / n.
Proof.
  apply Rmult_le_pos; [apply sq_errors_nonneg|].
  left. apply Rinv_0_lt_compat, n_pos.
Qed.

Lemma mae_nonneg : 0 <= Rsum abs_errors / n.
Proof.
  apply Rmult_le_pos; [apply abs_errors_nonneg|].
  left. apply Rinv_0_lt_compat, n_pos.
Qed.

Lemma rmse_value :
  Np.sqrt (Np.div (Np.sum (vsq (vsub (of_list p) (of_list t))))
                  (len_f (length t)))
  = Num (sqrt (Rsum sq_errors / n)).
Proof. rewrite mse_value. apply sqrt_Num, mse_nonneg. Qed.

Lemma me_value :
  exists m,
    Arr.max (vabs (vsub (of_list t) (of_list p))) = Ok (Num m) /\
    forall x, In x abs_errors -> x <= m.
Proof.
  rewrite vsub_pairs, vabs_of_list, map_map.
  destruct (max_of_list (map (fun x => Rabs (fst x - snd x)) K))
    as (m & E & Hm); [apply map_nonempty, HK|].
  exists m. split; [exact E|].
  intros x Hx. apply Hm. unfold Regression.abs_errors in Hx.
  apply in_map_iff in Hx. destruct Hx as (y & <- & Hy).
  apply in_map_iff. exists y. split; [apply Rabs_minus_sym|exact Hy].
Qed.

(** The greatest absolute error is the error of a sample kept, and no
    sample kept has a greater one. *)
Lemma me_attained :
  exists m,
    Arr.max (vabs (vsub (of_list t) (of_list p))) = Ok (Num m) /\
    (exists x, In x K /\ m = Rabs (fst x - snd x)) /\
    forall x, In x K -> Rabs (fst x - snd x) <= m.
Proof.
  rewrite vsub_pairs, vabs_of_list, map_map.
  destruct (max_of_list (map (fun x => Rabs (fst x - snd x)) K))
    as (m & E & Hm); [apply map_nonempty, HK|].
  exists m. split; [exact E|]. split.
  - apply max_of_list_in, in_map_iff in E. destruct E as (x & <- & Hx).
    exists x. split; [exact Hx|reflexivity].
  - intros x Hx. apply Hm.
    apply (in_map (fun x => Rabs (fst x - snd x))), Hx.
Qed.

End Errors.

(** The mean absolute error, the mean squared error, the root mean squared
    error and the maximum error of one-dimensional inputs of one length, of
    which some sample is kept, are numbers that are not negative; the
    maximum error is the rounded absolute error of a sample kept, and the
    rounded absolute error of no sample kept is greater. *)
Theorem error_metrics_not_negative (self : RegressionMetric) (t p : list R)
  (mo : multi_output) (decimal : option Z) (clean positive_only : bool) :
  let K := retained clean positive_only t p in
  let d := default (self_decimal self) decimal in
  length t = length p ->
  (0 <= d)%Z ->
  K <> [] ->
  exists mae mse rmse me : R,
    mean_absolute_error self (Some (Arr1 t)) (Some (Arr1 p)) mo decimal
      clean positive_only = Ok (Scalar (Num mae)) /\
    mean_squared_error self (Some (Arr1 t)) (Some (Arr1 p)) mo decimal
      clean positive_only = Ok (Scalar (Num mse)) /\
    root_mean_squared_error self (Some (Arr1 t)) (Some (Arr1 p)) mo decimal
      clean positive_only = Ok (Scalar (Num rmse)) /\
    max_error self (Some (Arr1 t)) (Some (Arr1 p)) mo decimal
      clean positive_only = Ok (Scalar (Num me)) /\
    0 <= mae /\ 0 <= mse /\ 0 <= rmse /\ 0 <= me /\
    (exists x, In x K /\ me = round_R (Rabs (fst x - snd x)) d) /\
    (forall x, In x K -> round_R (Rabs (fst x - snd x)) d <= me).
Proof.
  intros K d Hlen Hd HK.
  destruct (me_attained K HK) as (m & Emax & (x0 & Hx0 & Em) & Hm).
  exists (round_R (Rsum (Regression.abs_errors K) / INR (length K)) d),
         (round_R (Rsum (Regression.sq_errors K) / INR (length K)) d),
         (round_R (sqrt (Rsum (Regression.sq_errors K) / INR (length K))) d),
         (round_R m d).
  unfold mean_absolute_error, mean_squared_error, root_mean_squared_error,
    max_error.
  rewrite preprocess_1d by assumption. fold K. rewrite !bind_Ok.
  cbv beta iota zeta.
  rewrite (rmse_value K HK), (mae_value K HK), (mse_value K HK), Emax.
  rewrite bind_Ok. fold d.
  do 4 (split; [reflexivity|]).
  split; [apply round_R_nonneg; [exact Hd|apply mae_nonneg, HK]|].
  split; [apply round_R_nonneg; [exact Hd|apply mse_nonneg, HK]|].
  split; [apply round_R_nonneg; [exact Hd|apply sqrt_pos]|].
  split; [apply round_R_nonneg; [exact Hd|rewrite Em; apply Rabs_pos]|].
  split.
  - exists x0. split; [exact Hx0|]. rewrite Em. reflexivity.
  - intros x Hx. apply round_R_mono; [exact Hd|apply Hm, Hx].
Qed.

Lemma error_metrics_not_negative_witness :
  length [3; -0.5; 2; 7] = length [2.5; 0; 2; 8] /\
  (0 <= default (self_decimal default_evaluator) None)%Z /\
  retained false false [3; -0.5; 2; 7] [2.5; 0; 2; 8] <> [] /\
  exists mae mse rmse me : R,
    mean_absolute_error default_evaluator (Some (Arr1 [3; -0.5; 2; 7]))
      (Some (Arr1 [2.5; 0; 2; 8])) raw_values None false false
    = Ok (Scalar (Num mae)) /\
    mean_squared_error default_evaluator (Some (Arr1 [3; -0.5; 2; 7]))
      (Some (Arr1 [2.5; 0; 2; 8])) raw_values None false false
    = Ok (Scalar (Num mse)) /\
    root_mean_squared_error default_evaluator (Some (Arr1 [3; -0.5; 2; 7]))
      (Some (Arr1 [2.5; 0; 2; 8])) raw_values None false false
    = Ok (Scalar (Num rmse)) /\
    max_error default_evaluator (Some (Arr1 [3; -0.5; 2; 7]))
      (Some (Arr1 [2.5; 0; 2; 8])) raw_values None false false
    = Ok (Scalar (Num me)) /\
    0 <= mae /\ 0 <= mse /\ 0 <= rmse /\ 0 <= me /\
    (exists x, In x (retained false false [3; -0.5; 2; 7] [2.5; 0; 2; 8]) /\
               me = round_R (Rabs (fst x - snd x)) 5) /\
    (forall x, In x (retained false false [3; -0.5; 2; 7] [2.5; 0; 2; 8]) ->
               round_R (Rabs (fst x - snd x)) 5 <= me).
Proof.
  assert (Hd : (0 <= default (self_decimal default_evaluator) None)%Z)
    by (simpl; lia).
  assert (HK : retained false false [3; -0.5; 2; 7] [2.5; 0; 2; 8] <> [])
    by discriminate.
  split; [reflexivity|]. split; [exact Hd|]. split; [exact HK|].
  apply (error_metrics_not_negative default_evaluator [3; -0.5; 2; 7]
           [2.5; 0; 2; 8] raw_values None false false eq_refl Hd HK).
Defined.

(** *** Efficiencies of one column *)

Lemma vadd_pairs {X} (g h : X -> R) (K : list X) :
  vadd (of_list (map g K)) (of_list (map h K))
  = of_list (map (fun x => g x + h x) K).
Proof.
  unfold Arr.vadd, Arr.of_list. rewrite !map_map, zip_with_maps.
  reflexivity.
Qed.

Section Efficiency.

Variable K : list (R * R).
Hypothesis Hnc : not_constant (map fst K).

Abbreviation t := (map fst K).
Abbreviation p := (map snd K).
Abbreviation m := (Rsum t / INR (length t)).

Abbreviation sse :=
  (Rsum (map (fun x : R * R => (fst x - snd x) * (fst x - snd x)) K)).

Lemma sse_nonneg : 0 <= sse.
Proof. apply Rsum_nonneg. intros x. apply sq_nonneg. Qed.

Lemma nse_value :
  nse_formula (of_list t) (of_list p)
  = Num (1 - sse / Rsum (map (fun y => (y - m) * (y - m)) t)).
Proof.
  pose proof (not_constant_nonempty _ Hnc) as Hne.
  unfold nse_formula.
  rewrite vsub_pairs, vsq_of_list, map_map, sum_of_list.
  rewrite mean_of_list by exact Hne.
  rewrite vsub_s_of_list, vsq_of_list, map_map, sum_of_list.
  pose proof (sq_dev_pos t m Hnc) as Hpos.
  rewrite div_finite by lra. reflexivity.
Qed.

Lemma nse_le_1 :
  1 - sse / Rsum (map (fun y => (y - m) * (y - m)) t) <= 1.
Proof.
  pose proof (sq_dev_pos t m Hnc) as Hpos. pose proof sse_nonneg as Hs.
  assert (0 <= sse / Rsum (map (fun y => (y - m) * (y - m)) t)).
  { apply Rmult_le_pos; [exact Hs|]. left. apply Rinv_0_lt_compat, Hpos. }
  lra.
Qed.

Abbreviation wi_divisor :=
  (Rsum (map (fun x : R * R => (Rabs (snd x - m) + Rabs (fst x - m))
                               * (Rabs (snd x - m) + Rabs (fst x - m))) K)).

Lemma wi_value_sse :
  Np.sum (vsq (vsub (of_list p) (of_list t))) = Num sse.
Proof.
  rewrite vsub_pairs, vsq_of_list, map_map, sum_of_list.
  f_equal. f_equal. apply map_ext. intros x. ring.
Qed.

Lemma wi_divisor_pos : 0 < wi_divisor.
Proof.
  destruct (not_constant_off t m Hnc) as (a & Ha & Ham).
  apply in_map_iff in Ha. destruct Ha as (x & <- & Hx).
  apply (Rsum_pos _ K x); [|exact Hx|].
  - intros y. apply sq_nonneg.
  - apply sq_pos.
    pose proof (Rabs_pos (snd x - m)).
    assert (0 < Rabs (fst x - m)) by (apply Rabs_pos_lt; lra). lra.
Qed.

Lemma sse_le_divisor : sse <= wi_divisor.
Proof.
  apply Rsum_le. intros x _.
  set (a := snd x - m). set (b := fst x - m).
  replace (fst x - snd x) with (b - a) by (unfold a, b; ring).
  rewrite <- (Rabs_pos_eq _ (sq_nonneg (b - a))), Rabs_mult.
  assert (H : Rabs (b - a) <= Rabs a + Rabs b).
  { unfold Rminus. eapply Rle_trans; [apply Rabs_triang|].
    rewrite Rabs_Ropp. lra. }
  pose proof (Rabs_pos (b - a)).
  apply Rmult_le_compat; assumption.
Qed.

Lemma wi_value :
  wi_formula (of_list t) (of_list p) = Num (1 - sse / wi_divisor).
Proof.
  pose proof (not_constant_nonempty _ Hnc) as Hne.
  unfold wi_formula.
  rewrite wi_value_sse, mean_of_list by exact Hne.
  rewrite !vsub_s_of_list, !vabs_of_list, !map_map, vadd_pairs.
  rewrite vsq_of_list, map_map, sum_of_list.
  pose proof wi_divisor_pos.
  rewrite div_finite by lra. reflexivity.
Qed.

Lemma wi_in_unit : 0 <= 1 - sse / wi_divisor <= 1.
Proof.
  pose proof wi_divisor_pos as Hpos. pose proof sse_nonneg as Hs.
  pose proof sse_le_divisor as Hle.
  assert (0 <= sse / wi_divisor).
  { apply Rmult_le_pos; [exact Hs|]. left. apply Rinv_0_lt_compat, Hpos. }
  assert (sse / wi_divisor <= 1).
  { apply (Rmult_le_reg_r wi_divisor); [exact Hpos|].
    unfold Rdiv. rewrite Rmult_assoc, Rinv_l by lra. lra. }
  lra.
Qed.

End Efficiency.

(** For one-dimensional inputs of one length whose true values kept are
    not all equal, the Nash-Sutcliffe efficiency and the coefficient of
    determination return one and the same number, at most 1, and the
    Willmott index returns a number in [0, 1]. *)
Theorem efficiencies_bounded (self : RegressionMetric) (t p : list R)
  (mo : multi_output) (decimal : option Z) (clean positive_only : bool) :
  length t = length p ->
  (0 <= default (self_decimal self) decimal)%Z ->
  not_constant (map fst (retained clean positive_only t p)) ->
  exists nse wi : R,
    nash_sutcliffe_efficiency self (Some (Arr1 t)) (Some (Arr1 p)) mo decimal
      clean positive_only = Ok (Scalar (Num nse)) /\
    coefficient_of_determination self (Some (Arr1 t)) (Some (Arr1 p)) mo
      decimal clean positive_only = Ok (Scalar (Num nse)) /\
    willmott_index self (Some (Arr1 t)) (Some (Arr1 p)) mo decimal
      clean positive_only = Ok (Scalar (Num wi)) /\
    nse <= 1 /\ 0 <= wi <= 1.
Proof.
  intros Hlen Hd Hnc.
  set (K := retained clean positive_only t p) in *.
  set (d := default (self_decimal self) decimal) in *.
  eexists (round_R _ d), (round_R _ d).
  unfold nash_sutcliffe_efficiency, coefficient_of_determination,
    willmott_index.
  rewrite preprocess_1d by assumption. fold K. rewrite !bind_Ok.
  cbv beta iota zeta.
  rewrite (nse_value K Hnc), (wi_value K Hnc). fold d.
  split; [reflexivity|]. split; [reflexivity|]. split; [reflexivity|].
  split.
  - eapply Rle_trans;
      [apply (round_R_mono _ 1 d Hd), nse_le_1, Hnc|].
    rewrite (NpFacts.round_R_IZR 1 d Hd). lra.
  - apply (round_R_between _ 0 1 d Hd). apply wi_in_unit, Hnc.
Qed.

Lemma efficiencies_bounded_witness :
  length [3; -0.5; 2; 7] = length [2.5; 0; 2; 8] /\
  (0 <= default (self_decimal default_evaluator) None)%Z /\
  not_constant (map fst (retained false false [3; -0.5; 2; 7] [2.5; 0; 2; 8])) /\
  exists nse wi : R,
    nash_sutcliffe_efficiency default_evaluator (Some (Arr1 [3; -0.5; 2; 7]))
      (Some (Arr1 [2.5; 0; 2; 8])) raw_values None false false
    = Ok (Scalar (Num nse)) /\
    coefficient_of_determination default_evaluator
      (Some (Arr1 [3; -0.5; 2; 7])) (Some (Arr1 [2.5; 0; 2; 8])) raw_values
      None false false
    = Ok (Scalar (Num nse)) /\
    willmott_index default_evaluator (Some (Arr1 [3; -0.5; 2; 7]))
      (Some (Arr1 [2.5; 0; 2; 8])) raw_values None false false
    = Ok (Scalar (Num wi)) /\
    nse <= 1 /\ 0 <= wi <= 1.
Proof.
  assert (Hd : (0 <= default (self_decimal default_evaluator) None)%Z)
    by (simpl; lia).
  assert (Hnc : not_constant
            (map fst (retained false false [3; -0.5; 2; 7] [2.5; 0; 2; 8]))).
  { exists 3, 2. simpl. split; [tauto|]. split; [tauto|lra]. }
  split; [reflexivity|]. split; [exact Hd|]. split; [exact Hnc|].
  apply (efficiencies_bounded default_evaluator [3; -0.5; 2; 7]
           [2.5; 0; 2; 8] raw_values None false false eq_refl Hd Hnc).
Defined.

(** *** Explained variance *)

Lemma var_of_list (l : list R) :
  l <> [] ->
  Arr.var (of_list l)
  = Num (Rsum (map (fun x => (x - Rsum l / INR (length l))
                             * (x - Rsum l / INR (length l))) l)
         / INR (length l)).
Proof.
  intros Hne. unfold Arr.var.
  rewrite mean_of_list by exact Hne.
  rewrite vsub_s_of_list, vabs_of_list, vsq_of_list, !map_map.
  rewrite mean_of_list by (apply map_nonempty, Hne).
  rewrite length_map. f_equal. f_equal. f_equal.
  apply map_ext. intros x. rewrite <- Rabs_mult.
  apply Rabs_pos_eq, sq_nonneg.
Qed.

(** Equal entries do not deviate from their mean. *)
Lemma sum_sq_dev_const (l : list R) (c : R) :
  l <> [] -> (forall x, In x l -> x = c) ->
  Rsum (map (fun x => (x - Rsum l / INR (length l))
                      * (x - Rsum l / INR (length l))) l) = 0.
Proof.
  intros Hne Hc.
  assert (Hn : 0 < INR (length l)).
  { apply lt_0_INR. destruct l; [contradiction|simpl; lia]. }
  assert (Hs : Rsum l = INR (length l) * c).
  { clear Hne Hn. induction l as [|x l IH]; [simpl; lra|].
    cbn [Rsum fold_right length]. rewrite S_INR.
    fold (Rsum l). rewrite IH by (intros y Hy; apply Hc; right; exact Hy).
    rewrite (Hc x (or_introl eq_refl)). lra. }
  assert (Hm : Rsum l / INR (length l) = c) by (rewrite Hs; field; lra).
  rewrite Hm. clear Hs Hm Hn Hne.
  induction l as [|x l IH]; [reflexivity|].
  cbn [map Rsum fold_right]. fold (Rsum (map (fun x => (x - c) * (x - c)) l)).
  rewrite IH by (intros y Hy; apply Hc; right; exact Hy).
  rewrite (Hc x (or_introl eq_refl)). lra.
Qed.

Section Variance.

Variable K : list (R * R).
Hypothesis Hnc : not_constant (map fst K).

Abbreviation t := (map fst K).
Abbreviation p := (map snd K).
Abbreviation m := (Rsum t / INR (length t)).
Abbreviation e := (map (fun x : R * R => fst x - snd x) K).
Abbreviation sst := (Rsum (map (fun y => (y - m) * (y - m)) t)).
Abbreviation sse := (Rsum (map (fun x => x * x) e)).
Abbreviation ssd :=
  (Rsum (map (fun x => (x - Rsum e / INR (length e))
                       * (x - Rsum e / INR (length e))) e)).

Lemma K_nonempty : K <> [].
Proof.
  intros E. apply (not_constant_nonempty _ Hnc). rewrite E. reflexivity.
Qed.

Lemma evs_value :
  evs_formula (of_list t) (of_list p) = Num (1 - ssd / sst).
Proof.
  pose proof (not_constant_nonempty _ Hnc) as Hne.
  pose proof (sq_dev_pos t m Hnc) as Hpos.
  assert (Hn : 0 < INR (length K)) by (apply n_pos, K_nonempty).
  unfold evs_formula.
  rewrite vsub_pairs, var_of_list by (apply map_nonempty, K_nonempty).
  rewrite var_of_list by exact Hne.
  rewrite !length_map in *.
  rewrite div_finite.
  - cbn [Np.sub Np.add Np.neg]. f_equal. field. split; lra.
  - apply Rmult_integral_contrapositive_currified; [lra|].
    apply Rinv_neq_0_compat. lra.
Qed.

Lemma evs_le_1 : 1 - ssd / sst <= 1.
Proof.
  pose proof (sq_dev_pos t m Hnc) as Hpos.
  assert (H0 : 0 <= ssd) by (apply Rsum_nonneg; intros x; apply sq_nonneg).
  assert (Hi : 0 < / sst) by (apply Rinv_0_lt_compat, Hpos).
  assert (0 <= ssd * / sst) by (apply Rmult_le_pos; lra).
  unfold Rdiv. lra.
Qed.

Lemma evs_of_constant_error (c : R) :
  (forall x, In x K -> fst x - snd x = c) -> 1 - ssd / sst = 1.
Proof.
  intros Hc.
  rewrite (sum_sq_dev_const e c).
  - unfold Rdiv. lra.
  - apply map_nonempty, K_nonempty.
  - intros y Hy. apply in_map_iff in Hy. destruct Hy as (x & <- & Hx).
    apply Hc, Hx.
Qed.

End Variance.

(** For one-dimensional inputs of one length whose true values kept are
    not all equal, the explained variance score is a number that is at most
    1, and it is 1 when the prediction is off by the same amount at every
    sample kept: the score does not see a constant error. *)
Theorem explained_variance_of_constant_error (self : RegressionMetric)
  (t p : list R) (mo : multi_output) (decimal : option Z)
  (clean positive_only : bool) :
  let K := retained clean positive_only t p in
  length t = length p ->
  (0 <= default (self_decimal self) decimal)%Z ->
  not_constant (map fst K) ->
  exists evs : R,
    explained_variance_score self (Some (Arr1 t)) (Some (Arr1 p)) mo decimal
      clean positive_only = Ok (Scalar (Num evs)) /\
    evs <= 1 /\
    ((exists c, forall x, In x K -> fst x - snd x = c) -> evs = 1).
Proof.
  intros K Hlen Hd Hnc.
  set (d := default (self_decimal self) decimal) in *.
  eexists (round_R _ d).
  unfold explained_variance_score.
  rewrite preprocess_1d by assumption. fold K. rewrite !bind_Ok.
  cbv beta iota zeta.
  rewrite (evs_value K Hnc). fold d.
  split; [reflexivity|]. split.
  - eapply Rle_trans; [apply (round_R_mono _ 1 d Hd), (evs_le_1 K Hnc)|].
    rewrite (NpFacts.round_R_IZR 1 d Hd). lra.
  - intros (c & Hc). rewrite (evs_of_constant_error K Hnc c Hc).
    apply (NpFacts.round_R_IZR 1 d Hd).
Qed.

Lemma explained_variance_of_constant_error_witness :
  length [1; 2; 4] = length [1.5; 2.5; 4.5] /\
  (0 <= default (self_decimal default_evaluator) None)%Z /\
  not_constant (map fst (retained false false [1; 2; 4] [1.5; 2.5; 4.5])) /\
  explained_variance_score default_evaluator (Some (Arr1 [1; 2; 4]))
    (Some (Arr1 [1.5; 2.5; 4.5])) raw_values None false false
  = Ok (Scalar (Num 1)).
Proof.
  assert (Hd : (0 <= default (self_decimal default_evaluator) None)%Z)
    by (simpl; lia).
  assert (Hnc : not_constant
            (map fst (retained false false [1; 2; 4] [1.5; 2.5; 4.5]))).
  { exists 1, 2. simpl. split; [tauto|]. split; [tauto|lra]. }
  split; [reflexivity|]. split; [exact Hd|]. split; [exact Hnc|].
  destruct (explained_variance_of_constant_error default_evaluator [1; 2; 4]
              [1.5; 2.5; 4.5] raw_values None false false eq_refl Hd Hnc)
    as (evs & E & _ & H1).
  rewrite E. do 3 f_equal. apply H1. exists (- 0.5).
  simpl. intros x [<-|[<-|[<-|[]]]]; simpl; lra.
Defined.

(** *** The A10 index against the A20 index *)

Lemma fraction_value {A} (P : A -> bool) (l : list A) :
  l <> [] ->
  fraction P l = Num (INR (length (List.filter P l)) / INR (length l)).
Proof.
  intros Hne. unfold fraction. apply div_finite, INR_length_nonzero, Hne.
Qed.

Lemma filter_length_mono {A} (P Q : A -> bool) (l : list A) :
  (forall x, P x = true -> Q x = true) ->
  (length (List.filter P l) <= length (List.filter Q l))%nat.
Proof.
  intros H. induction l as [|x l IH]; simpl; [lia|].
  destruct (P x) eqn:E.
  - rewrite (H x E). simpl. lia.
  - destruct (Q x); simpl; lia.
Qed.

(** A ratio in an interval is in every wider interval. *)
Lemma ratio_within_wider (lo hi lo' hi' a b : R) :
  lo' <= lo -> hi <= hi' ->
  ratio_within lo hi a b = true -> ratio_within lo' hi' a b = true.
Proof.
  intros Hlo Hhi. unfold ratio_within.
  destruct (Np.div (Num a) (Num b)) as [v| | |]; unfold Np.le, Np.ge;
    try discriminate.
  destruct (Rle_dec lo v); [|discriminate].
  destruct (Rle_dec v hi); [|discriminate].
  intros _.
  destruct (Rle_dec lo' v); [|lra].
  destruct (Rle_dec v hi'); [reflexivity|lra].
Qed.

Lemma fraction_in_unit {A} (P Q : A -> bool) (l : list A) :
  l <> [] -> (forall x, P x = true -> Q x = true) ->
  0 <= INR (length (List.filter P l)) / INR (length l)
    <= INR (length (List.filter Q l)) / INR (length l) /\
  INR (length (List.filter Q l)) / INR (length l) <= 1.
Proof.
  intros Hne H.
  assert (Hn : 0 < INR (length l)).
  { destruct l; [contradiction|]. apply lt_0_INR. simpl. lia. }
  assert (Hi : 0 < / INR (length l)) by (apply Rinv_0_lt_compat, Hn).
  pose proof (pos_INR (length (List.filter P l))) as H0.
  pose proof (le_INR _ _ (filter_length_mono P Q l H)) as H1.
  pose proof (le_INR _ _ (List.filter_length_le Q l)) as H2.
  unfold Rdiv. split; [split|].
  - apply Rmult_le_pos; lra.
  - apply Rmult_le_compat_r; lra.
  - apply (Rmult_le_reg_r (INR (length l))); [exact Hn|].
    rewrite Rmult_assoc, Rinv_l by lra. lra.
Qed.

(** For one-dimensional inputs of one length of which some sample is
    kept, [a10_index] and [a20_index] return numbers in [0, 1], and the A10
    index is at most the A20 index. *)
Theorem a10_at_most_a20 (self : RegressionMetric) (t p : list R)
  (mo : multi_output) (decimal : option Z) (clean positive_only : bool) :
  length t = length p ->
  (0 <= default (self_decimal self) decimal)%Z ->
  retained clean positive_only t p <> [] ->
  exists a10 a20 : R,
    a10_index self (Some (Arr1 t)) (Some (Arr1 p)) mo decimal clean
      positive_only = Ok (Scalar (Num a10)) /\
    a20_index self (Some (Arr1 t)) (Some (Arr1 p)) mo decimal clean
      positive_only = Ok (Scalar (Num a20)) /\
    0 <= a10 <= a20 /\ a20 <= 1.
Proof.
  intros Hlen Hd HK.
  set (K := retained clean positive_only t p) in *.
  set (d := default (self_decimal self) decimal) in *.
  rewrite a10_index_run, a20_index_run by assumption. fold K d.
  rewrite !fraction_value by exact HK.
  destruct (fraction_in_unit
              (fun tp : R * R => ratio_within 0.9 1.1 (fst tp) (snd tp))
              (fun tp : R * R => ratio_within 0.8 1.2 (fst tp) (snd tp))
              K HK) as [[H0 H1] H2].
  { intros x. apply ratio_within_wider; lra. }
  eexists (round_R _ d), (round_R _ d).
  split; [reflexivity|]. split; [reflexivity|]. split; [split|].
  - apply round_R_nonneg; assumption.
  - apply round_R_mono; assumption.
  - eapply Rle_trans; [apply (round_R_mono _ 1 d Hd), H2|].
    rewrite (NpFacts.round_R_IZR 1 d Hd). lra.
Qed.

Lemma a10_at_most_a20_witness :
  length [3; -0.5; 2; 7] = length [2.5; 0; 2; 8] /\
  (0 <= default (self_decimal default_evaluator) None)%Z /\
  retained false false [3; -0.5; 2; 7] [2.5; 0; 2; 8] <> [] /\
  exists a10 a20 : R,
    a10_index default_evaluator (Some (Arr1 [3; -0.5; 2; 7]))
      (Some (Arr1 [2.5; 0; 2; 8])) raw_values None false false
    = Ok (Scalar (Num a10)) /\
    a20_index default_evaluator (Some (Arr1 [3; -0.5; 2; 7]))
      (Some (Arr1 [2.5; 0; 2; 8])) raw_values None false false
    = Ok (Scalar (Num a20)) /\
    0 <= a10 <= a20 /\ a20 <= 1.
Proof.
  assert (Hd : (0 <= default (self_decimal default_evaluator) None)%Z)
    by (simpl; lia).
  assert (HK : retained false false [3; -0.5; 2; 7] [2.5; 0; 2; 8] <> [])
    by discriminate.
  split; [reflexivity|]. split; [exact Hd|]. split; [exact HK|].
  apply (a10_at_most_a20 default_evaluator [3; -0.5; 2; 7]
           [2.5; 0; 2; 8] raw_values None false false eq_refl Hd HK).
Defined.

(** *** The Pearson coefficient of one column *)

(** For one-dimensional inputs of one length, the Pearson coefficient
    raises [AttributeError]: its one-dimensional branch reads [np.m1]
    (regression.py, line 406).  So do the three metrics that call it: its
    square, the confidence index and the Kling-Gupta efficiency. *)
Theorem pearson_fails_on_one_column (self : RegressionMetric) (t p : list R)
  (mo : multi_output) (decimal : option Z) (clean positive_only : bool) :
  length t = length p ->
  (0 <= default (self_decimal self) decimal)%Z ->
  pearson_correlation_coefficient self (Some (Arr1 t)) (Some (Arr1 p)) mo
    decimal clean positive_only = Raise numpy_has_no_m1 /\
  pearson_correlation_coefficient_square self (Some (Arr1 t)) (Some (Arr1 p))
    mo decimal clean positive_only = Raise numpy_has_no_m1 /\
  confidence_index self (Some (Arr1 t)) (Some (Arr1 p)) mo decimal clean
    positive_only = Raise numpy_has_no_m1 /\
  kling_gupta_efficiency self (Some (Arr1 t)) (Some (Arr1 p)) mo decimal
    clean positive_only = Raise numpy_has_no_m1.
Proof.
  intros Hlen Hd.
  assert (E : pearson_correlation_coefficient self (Some (Arr1 t))
                (Some (Arr1 p)) mo decimal clean positive_only
              = Raise numpy_has_no_m1).
  { unfold pearson_correlation_coefficient.
    rewrite preprocess_1d by assumption. reflexivity. }
  split; [exact E|].
  split; [unfold pearson_correlation_coefficient_square; rewrite E;
          reflexivity|].
  split; [unfold confidence_index; rewrite E; reflexivity|].
  unfold kling_gupta_efficiency.
  rewrite preprocess_1d by assumption. rewrite bind_Ok.
  cbv beta iota zeta. cbn [arrays fst snd].
  unfold pearson_correlation_coefficient.
  rewrite preprocess_1d_again by exact Hd. reflexivity.
Qed.

Lemma pearson_fails_on_one_column_witness :
  length [3; -0.5; 2; 7] = length [2.5; 0; 2; 8] /\
  (0 <= default (self_decimal default_evaluator) None)%Z /\
  pearson_correlation_coefficient default_evaluator
    (Some (Arr1 [3; -0.5; 2; 7])) (Some (Arr1 [2.5; 0; 2; 8])) raw_values
    None false false = Raise numpy_has_no_m1 /\
  pearson_correlation_coefficient_square default_evaluator
    (Some (Arr1 [3; -0.5; 2; 7])) (Some (Arr1 [2.5; 0; 2; 8])) raw_values
    None false false = Raise numpy_has_no_m1 /\
  confidence_index default_evaluator
    (Some (Arr1 [3; -0.5; 2; 7])) (Some (Arr1 [2.5; 0; 2; 8])) raw_values
    None false false = Raise numpy_has_no_m1 /\
  kling_gupta_efficiency default_evaluator
    (Some (Arr1 [3; -0.5; 2; 7])) (Some (Arr1 [2.5; 0; 2; 8])) raw_values
    None false false = Raise numpy_has_no_m1.
Proof.
  assert (Hd : (0 <= default (self_decimal default_evaluator) None)%Z)
    by (simpl; lia).
  split; [reflexivity|]. split; [exact Hd|].
  apply (pearson_fails_on_one_column default_evaluator [3; -0.5; 2; 7]
           [2.5; 0; 2; 8] raw_values None false false eq_refl Hd).
Defined.

(** Called without [decimal], the squared Pearson coefficient and the
    confidence index return for no input, whatever the instance holds:
    where the coefficient returns, lines 436 and 465 hand the argument,
    still [None], to [np.round]. *)
Theorem composite_pearson_needs_decimal (self : RegressionMetric)
  (y_true y_pred : option ndarray) (mo : multi_output)
  (clean positive_only : bool) :
  (exists e, pearson_correlation_coefficient_square self y_true y_pred mo
               None clean positive_only = Raise e) /\
  (exists e, confidence_index self y_true y_pred mo None clean positive_only
             = Raise e).
Proof.
  unfold pearson_correlation_coefficient_square, confidence_index.
  destruct (pearson_correlation_coefficient self y_true y_pred mo None clean
              positive_only) as [r|e].
  - split.
    + exists decimals_not_an_integer. reflexivity.
    + rewrite bind_Ok.
      destruct (willmott_index self y_true y_pred mo None clean positive_only)
        as [w|e].
      * exists decimals_not_an_integer. reflexivity.
      * exists e. reflexivity.
  - split; exists e; reflexivity.
Qed.

(** *** No sample kept *)

(** When the [clean]/[positive_only] filter keeps no sample of
    one-dimensional inputs of one length, the mean absolute, mean squared
    and root mean squared errors return [nan], and the maximum error raises
    [ValueError]: [np.max] has no value for an empty array. *)
Theorem no_sample_kept (self : RegressionMetric) (t p : list R)
  (mo : multi_output) (decimal : option Z) (clean positive_only : bool) :
  length t = length p ->
  (0 <= default (self_decimal self) decimal)%Z ->
  retained clean positive_only t p = [] ->
  mean_absolute_error self (Some (Arr1 t)) (Some (Arr1 p)) mo decimal clean
    positive_only = Ok (Scalar NaN) /\
  mean_squared_error self (Some (Arr1 t)) (Some (Arr1 p)) mo decimal clean
    positive_only = Ok (Scalar NaN) /\
  root_mean_squared_error self (Some (Arr1 t)) (Some (Arr1 p)) mo decimal
    clean positive_only = Ok (Scalar NaN) /\
  max_error self (Some (Arr1 t)) (Some (Arr1 p)) mo decimal clean
    positive_only = Raise Arr.empty_reduction.
Proof.
  intros Hlen Hd HK.
  assert (E0 : Np.div (Num 0) (len_f 0) = NaN).
  { unfold len_f, Np.div. simpl INR.
    destruct (Req_dec_T 0 0) as [_|H]; [|contradiction].
    unfold Np.sgn.
    destruct (Rlt_dec 0 0); [lra|]. reflexivity. }
  unfold mean_absolute_error, mean_squared_error, root_mean_squared_error,
    max_error.
  rewrite preprocess_1d by assumption. rewrite HK, !bind_Ok.
  cbv beta iota zeta. cbn [map length Arr.of_list].
  change (of_list []) with (@nil npfloat).
  change (vsub [] []) with (@nil npfloat).
  change (vabs []) with (@nil npfloat).
  change (vsq []) with (@nil npfloat).
  change (Np.sum []) with (Num 0).
  rewrite E0. repeat split.
Qed.

Lemma retained_zero_predictions :
  retained true false [1; 2] [0; 0] = [].
Proof.
  unfold retained, keep, nonzero. cbn [combine List.filter fst snd andb].
  destruct (Req_dec_T 0 0) as [_|H]; [reflexivity|contradiction].
Qed.

Lemma no_sample_kept_witness :
  length [1; 2] = length [0; 0] /\
  (0 <= default (self_decimal default_evaluator) None)%Z /\
  retained true false [1; 2] [0; 0] = [] /\
  mean_absolute_error default_evaluator (Some (Arr1 [1; 2]))
    (Some (Arr1 [0; 0])) raw_values None true false = Ok (Scalar NaN) /\
  mean_squared_error default_evaluator (Some (Arr1 [1; 2]))
    (Some (Arr1 [0; 0])) raw_values None true false = Ok (Scalar NaN) /\
  root_mean_squared_error default_evaluator (Some (Arr1 [1; 2]))
    (Some (Arr1 [0; 0])) raw_values None true false = Ok (Scalar NaN) /\
  max_error default_evaluator (Some (Arr1 [1; 2]))
    (Some (Arr1 [0; 0])) raw_values None true false
  = Raise Arr.empty_reduction.
Proof.
  assert (Hd : (0 <= default (self_decimal default_evaluator) None)%Z)
    by (simpl; lia).
  split; [reflexivity|]. split; [exact Hd|].
  split; [exact retained_zero_predictions|].
  apply (no_sample_kept default_evaluator [1; 2] [0; 0] raw_values None
           true false eq_refl Hd retained_zero_predictions).
Defined.

(** *** What preprocessing returns *)

(** Preprocessed data are columns filtered sample by sample. *)
Lemma preprocess_inv (self : RegressionMetric) (y_true y_pred : option ndarray)
  (clean positive_only : bool) (decimal : option Z) (data : prepared) (d : Z) :
  get_preprocessed_data self y_true y_pred clean decimal positive_only
  = Ok (data, d) ->
  (exists t p, data = OneDim (map fst (retained clean positive_only t p))
                             (map snd (retained clean positive_only t p))) \/
  (exists ts ps,
     data = MultiDim
              (map fst (zip_with (filter_column clean positive_only) ts ps))
              (map snd (zip_with (filter_column clean positive_only) ts ps))).
Proof.
  unfold get_preprocessed_data.
  destruct (match y_true with Some _ => y_true | None => self_y_true self end)
    as [a|]; [|discriminate].
  destruct (match y_pred with Some _ => y_pred | None => self_y_pred self end)
    as [b|]; [|discriminate].
  assert (H1 : forall t p (r : result prepared),
    r = (if length t =? length p
         then let '(t', p') := filter_column clean positive_only t p in
              Ok (OneDim t' p')
         else Raise different_length) ->
    (r ≫= fun data0 =>
       if (default (self_decimal self) decimal <? 0)%Z
       then Raise negative_decimal
       else Ok (data0, default (self_decimal self) decimal)) = Ok (data, d) ->
    exists t p, data = OneDim (map fst (retained clean positive_only t p))
                              (map snd (retained clean positive_only t p))).
  { intros t p r -> H. destruct (length t =? length p); [|discriminate].
    unfold filter_column in H. cbv zeta in H. rewrite bind_Ok in H.
    destruct (default (self_decimal self) decimal <? 0)%Z; [discriminate|].
    exists t, p. congruence. }
  assert (H2 : forall ts ps (r : result prepared),
    r = (if same_lengths ts ps
         then let cols := zip_with (filter_column clean positive_only) ts ps in
              Ok (MultiDim (map fst cols) (map snd cols))
         else Raise different_length) ->
    (r ≫= fun data0 =>
       if (default (self_decimal self) decimal <? 0)%Z
       then Raise negative_decimal
       else Ok (data0, default (self_decimal self) decimal)) = Ok (data, d) ->
    exists ts ps,
      data = MultiDim
               (map fst (zip_with (filter_column clean positive_only) ts ps))
               (map snd (zip_with (filter_column clean positive_only) ts ps))).
  { intros ts ps r -> H. destruct (same_lengths ts ps); [|discriminate].
    cbv zeta in H. rewrite bind_Ok in H.
    destruct (default (self_decimal self) decimal <? 0)%Z; [discriminate|].
    exists ts, ps. congruence. }
  destruct a as [t|ts], b as [p|ps]; try discriminate.
  - intros H. left. exact (H1 t p _ eq_refl H).
  - destruct ts as [|t [|t' ts]]; try discriminate.
  - destruct ts as [|t [|t' ts]], ps as [|p [|p' ps]]; try discriminate;
      intros H;
      match type of H with
      | context [same_lengths ?a ?b] => right; exact (H2 a b _ eq_refl H)
      | context [length ?a =? length ?b] => left; exact (H1 a b _ eq_refl H)
      end.
Qed.

Lemma retained_positive (clean : bool) (t p : list R) (x : R * R) :
  In x (retained clean true t p) -> 0 < fst x.
Proof.
  unfold retained. intros H. apply filter_In in H. destruct H as [_ H].
  unfold keep, positive in H.
  destruct (Rlt_dec 0 (fst x)); [assumption|discriminate].
Qed.

(** *** The mean relative error *)

Lemma mre_is_mape (K : list (R * R)) :
  (forall x, In x K -> 0 < fst x) ->
  mre_formula (of_list (map fst K)) (of_list (map snd K))
  = mape_formula (of_list (map fst K)) (of_list (map snd K)).
Proof.
  intros H. unfold mre_formula, mape_formula.
  rewrite (vabs_of_list (map fst K)). f_equal. f_equal. f_equal.
  rewrite map_map. apply map_ext_in. intros x Hx.
  symmetry. apply Rabs_pos_eq. left. apply H, Hx.
Qed.

Lemma axis0_ext (f g : arr -> arr -> npfloat) (cols : list (list R * list R)) :
  (forall c, In c cols ->
     f (of_list (fst c)) (of_list (snd c)) = g (of_list (fst c)) (of_list (snd c))) ->
  axis0 f (map fst cols) (map snd cols) = axis0 g (map fst cols) (map snd cols).
Proof.
  intros H. unfold axis0, Arr.zip_with. rewrite combine_fst_snd.
  apply map_ext_in. intros c Hc. apply H, Hc.
Qed.

Lemma in_zip_with {A B C} (f : A -> B -> C) (a : list A) (b : list B) (c : C) :
  In c (zip_with f a b) -> exists x y, c = f x y.
Proof.
  unfold Arr.zip_with. intros H. apply in_map_iff in H.
  destruct H as ([x y] & <- & _). exists x, y. reflexivity.
Qed.

(** With [positive_only=True] the mean relative error, which divides
    by [y_true], and the mean absolute percentage error, which divides by
    [|y_true|], return the same for every input and every other argument:
    the filter keeps positive true values only. *)
Theorem mre_is_mape_on_positive_data (self : RegressionMetric)
  (y_true y_pred : option ndarray) (mo : multi_output) (decimal : option Z)
  (clean : bool) :
  mean_relative_error self y_true y_pred mo decimal clean true
  = mean_absolute_percentage_error self y_true y_pred mo decimal clean true.
Proof.
  unfold mean_relative_error, mean_absolute_percentage_error.
  destruct (get_preprocessed_data self y_true y_pred clean decimal true)
    as [[data d]|e] eqn:E; [|reflexivity].
  rewrite !bind_Ok.
  destruct (preprocess_inv _ _ _ _ _ _ _ _ E) as [(t & p & ->)|(ts & ps & ->)].
  - rewrite mre_is_mape; [reflexivity|]. apply retained_positive.
  - cbv zeta. rewrite (axis0_ext mre_formula mape_formula); [reflexivity|].
    intros c Hc. apply in_zip_with in Hc. destruct Hc as (t & p & ->).
    unfold filter_column. cbn [fst snd]. apply mre_is_mape.
    apply retained_positive.
Qed.

(** *** The errors of single samples *)

Lemma rint_opp (x : R) : rint (- x) = (- rint x)%Z.
Proof.
  destruct (base_Int_part x) as [Hlo Hhi].
  set (k := Int_part x) in *.
  assert (Ek : IZR (- k - 1) = - IZR k - 1)
    by (rewrite minus_IZR, opp_IZR; reflexivity).
  destruct (Rtotal_order (x - IZR k) 0) as [H|[H|H]]; [lra| |].
  - rewrite (NpFacts.rint_below x k) by lra.
    apply NpFacts.rint_below. rewrite opp_IZR. lra.
  - destruct (Rtotal_order (x - IZR k) (1 / 2)) as [H'|[H'|H']].
    + rewrite (NpFacts.rint_below x k) by lra.
      replace (- k)%Z with (- k - 1 + 1)%Z by lia.
      apply NpFacts.rint_above. rewrite Ek. lra.
    + rewrite (NpFacts.rint_tie x k) by lra.
      rewrite (NpFacts.rint_tie (- x) (- k - 1)) by (rewrite Ek; lra).
      replace (- k - 1)%Z with (- (k + 1))%Z by lia.
      rewrite Z.even_opp, Z.even_add. simpl.
      destruct (Z.even k); simpl; lia.
    + rewrite (NpFacts.rint_above x k) by lra.
      replace (- (k + 1))%Z with (- k - 1)%Z by lia.
      apply NpFacts.rint_below. rewrite Ek. lra.
Qed.

Lemma round_R_opp (x : R) (d : Z) : round_R (- x) d = - round_R x d.
Proof.
  unfold round_R. destruct (0 <=? d)%Z.
  - replace (- x * pow10 d) with (- (x * pow10 d)) by ring.
    rewrite rint_opp, opp_IZR. unfold Rdiv. ring.
  - replace (- x / pow10 (- d)) with (- (x / pow10 (- d)))
      by (unfold Rdiv; ring).
    rewrite rint_opp, opp_IZR. ring.
Qed.

Lemma round_of_list (l : list R) (d : Z) :
  map (fun x => Np.round x d) (of_list l)
  = of_list (map (fun x => round_R x d) l).
Proof. unfold Arr.of_list. rewrite !map_map. reflexivity. Qed.

Lemma sae_run (self : RegressionMetric) (t p : list R)
  (decimal : option Z) (clean positive_only : bool) :
  length t = length p ->
  (0 <= default (self_decimal self) decimal)%Z ->
  single_absolute_error self (Some (Arr1 t)) (Some (Arr1 p)) decimal clean
    positive_only
  = Ok (Row (of_list
       (map (fun x => round_R (Rabs (fst x) - Rabs (snd x))
                              (default (self_decimal self) decimal))
            (retained clean positive_only t p)))).
Proof.
  intros Hlen Hd. unfold single_absolute_error.
  rewrite preprocess_1d by assumption. rewrite bind_Ok.
  cbn [each_sample round_samples].
  rewrite !vabs_of_list, !map_map.
  rewrite (vsub_pairs (fun x => Rabs (fst x)) (fun x => Rabs (snd x))).
  rewrite round_of_list, map_map. reflexivity.
Qed.

Lemma sse_run (self : RegressionMetric) (t p : list R)
  (decimal : option Z) (clean positive_only : bool) :
  length t = length p ->
  (0 <= default (self_decimal self) decimal)%Z ->
  single_squared_error self (Some (Arr1 t)) (Some (Arr1 p)) decimal clean
    positive_only
  = Ok (Row (of_list
       (map (fun x => round_R ((fst x - snd x) * (fst x - snd x))
                              (default (self_decimal self) decimal))
            (retained clean positive_only t p)))).
Proof.
  intros Hlen Hd. unfold single_squared_error.
  rewrite preprocess_1d by assumption. rewrite bind_Ok.
  cbn [each_sample round_samples].
  rewrite vsub_pairs, vsq_of_list, map_map.
  rewrite round_of_list, map_map. reflexivity.
Qed.

(** For one-dimensional inputs of one length of which some sample is
    kept, [single_absolute_error] returns one number for each sample kept,
    and each lies between minus the maximum error and the maximum error:
    an entry is [|y_true| - |y_pred|], signed, not [|y_true - y_pred|]. *)
Theorem single_absolute_error_within_max_error (self : RegressionMetric)
  (t p : list R) (mo : multi_output) (decimal : option Z)
  (clean positive_only : bool) :
  length t = length p ->
  (0 <= default (self_decimal self) decimal)%Z ->
  retained clean positive_only t p <> [] ->
  exists (me : R) (es : list R),
    max_error self (Some (Arr1 t)) (Some (Arr1 p)) mo decimal clean
      positive_only = Ok (Scalar (Num me)) /\
    single_absolute_error self (Some (Arr1 t)) (Some (Arr1 p)) decimal clean
      positive_only = Ok (Row (of_list es)) /\
    length es = length (retained clean positive_only t p) /\
    forall e, In e es -> - me <= e <= me.
Proof.
  intros Hlen Hd HK.
  rewrite sae_run by assumption. unfold max_error.
  rewrite preprocess_1d by assumption. rewrite bind_Ok.
  set (K := retained clean positive_only t p) in *.
  set (d := default (self_decimal self) decimal) in *.
  cbv beta iota zeta.
  destruct (me_value K HK) as (m & Em & Hm). rewrite Em, bind_Ok.
  exists (round_R m d). eexists. split; [reflexivity|].
  split; [reflexivity|]. split; [apply length_map|].
  intros e He. apply in_map_iff in He. destruct He as (x & <- & Hx).
  assert (Hb : Rabs (snd x - fst x) <= m).
  { apply Hm. unfold abs_errors.
    exact (in_map (fun x => Rabs (snd x - fst x)) K x Hx). }
  pose proof (Rabs_triang_inv (fst x) (snd x)) as H1.
  pose proof (Rabs_triang_inv (snd x) (fst x)) as H2.
  rewrite (Rabs_minus_sym (fst x) (snd x)) in H1.
  split.
  - rewrite <- round_R_opp. apply round_R_mono; [exact Hd|lra].
  - apply round_R_mono; [exact Hd|lra].
Qed.

Lemma single_absolute_error_within_max_error_witness :
  length [3; -0.5; 2; 7] = length [2.5; 0; 2; 8] /\
  (0 <= default (self_decimal default_evaluator) None)%Z /\
  retained false false [3; -0.5; 2; 7] [2.5; 0; 2; 8] <> [] /\
  exists (me : R) (es : list R),
    max_error default_evaluator (Some (Arr1 [3; -0.5; 2; 7]))
      (Some (Arr1 [2.5; 0; 2; 8])) raw_values None false false
    = Ok (Scalar (Num me)) /\
    single_absolute_error default_evaluator (Some (Arr1 [3; -0.5; 2; 7]))
      (Some (Arr1 [2.5; 0; 2; 8])) None false false
    = Ok (Row (of_list es)) /\
    length es
    = length (retained false false [3; -0.5; 2; 7] [2.5; 0; 2; 8]) /\
    forall e, In e es -> - me <= e <= me.
Proof.
  assert (Hd : (0 <= default (self_decimal default_evaluator) None)%Z)
    by (simpl; lia).
  assert (HK : retained false false [3; -0.5; 2; 7] [2.5; 0; 2; 8] <> [])
    by discriminate.
  split; [reflexivity|]. split; [exact Hd|]. split; [exact HK|].
  apply (single_absolute_error_within_max_error default_evaluator
           [3; -0.5; 2; 7] [2.5; 0; 2; 8] raw_values None false false
           eq_refl Hd HK).
Defined.

(** *** Swapping [y_true] and [y_pred] *)

Lemma combine_swap (t p : list R) :
  combine p t = map swap_pair (combine t p).
Proof.
  revert p. induction t as [|a t IH]; intros [|b p]; simpl;
    try reflexivity.
  f_equal. apply IH.
Qed.

Lemma filter_map_swap_pair (P : R * R -> bool) (l : list (R * R)) :
  (forall x, P (swap_pair x) = P x) ->
  List.filter P (map swap_pair l) = map swap_pair (List.filter P l).
Proof.
  intros H. induction l as [|x l IH]; simpl; [reflexivity|].
  rewrite H. destruct (P x); simpl; rewrite IH; reflexivity.
Qed.

(** Without [clean] the filter treats both arrays alike. *)
Lemma retained_swap (positive_only : bool) (t p : list R) :
  retained false positive_only p t
  = map swap_pair (retained false positive_only t p).
Proof.
  unfold retained. rewrite combine_swap. apply filter_map_swap_pair.
  intros x. unfold keep, swap_pair. cbn [fst snd].
  destruct positive_only; [|reflexivity].
  rewrite !andb_true_r. apply andb_comm.
Qed.

(** Swapping [y_true] and [y_pred] (one-dimensional, of one length,
    [clean=False]): every entry of [single_absolute_error] changes its
    sign, and [single_squared_error] returns the same entries, none
    negative. *)
Theorem single_errors_under_swap (self : RegressionMetric) (t p : list R)
  (decimal : option Z) (positive_only : bool) :
  length t = length p ->
  (0 <= default (self_decimal self) decimal)%Z ->
  exists ae se : list R,
    single_absolute_error self (Some (Arr1 t)) (Some (Arr1 p)) decimal false
      positive_only = Ok (Row (of_list ae)) /\
    single_absolute_error self (Some (Arr1 p)) (Some (Arr1 t)) decimal false
      positive_only = Ok (Row (of_list (map Ropp ae))) /\
    single_squared_error self (Some (Arr1 t)) (Some (Arr1 p)) decimal false
      positive_only = Ok (Row (of_list se)) /\
    single_squared_error self (Some (Arr1 p)) (Some (Arr1 t)) decimal false
      positive_only = Ok (Row (of_list se)) /\
    forall e, In e se -> 0 <= e.
Proof.
  intros Hlen Hd.
  rewrite !sae_run, !sse_run by (assumption || (symmetry; assumption)).
  rewrite (retained_swap positive_only t p).
  set (K := retained false positive_only t p).
  set (d := default (self_decimal self) decimal) in *.
  do 2 eexists. split; [reflexivity|]. split; [|split; [reflexivity|split]].
  - rewrite !map_map. do 3 f_equal. apply map_ext. intros x.
    unfold swap_pair. cbn [fst snd]. rewrite <- round_R_opp. f_equal. ring.
  - rewrite map_map. do 3 f_equal. apply map_ext. intros x.
    unfold swap_pair. cbn [fst snd]. f_equal. ring.
  - intros e He. apply in_map_iff in He. destruct He as (x & <- & _).
    apply round_R_nonneg; [exact Hd|apply sq_nonneg].
Qed.

Lemma single_errors_under_swap_witness :
  length [3; -0.5; 2; 7] = length [2.5; 0; 2; 8] /\
  (0 <= default (self_decimal default_evaluator) None)%Z /\
  exists ae se : list R,
    single_absolute_error default_evaluator (Some (Arr1 [3; -0.5; 2; 7]))
      (Some (Arr1 [2.5; 0; 2; 8])) None false false
    = Ok (Row (of_list ae)) /\
    single_absolute_error default_evaluator (Some (Arr1 [2.5; 0; 2; 8]))
      (Some (Arr1 [3; -0.5; 2; 7])) None false false
    = Ok (Row (of_list (map Ropp ae))) /\
    single_squared_error default_evaluator (Some (Arr1 [3; -0.5; 2; 7]))
      (Some (Arr1 [2.5; 0; 2; 8])) None false false
    = Ok (Row (of_list se)) /\
    single_squared_error default_evaluator (Some (Arr1 [2.5; 0; 2; 8]))
      (Some (Arr1 [3; -0.5; 2; 7])) None false false
    = Ok (Row (of_list se)) /\
    forall e, In e se -> 0 <= e.
Proof.
  assert (Hd : (0 <= default (self_decimal default_evaluator) None)%Z)
    by (simpl; lia).
  split; [reflexivity|]. split; [exact Hd|].
  apply (single_errors_under_swap default_evaluator [3; -0.5; 2; 7]
           [2.5; 0; 2; 8] None false eq_refl Hd).
Defined.

(** *** The symmetric percentage error *)

Lemma vdiv_pairs {X} (g h : X -> R) (K : list X) :
  (forall x, In x K -> h x <> 0) ->
  vdiv (of_list (map g K)) (of_list (map h K))
  = of_list (map (fun x => g x / h x) K).
Proof.
  intros H. unfold Arr.vdiv, Arr.of_list. rewrite !map_map, zip_with_maps.
  apply map_ext_in. intros x Hx.
  apply div_finite, H, Hx.
Qed.

Lemma retained_clean (positive_only : bool) (t p : list R) (x : R * R) :
  In x (retained true positive_only t p) -> snd x <> 0.
Proof.
  unfold retained. intros H. apply filter_In in H. destruct H as [_ H].
  unfold keep, nonzero in H. apply andb_prop in H. destruct H as [_ H].
  destruct (Req_dec_T (snd x) 0); [discriminate|assumption].
Qed.

(** One term of the symmetric percentage error lies in [0, 2]. *)
Lemma smape_term (t p : R) :
  p <> 0 -> 0 <= 2 * Rabs (p - t) / (Rabs t + Rabs p) <= 2.
Proof.
  intros Hp.
  assert (H0 : 0 < Rabs p) by (apply Rabs_pos_lt, Hp).
  pose proof (Rabs_pos t) as Ht. pose proof (Rabs_pos (p - t)) as Hd.
  assert (Htri : Rabs (p - t) <= Rabs p + Rabs t).
  { unfold Rminus. eapply Rle_trans; [apply Rabs_triang|].
    rewrite Rabs_Ropp. lra. }
  assert (Hi : 0 < / (Rabs t + Rabs p)) by (apply Rinv_0_lt_compat; lra).
  split.
  - apply Rmult_le_pos; lra.
  - apply (Rmult_le_reg_r (Rabs t + Rabs p)); [lra|].
    unfold Rdiv. rewrite Rmult_assoc, Rinv_l by lra. lra.
Qed.

Lemma smape_value (K : list (R * R)) :
  K <> [] -> (forall x, In x K -> snd x <> 0) ->
  smape_formula (of_list (map fst K)) (of_list (map snd K))
  = Num (Rsum (map (fun x => 2 * Rabs (snd x - fst x)
                             / (Rabs (fst x) + Rabs (snd x))) K)
         / INR (length K)).
Proof.
  intros HK Hnz. unfold smape_formula.
  rewrite vsub_pairs, !vabs_of_list, smul_of_list, !map_map.
  rewrite (vadd_pairs (fun x => Rabs (fst x)) (fun x => Rabs (snd x))).
  rewrite (vdiv_pairs (fun x => 2 * Rabs (snd x - fst x))
                      (fun x => Rabs (fst x) + Rabs (snd x))).
  - rewrite mean_of_list by (apply map_nonempty, HK).
    rewrite length_map. reflexivity.
  - intros x Hx. pose proof (Rabs_pos (fst x)).
    assert (0 < Rabs (snd x)) by (apply Rabs_pos_lt, Hnz, Hx). lra.
Qed.

(** With [clean=True], for one-dimensional inputs of one length of which
    some sample is kept, at a precision that is not negative, the symmetric
    mean absolute percentage error is a number in [0, 2]: every term
    [2|p - t| / (|t| + |p|)] is. *)
Theorem smape_in_0_2 (self : RegressionMetric) (t p : list R)
  (mo : multi_output) (decimal : option Z) (positive_only : bool) :
  length t = length p ->
  (0 <= default (self_decimal self) decimal)%Z ->
  retained true positive_only t p <> [] ->
  exists s : R,
    symmetric_mean_absolute_percentage_error self (Some (Arr1 t))
      (Some (Arr1 p)) mo decimal true positive_only = Ok (Scalar (Num s)) /\
    0 <= s <= 2.
Proof.
  intros Hlen Hd HK.
  set (K := retained true positive_only t p) in *.
  set (d := default (self_decimal self) decimal) in *.
  unfold symmetric_mean_absolute_percentage_error.
  rewrite preprocess_1d by assumption. fold K. rewrite bind_Ok.
  cbv beta iota zeta.
  rewrite (smape_value K HK (retained_clean positive_only t p)). fold d.
  eexists. split; [reflexivity|].
  pose proof (n_pos K HK) as Hn.
  apply (round_R_between _ 0 2 d Hd).
  replace (IZR 0) with 0 by lra. replace (IZR 2) with 2 by lra.
  split.
  - apply Rmult_le_pos; [|left; apply Rinv_0_lt_compat, Hn].
    apply Rsum_nonneg. intros x.
    apply Rmult_le_pos; [|].
    + pose proof (Rabs_pos (snd x - fst x)). lra.
    + pose proof (Rabs_pos (fst x)). pose proof (Rabs_pos (snd x)).
      destruct (Req_dec_T (Rabs (fst x) + Rabs (snd x)) 0) as [E|E].
      * rewrite E, Rinv_0. lra.
      * left. apply Rinv_0_lt_compat. lra.
  - apply (Rmult_le_reg_r (INR (length K))); [exact Hn|].
    unfold Rdiv at 1. rewrite Rmult_assoc, Rinv_l by lra.
    rewrite Rmult_1_r, Rmult_comm, <- (Rsum_const 2 K).
    apply Rsum_le. intros x Hx.
    apply smape_term, (retained_clean positive_only t p), Hx.
Qed.

Lemma retained_example_clean :
  retained true false [3; -0.5; 2; 7] [2.5; 0; 2; 8] <> [].
Proof.
  unfold retained, keep, nonzero.
  cbn [combine List.filter fst snd andb].
  destruct (Req_dec_T 2.5 0); [lra|]. discriminate.
Qed.

Lemma smape_in_0_2_witness :
  length [3; -0.5; 2; 7] = length [2.5; 0; 2; 8] /\
  (0 <= default (self_decimal default_evaluator) None)%Z /\
  retained true false [3; -0.5; 2; 7] [2.5; 0; 2; 8] <> [] /\
  exists s : R,
    symmetric_mean_absolute_percentage_error default_evaluator
      (Some (Arr1 [3; -0.5; 2; 7])) (Some (Arr1 [2.5; 0; 2; 8])) raw_values
      None true false = Ok (Scalar (Num s)) /\
    0 <= s <= 2.
Proof.
  assert (Hd : (0 <= default (self_decimal default_evaluator) None)%Z)
    by (simpl; lia).
  split; [reflexivity|]. split; [exact Hd|].
  split; [exact retained_example_clean|].
  apply (smape_in_0_2 default_evaluator [3; -0.5; 2; 7] [2.5; 0; 2; 8]
           raw_values None false eq_refl Hd retained_example_clean).
Defined.

(** *** The mean squared log error *)

Lemma retained_positive_snd (clean : bool) (t p : list R) (x : R * R) :
  In x (retained clean true t p) -> 0 < snd x.
Proof.
  unfold retained. intros H. apply filter_In in H. destruct H as [_ H].
  unfold keep, positive in H.
  destruct (Rlt_dec 0 (fst x)); [|discriminate].
  destruct (Rlt_dec 0 (snd x)); [assumption|discriminate].
Qed.

(** With [positive_only] the filter treats both arrays alike, whatever
    [clean]: a positive number is not zero. *)
Lemma retained_swap_positive (clean : bool) (t p : list R) :
  retained clean true p t = map swap_pair (retained clean true t p).
Proof.
  unfold retained. rewrite combine_swap. apply filter_map_swap_pair.
  intros x. unfold keep, swap_pair, positive, nonzero. cbn [fst snd].
  destruct (Rlt_dec 0 (fst x)), (Rlt_dec 0 (snd x)); cbn [andb];
    try reflexivity.
  destruct clean; [|reflexivity].
  destruct (Req_dec_T (fst x) 0), (Req_dec_T (snd x) 0);
    try reflexivity; lra.
Qed.

Lemma log_pairs (K : list (R * R)) :
  (forall x, In x K -> 0 < fst x /\ 0 < snd x) ->
  map Arr.log (vdiv (of_list (map fst K)) (of_list (map snd K)))
  = of_list (map (fun x => ln (fst x) - ln (snd x)) K).
Proof.
  intros H. rewrite vdiv_pairs by (intros x Hx; destruct (H x Hx); lra).
  unfold Arr.of_list. rewrite !map_map. apply map_ext_in.
  intros x Hx. destruct (H x Hx) as [H1 H2]. unfold Arr.log.
  assert (0 < fst x / snd x)
    by (apply Rmult_lt_0_compat; [lra|apply Rinv_0_lt_compat; lra]).
  destruct (Rlt_dec 0 (fst x / snd x)); [|lra].
  f_equal. unfold Rdiv.
  rewrite ln_mult by (try assumption; apply Rinv_0_lt_compat; assumption).
  rewrite ln_Rinv by assumption. ring.
Qed.

Lemma msle_value (K : list (R * R)) :
  K <> [] -> (forall x, In x K -> 0 < fst x /\ 0 < snd x) ->
  msle_formula (length (map fst K)) (of_list (map fst K))
               (of_list (map snd K))
  = Num (Rsum (map (fun x => (ln (fst x) - ln (snd x))
                             * (ln (fst x) - ln (snd x))) K)
         / INR (length K)).
Proof.
  intros HK H. unfold msle_formula.
  rewrite (log_pairs K H), vsq_of_list, map_map, sum_of_list, length_map.
  apply div_finite. pose proof (n_pos K HK). lra.
Qed.

(** With [positive_only=True], for one-dimensional arrays of one length of
    which some sample is kept, at a precision that is not negative: the
    mean squared log error, which is the mean of [log(y_true / y_pred) ** 2],
    is a number that is not negative, and the same number with the arrays
    swapped. *)
Theorem msle_symmetric (self : RegressionMetric) (t p : list R)
  (mo : multi_output) (decimal : option Z) (clean : bool) :
  length t = length p ->
  (0 <= default (self_decimal self) decimal)%Z ->
  retained clean true t p <> [] ->
  exists m : R,
    mean_squared_log_error self (Some (Arr1 t)) (Some (Arr1 p)) mo decimal
      clean true = Ok (Scalar (Num m)) /\
    mean_squared_log_error self (Some (Arr1 p)) (Some (Arr1 t)) mo decimal
      clean true = Ok (Scalar (Num m)) /\
    0 <= m.
Proof.
  intros Hlen Hd HK.
  assert (Hlen' : length p = length t) by (symmetry; exact Hlen).
  set (d := default (self_decimal self) decimal) in *.
  unfold mean_squared_log_error.
  rewrite (preprocess_1d self t p) by assumption.
  rewrite (preprocess_1d self p t) by assumption.
  rewrite (retained_swap_positive clean t p).
  set (K := retained clean true t p) in *.
  assert (Hpos : forall x, In x K -> 0 < fst x /\ 0 < snd x).
  { intros x Hx. split.
    - apply (retained_positive clean t p x Hx).
    - apply (retained_positive_snd clean t p x Hx). }
  assert (Hpos' : forall x, In x (map swap_pair K) -> 0 < fst x /\ 0 < snd x).
  { intros x Hx. apply in_map_iff in Hx. destruct Hx as (y & <- & Hy).
    destruct (Hpos y Hy). unfold swap_pair. cbn [fst snd]. split; assumption. }
  rewrite !bind_Ok. cbv beta iota zeta.
  rewrite (msle_value K HK Hpos).
  rewrite (msle_value (map swap_pair K) (map_nonempty _ _ HK) Hpos').
  rewrite map_map, length_map. fold d.
  exists (round_R
            (Rsum (map (fun x => (ln (fst x) - ln (snd x))
                                 * (ln (fst x) - ln (snd x))) K)
             / INR (length K)) d).
  split; [reflexivity|]. split.
  - cbn [Np.round]. do 5 f_equal. f_equal. apply map_ext. intros x.
    unfold swap_pair. cbn [fst snd]. ring.
  - apply round_R_nonneg; [exact Hd|].
    apply Rmult_le_pos.
    + apply Rsum_nonneg. intros x. apply sq_nonneg.
    + left. apply Rinv_0_lt_compat, (n_pos K HK).
Qed.

Lemma retained_example_positive :
  retained true true [3; 0.5; 2; 7] [2.5; 1; 2; 8] <> [].
Proof.
  unfold retained, keep, positive, nonzero.
  cbn [combine List.filter fst snd].
  destruct (Rlt_dec 0 3); [|lra].
  destruct (Rlt_dec 0 2.5); [|lra].
  destruct (Req_dec_T 2.5 0); [lra|]. discriminate.
Qed.

Lemma msle_symmetric_witness :
  length [3; 0.5; 2; 7] = length [2.5; 1; 2; 8] /\
  (0 <= default (self_decimal default_evaluator) None)%Z /\
  retained true true [3; 0.5; 2; 7] [2.5; 1; 2; 8] <> [] /\
  exists m : R,
    mean_squared_log_error default_evaluator (Some (Arr1 [3; 0.5; 2; 7]))
      (Some (Arr1 [2.5; 1; 2; 8])) raw_values None true true
    = Ok (Scalar (Num m)) /\
    mean_squared_log_error default_evaluator (Some (Arr1 [2.5; 1; 2; 8]))
      (Some (Arr1 [3; 0.5; 2; 7])) raw_values None true true
    = Ok (Scalar (Num m)) /\
    0 <= m.
Proof.
  assert (Hd : (0 <= default (self_decimal default_evaluator) None)%Z)
    by (simpl; lia).
  split; [reflexivity|]. split; [exact Hd|].
  split; [exact retained_example_positive|].
  apply (msle_symmetric default_evaluator [3; 0.5; 2; 7] [2.5; 1; 2; 8]
           raw_values None true eq_refl Hd retained_example_positive).
Defined.

(** *** The error metrics of swapped arrays *)

Lemma fst_swapped (K : list (R * R)) : map fst (map swap_pair K) = map snd K.
Proof. rewrite map_map. reflexivity. Qed.

Lemma snd_swapped (K : list (R * R)) : map snd (map swap_pair K) = map fst K.
Proof. rewrite map_map. reflexivity. Qed.

Lemma abs_diff_swapped (K : list (R * R)) :
  vabs (vsub (of_list (map snd K)) (of_list (map fst K)))
  = vabs (vsub (of_list (map fst K)) (of_list (map snd K))).
Proof.
  rewrite !vsub_pairs, !vabs_of_list, !map_map. f_equal.
  apply map_ext. intros x. apply Rabs_minus_sym.
Qed.

Lemma sq_diff_swapped (K : list (R * R)) :
  vsq (vsub (of_list (map snd K)) (of_list (map fst K)))
  = vsq (vsub (of_list (map fst K)) (of_list (map snd K))).
Proof.
  rewrite !vsub_pairs, !vsq_of_list, !map_map. f_equal.
  apply map_ext. intros x. ring.
Qed.

(** Without [clean], for one-dimensional arrays of one length, the mean
    absolute, mean squared, root mean squared and maximum errors do not
    depend on which array is passed as [y_true]: each gives the same
    outcome, value or exception, with the arrays swapped. *)
Theorem error_metrics_under_swap (self : RegressionMetric) (t p : list R)
  (mo : multi_output) (decimal : option Z) (positive_only : bool) :
  length t = length p ->
  (0 <= default (self_decimal self) decimal)%Z ->
  mean_absolute_error self (Some (Arr1 t)) (Some (Arr1 p)) mo decimal false
    positive_only
  = mean_absolute_error self (Some (Arr1 p)) (Some (Arr1 t)) mo decimal false
      positive_only /\
  mean_squared_error self (Some (Arr1 t)) (Some (Arr1 p)) mo decimal false
    positive_only
  = mean_squared_error self (Some (Arr1 p)) (Some (Arr1 t)) mo decimal false
      positive_only /\
  root_mean_squared_error self (Some (Arr1 t)) (Some (Arr1 p)) mo decimal
    false positive_only
  = root_mean_squared_error self (Some (Arr1 p)) (Some (Arr1 t)) mo decimal
      false positive_only /\
  max_error self (Some (Arr1 t)) (Some (Arr1 p)) mo decimal false
    positive_only
  = max_error self (Some (Arr1 p)) (Some (Arr1 t)) mo decimal false
      positive_only.
Proof.
  intros Hlen Hd.
  assert (Hlen' : length p = length t) by (symmetry; exact Hlen).
  unfold mean_absolute_error, mean_squared_error, root_mean_squared_error,
    max_error.
  rewrite (preprocess_1d self t p) by assumption.
  rewrite (preprocess_1d self p t) by assumption.
  rewrite (retained_swap positive_only t p).
  set (K := retained false positive_only t p).
  rewrite !bind_Ok. cbv beta iota zeta.
  rewrite fst_swapped, snd_swapped, !length_map.
  rewrite (abs_diff_swapped K), (sq_diff_swapped K).
  repeat split; reflexivity.
Qed.

Lemma error_metrics_under_swap_witness :
  length [3; -0.5; 2; 7] = length [2.5; 0; 2; 8] /\
  (0 <= default (self_decimal default_evaluator) None)%Z /\
  mean_absolute_error default_evaluator (Some (Arr1 [3; -0.5; 2; 7]))
    (Some (Arr1 [2.5; 0; 2; 8])) raw_values None false false
  = mean_absolute_error default_evaluator (Some (Arr1 [2.5; 0; 2; 8]))
      (Some (Arr1 [3; -0.5; 2; 7])) raw_values None false false /\
  mean_squared_error default_evaluator (Some (Arr1 [3; -0.5; 2; 7]))
    (Some (Arr1 [2.5; 0; 2; 8])) raw_values None false false
  = mean_squared_error default_evaluator (Some (Arr1 [2.5; 0; 2; 8]))
      (Some (Arr1 [3; -0.5; 2; 7])) raw_values None false false /\
  root_mean_squared_error default_evaluator (Some (Arr1 [3; -0.5; 2; 7]))
    (Some (Arr1 [2.5; 0; 2; 8])) raw_values None false false
  = root_mean_squared_error default_evaluator (Some (Arr1 [2.5; 0; 2; 8]))
      (Some (Arr1 [3; -0.5; 2; 7])) raw_values None false false /\
  max_error default_evaluator (Some (Arr1 [3; -0.5; 2; 7]))
    (Some (Arr1 [2.5; 0; 2; 8])) raw_values None false false
  = max_error default_evaluator (Some (Arr1 [2.5; 0; 2; 8]))
      (Some (Arr1 [3; -0.5; 2; 7])) raw_values None false false.
Proof.
  assert (Hd : (0 <= default (self_decimal default_evaluator) None)%Z)
    by (simpl; lia).
  split; [reflexivity|]. split; [exact Hd|].
  apply (error_metrics_under_swap default_evaluator [3; -0.5; 2; 7]
           [2.5; 0; 2; 8] raw_values None false eq_refl Hd).
Defined.

End RegressionMore.

(** ** More on the clustering evaluator *)

Module ClusteringMore.

Import DataUtil ClusterUtil Clustering PyFacts ClusteringFacts RoundFacts.

(** *** The instance after a call *)

Lemma snd_bind {A B} (m : M A) (k : A -> M B) (self : ClusteringMetric) :
  snd ((m ≫= k) self) =
  match m self with
  | (Ok a, self') => snd (k a self')
  | (Raise e, self') => self'
  end.
Proof.
  unfold mbind, M_bind. destruct (m self) as [[a|e] self']; reflexivity.
Qed.

(** What follows the prologue of a score reads the instance at most. *)
Ltac reads_only :=
  repeat (cbv beta iota zeta;
          match goal with
          | |- snd (mret _ _) = _ => reflexivity
          | |- snd (raise _ _) = _ => reflexivity
          | |- snd ((lift ?r ≫= _) _) = _ =>
              rewrite snd_bind; unfold lift at 1;
              destruct r as [?|?]; [|reflexivity]
          | |- snd ((get_self ≫= _) _) = _ =>
              rewrite snd_bind; unfold get_self at 1
          | |- snd ((if ?c then _ else _) _) = _ => destruct c
          | |- snd ((let '(_, _) := ?p in _) _) = _ => destruct p
          end).

(** A score leaves the instance as it is, but for [self.le]: a call that
    gets two vectors of one length stores their two encoders there, also
    when it raises afterwards; a call that does not get them changes
    nothing. *)
Theorem external_metric_changes_le_only
  (compute_homogeneity : labels -> labels -> npfloat) (code : external_code)
  (self : ClusteringMetric) (y_true y_pred : option labels)
  (decimal : option Z) :
  snd (external_metric compute_homogeneity code y_true y_pred decimal self)
  = match resolve_external self y_true y_pred with
    | Some (a, b) =>
        if length a =? length b
        then with_le self [fit a; fit b]
        else self
    | None => self
    end.
Proof.
  destruct code; cbn [external_metric];
    unfold rand_score, fowlkes_mallows_score, homogeneity_score,
      completeness_score, v_measure_score, precision_score, recall_score,
      f_measure_score, czekanowski_dice_score, hubert_gamma_score,
      jaccard_score, kulczynski_score, mc_nemar_score, phi_score,
      rogers_tanimoto_score, russel_rao_score, sokal_sneath1_score,
      sokal_sneath2_score, tau_score, with_confusion_matrix;
    rewrite snd_bind, external_prologue;
    (destruct (resolve_external self y_true y_pred) as [[a b]|];
     [|reflexivity]);
    (destruct (length a =? length b); [|reflexivity]);
    reads_only.
Qed.

(** *** Vectors of the call and vectors of the instance *)

(** The vectors of a call count as a pair.  A call that passes [y_true]
    without [y_pred] is the call that passes neither: the [y_true] passed
    is not read, and the vectors of the instance are evaluated.  A call
    that passes [y_pred] without [y_true] raises [ValueError], also when
    the instance holds a [y_true]. *)
Theorem call_vectors_come_as_a_pair
  (compute_homogeneity : labels -> labels -> npfloat) (code : external_code)
  (self : ClusteringMetric) (a b : labels) (decimal : option Z) :
  external_metric compute_homogeneity code (Some a) None decimal self
  = external_metric compute_homogeneity code None None decimal self /\
  external_metric compute_homogeneity code None (Some b) decimal self
  = (Raise (ValueError external_missing), self).
Proof.
  split; destruct code; reflexivity.
Qed.

(** *** The Phi score of a single predicted cluster *)

(** When the vectors evaluated have one length and the predicted one has
    exactly one distinct cluster, [phi_score] raises [ValueError] if
    [raise_error] is set, and otherwise returns [smallest_value] as
    configured, not rounded. *)
Theorem phi_one_predicted_cluster (self : ClusteringMetric)
  (y_true y_pred : option labels) (decimal : option Z) (a b : labels) :
  resolve_external self y_true y_pred = Some (a, b) ->
  length a = length b ->
  length (np_unique b) = 1%nat ->
  returns (phi_score y_true y_pred decimal) self
  = if self_raise_error self
    then Raise (ValueError phi_undefined)
    else Ok (self_smallest_value self).
Proof.
  intros Hres Hlen Hone. unfold phi_score.
  rewrite returns_external, Hres, Hlen, Nat.eqb_refl. simpl.
  rewrite (single_cluster_encoded b Hone). simpl.
  rewrite returns_bind. simpl.
  destruct (self_raise_error self); reflexivity.
Qed.

Lemma phi_one_predicted_cluster_witness :
  resolve_external default_evaluator
    (Some [0; 1; 0; 1]%Z) (Some [0; 0; 0; 0]%Z)
  = Some ([0; 1; 0; 1]%Z, [0; 0; 0; 0]%Z) /\
  length [0; 1; 0; 1]%Z = length [0; 0; 0; 0]%Z /\
  length (np_unique [0; 0; 0; 0]%Z) = 1%nat /\
  returns (phi_score (Some [0; 1; 0; 1]%Z) (Some [0; 0; 0; 0]%Z) None)
          default_evaluator
  = Ok NInf.
Proof.
  do 3 (split; [reflexivity|]).
  apply (phi_one_predicted_cluster default_evaluator
           (Some [0; 1; 0; 1]%Z) (Some [0; 0; 0; 0]%Z) None
           [0; 1; 0; 1]%Z [0; 0; 0; 0]%Z); reflexivity.
Defined.

(** *** The Rand score and the Tau score *)

(** A loop over the pairs [idx < jdx < n] whose every iteration adds one
    to a measure adds the number of pairs. *)
Lemma for_pairs_count {S} (P : S -> Prop) (m : S -> Z) (n : nat)
  (body : nat -> nat -> S -> result S) :
  (forall i j s, (i < n)%nat -> (j < n)%nat -> P s ->
     exists s', body i j s = Ok s' /\ P s' /\ (m s' = m s + 1)%Z) ->
  forall s, P s -> exists s',
    for_pairs n body s = Ok s' /\ P s' /\
    (2 * (m s' - m s) = Z.of_nat n * (Z.of_nat n - 1))%Z.
Proof.
  intros Hbody s Hs. unfold for_pairs.
  destruct (for_each_measure P m
              (fun idx => Z.of_nat (0 + n - (idx + 1)))
              (range 0 n)
              (fun idx => for_each (range (idx + 1) n) (body idx)))
    with (s := s) as (c & E & Pc & Mc).
  - intros idx t Hidx Ht. apply in_range in Hidx.
    destruct (for_each_measure P m (fun _ => 1%Z)
                (range (idx + 1) n) (body idx))
      with (s := t) as (t' & E' & P' & M').
    + intros jdx u Hjdx Hu. apply in_range in Hjdx.
      apply Hbody; [lia|lia|exact Hu].
    + exact Ht.
    + exists t'. repeat split; [exact E' | exact P'|].
      rewrite M', Zsum_ones. unfold range. rewrite length_seq. lia.
  - exact Hs.
  - exists c. repeat split; [exact E | exact Pc|].
    rewrite Mc. unfold range. rewrite Nat.sub_0_r.
    replace (m s + Zsum (map (fun idx => Z.of_nat (0 + n - (idx + 1)))
                             (seq 0 n)) - m s)%Z
      with (Zsum (map (fun idx => Z.of_nat (0 + n - (idx + 1))) (seq 0 n)))
      by lia.
    apply Zsum_triangle.
Qed.

(** The two counters of [tau_score]: every pair is concordant or
    discordant. *)
Lemma tau_loop (y_true y_pred : labels) :
  length y_true = length y_pred ->
  exists c d : Z,
    for_pairs (length y_true) (fun idx jdx '(c, d) =>
      ti ← getitem y_true idx;
      tj ← getitem y_true jdx;
      pi ← getitem y_pred idx;
      pj ← getitem y_pred jdx;
      mret (if (ti =? tj)%Z && (pi =? pj)%Z then (c + 1, d)
            else if negb (ti =? tj)%Z && negb (pi =? pj)%Z then (c + 1, d)
            else (c, d + 1))%Z) (0, 0)%Z
    = Ok (c, d) /\
    (0 <= c)%Z /\ (0 <= d)%Z /\
    (2 * (c + d)
     = Z.of_nat (length y_true) * (Z.of_nat (length y_true) - 1))%Z.
Proof.
  intros Hlen.
  match goal with
  | |- exists c d, for_pairs ?n ?body _ = _ /\ _ =>
      pose proof (for_pairs_count
                    (fun s : Z * Z => 0 <= fst s /\ 0 <= snd s)%Z
                    (fun s : Z * Z => fst s + snd s)%Z n body) as Hcount
  end.
  destruct Hcount with (s := (0, 0)%Z) as ([c d] & E & [Hc Hd] & Hm).
  - intros i j [c d] Hi Hj [Hc Hd]. cbn [fst snd] in *.
    destruct (getitem_lt y_true i Hi) as (ti & ->).
    destruct (getitem_lt y_true j Hj) as (tj & ->).
    rewrite Hlen in Hi, Hj.
    destruct (getitem_lt y_pred i Hi) as (pi & ->).
    destruct (getitem_lt y_pred j Hj) as (pj & ->).
    simpl. destruct (ti =? tj)%Z, (pi =? pj)%Z; simpl;
      eexists; (split; [reflexivity|]); cbn [fst snd]; lia.
  - cbn [fst snd]. lia.
  - exists c, d. cbn [fst snd] in *. repeat split; try assumption. lia.
Qed.

(** The counters of [rand_score] add up to the concordant pairs. *)
Lemma rand_loop (y_true y_pred : labels) (c d : Z) :
  for_pairs (length y_true) (fun idx jdx '(c, d) =>
    ti ← getitem y_true idx;
    tj ← getitem y_true jdx;
    pi ← getitem y_pred idx;
    pj ← getitem y_pred jdx;
    mret (if (ti =? tj)%Z && (pi =? pj)%Z then (c + 1, d)
          else if negb (ti =? tj)%Z && negb (pi =? pj)%Z then (c + 1, d)
          else (c, d + 1))%Z) (0, 0)%Z
  = Ok (c, d) ->
  exists a b : Z,
    for_pairs (length y_true) (fun idx jdx '(a, b) =>
      ti ← getitem y_true idx;
      tj ← getitem y_true jdx;
      let same_cluster_true := (ti =? tj)%Z in
      pi ← getitem y_pred idx;
      pj ← getitem y_pred jdx;
      let same_cluster_pred := (pi =? pj)%Z in
      mret (if same_cluster_true && same_cluster_pred then (a + 1, b)
            else if negb same_cluster_true && negb same_cluster_pred
                 then (a, b + 1)
                 else (a, b))%Z) (0, 0)%Z
    = Ok (a, b) /\ (a + b = c)%Z.
Proof.
  intros E.
  match goal with
  | |- exists a b, ?l = _ /\ _ =>
      assert (H : result_rel (fun s1 s2 : Z * Z => fst s1 + snd s1 = fst s2)%Z
                    l (Ok (c, d)))
  end.
  { rewrite <- E. apply for_pairs_rel; [|reflexivity].
    intros i j [a b] [c' d'] Hrel. cbn [fst snd] in Hrel. subst c'.
    read_entries; cbn [fst snd]; lia. }
  match type of H with
  | result_rel _ ?l _ => destruct l as [[a b]|e]; [|contradiction]
  end.
  exists a, b. split; [reflexivity|exact H].
Qed.

(** For vectors of one length with two samples or more, at a precision
    that is not negative: [rand_score] returns, rounded, the fraction [u]
    of the pairs of samples on which the two clusterings agree, and
    [tau_score] returns [2u - 1], rounded; so the Rand score lies in
    [0, 1] and the Tau score in [-1, 1]. *)
Theorem rand_and_tau_scores (self : ClusteringMetric)
  (y_true y_pred : option labels) (decimal : option Z) (a b : labels) :
  resolve_external self y_true y_pred = Some (a, b) ->
  length a = length b ->
  (2 <= length a)%nat ->
  (0 <= default (self_decimal self) decimal)%Z ->
  exists u : R,
    0 <= u <= 1 /\
    returns (rand_score y_true y_pred decimal) self
    = Ok (Num (round_R u (default (self_decimal self) decimal))) /\
    returns (tau_score y_true y_pred decimal) self
    = Ok (Num (round_R (2 * u - 1) (default (self_decimal self) decimal))) /\
    0 <= round_R u (default (self_decimal self) decimal) <= 1 /\
    -1 <= round_R (2 * u - 1) (default (self_decimal self) decimal) <= 1.
Proof.
  intros Hres Hlen HN Hd.
  set (dd := default (self_decimal self) decimal) in *.
  pose proof (length_fit_transform a) as La.
  pose proof (length_fit_transform b) as Lb.
  destruct (tau_loop (fit_transform a) (fit_transform b))
    as (c & d & Etau & Hc & Hd0 & Hsum); [congruence|].
  destruct (rand_loop _ _ _ _ Etau) as (a0 & b0 & Erand & Hab).
  rewrite La in Hsum.
  assert (Hpos : (0 < c + d)%Z) by nia.
  assert (HposR : 0 < IZR (c + d)) by (apply IZR_lt, Hpos).
  assert (HcR : 0 <= IZR c) by (apply IZR_le, Hc).
  assert (HdR : 0 <= IZR d) by (apply IZR_le, Hd0).
  assert (Hplus : IZR (c + d) = IZR c + IZR d) by apply plus_IZR.
  assert (Hu : 0 <= IZR c / IZR (c + d) <= 1).
  { split.
    - apply Rmult_le_pos; [exact HcR|]. left. apply Rinv_0_lt_compat, HposR.
    - apply (Rmult_le_reg_r (IZR (c + d))); [exact HposR|].
      unfold Rdiv. rewrite Rmult_assoc, Rinv_l by lra. lra. }
  exists (IZR c / IZR (c + d)). split; [exact Hu|].
  assert (Er : returns (rand_score y_true y_pred decimal) self
               = Ok (Num (round_R (IZR c / IZR (c + d)) dd))).
  { unfold rand_score.
    rewrite returns_external, Hres, Hlen, Nat.eqb_refl.
    cbv beta iota zeta. rewrite returns_lift.
    match goal with
    | |- context [for_pairs ?n ?body ?s0] =>
        replace (for_pairs n body s0) with (Ok (a0, b0) : result (Z * Z))
          by (symmetry; exact Erand)
    end.
    cbv beta iota zeta. rewrite returns_lift. rewrite La, <- Hsum, Hab.
    unfold truediv.
    destruct (Req_dec_T (IZR (2 * (c + d)) / 2) 0) as [E0|_].
    - rewrite mult_IZR in E0. lra.
    - rewrite returns_mret. cbn [Np.round]. do 3 f_equal.
      rewrite mult_IZR. field. lra. }
  assert (Et : returns (tau_score y_true y_pred decimal) self
               = Ok (Num (round_R (2 * (IZR c / IZR (c + d)) - 1) dd))).
  { unfold tau_score.
    rewrite returns_external, Hres, Hlen, Nat.eqb_refl.
    cbv beta iota zeta. rewrite returns_lift.
    match goal with
    | |- context [for_pairs ?n ?body ?s0] =>
        replace (for_pairs n body s0) with (Ok (c, d) : result (Z * Z))
          by (symmetry; exact Etau)
    end.
    cbv beta iota zeta. rewrite returns_lift.
    unfold truediv.
    destruct (Req_dec_T (IZR (c + d)) 0) as [E0|_]; [lra|].
    rewrite returns_mret. cbn [Np.round]. do 3 f_equal.
    rewrite minus_IZR, Hplus. field. lra. }
  split; [exact Er|]. split; [exact Et|]. split.
  - apply (round_R_between _ 0 1 dd Hd). exact Hu.
  - apply (round_R_between _ (-1) 1 dd Hd). lra.
Qed.

Lemma rand_and_tau_scores_witness :
  resolve_external default_evaluator
    (Some [0; 0; 1; 2]%Z) (Some [5; 7; 7; 7]%Z)
  = Some ([0; 0; 1; 2]%Z, [5; 7; 7; 7]%Z) /\
  length [0; 0; 1; 2]%Z = length [5; 7; 7; 7]%Z /\
  (2 <= length [0; 0; 1; 2]%Z)%nat /\
  (0 <= default (self_decimal default_evaluator) None)%Z /\
  exists u : R,
    0 <= u <= 1 /\
    returns (rand_score (Some [0; 0; 1; 2]%Z) (Some [5; 7; 7; 7]%Z) None)
            default_evaluator
    = Ok (Num (round_R u (default (self_decimal default_evaluator) None))) /\
    returns (tau_score (Some [0; 0; 1; 2]%Z) (Some [5; 7; 7; 7]%Z) None)
            default_evaluator
    = Ok (Num (round_R (2 * u - 1)
                       (default (self_decimal default_evaluator) None))) /\
    0 <= round_R u (default (self_decimal default_evaluator) None) <= 1 /\
    -1 <= round_R (2 * u - 1)
                  (default (self_decimal default_evaluator) None) <= 1.
Proof.
  assert (HN : (2 <= length [0; 0; 1; 2]%Z)%nat) by (simpl; lia).
  assert (Hd : (0 <= default (self_decimal default_evaluator) None)%Z)
    by (simpl; lia).
  split; [reflexivity|]. split; [reflexivity|]. split; [exact HN|].
  split; [exact Hd|].
  apply (rand_and_tau_scores default_evaluator
           (Some [0; 0; 1; 2]%Z) (Some [5; 7; 7; 7]%Z) None
           [0; 0; 1; 2]%Z [5; 7; 7; 7]%Z eq_refl eq_refl HN Hd).
Defined.

(** With fewer than two samples there is no pair: [rand_score] and
    [tau_score] divide Python numbers by zero and raise
    [ZeroDivisionError], while [fowlkes_mallows_score], which divides by a
    numpy square root, returns [nan]. *)
Theorem fewer_than_two_samples (self : ClusteringMetric)
  (y_true y_pred : option labels) (decimal : option Z) (a b : labels) :
  resolve_external self y_true y_pred = Some (a, b) ->
  length a = length b ->
  (length a < 2)%nat ->
  returns (rand_score y_true y_pred decimal) self = Raise ZeroDivisionError /\
  returns (tau_score y_true y_pred decimal) self = Raise ZeroDivisionError /\
  returns (fowlkes_mallows_score y_true y_pred decimal) self = Ok NaN.
Proof.
  intros Hres Hlen HN.
  pose proof (length_fit_transform a) as La.
  unfold rand_score, tau_score, fowlkes_mallows_score.
  rewrite !returns_external, Hres, Hlen, Nat.eqb_refl.
  cbv beta iota zeta. rewrite !returns_lift, La.
  assert (Hdiv : Np.div (Num 0) (Np.sqrt (Num 0)) = NaN).
  { unfold Np.sqrt, Np.div. destruct (Rlt_dec 0 0); [lra|].
    destruct (Req_dec_T (sqrt 0) 0) as [_|H]; [|rewrite sqrt_0 in H; lra].
    unfold Np.sgn. destruct (Rlt_dec 0 0); [lra|]. reflexivity. }
  assert (Hzero : forall x z, z = 0%Z ->
            truediv x (IZR z) = Raise ZeroDivisionError).
  { intros x z ->. unfold truediv.
    destruct (Req_dec_T 0 0); [reflexivity|contradiction]. }
  assert (Hhalf : forall x z, z = 0%Z ->
            truediv x (IZR z / 2) = Raise ZeroDivisionError).
  { intros x z ->. unfold truediv.
    destruct (Req_dec_T (0 / 2) 0); [reflexivity|lra]. }
  destruct (length a) as [|[|n]]; [| |lia];
    cbn -[truediv Np.div Np.sqrt Np.round returns IZR Z.of_nat Z.mul Z.add
          Z.sub];
    rewrite !returns_lift, Hhalf, Hzero by reflexivity;
    (split; [reflexivity|]); (split; [reflexivity|]);
    rewrite returns_mret;
    change (IZR ((0 + 0) * (0 + 0))) with 0;
    rewrite Hdiv; reflexivity.
Qed.

Lemma fewer_than_two_samples_witness :
  resolve_external default_evaluator (Some [3]%Z) (Some [8]%Z)
  = Some ([3]%Z, [8]%Z) /\
  length [3]%Z = length [8]%Z /\
  (length [3]%Z < 2)%nat /\
  returns (rand_score (Some [3]%Z) (Some [8]%Z) None) default_evaluator
  = Raise ZeroDivisionError /\
  returns (tau_score (Some [3]%Z) (Some [8]%Z) None) default_evaluator
  = Raise ZeroDivisionError /\
  returns (fowlkes_mallows_score (Some [3]%Z) (Some [8]%Z) None)
          default_evaluator
  = Ok NaN.
Proof.
  assert (HN : (length [3]%Z < 2)%nat) by (simpl; lia).
  split; [reflexivity|]. split; [reflexivity|]. split; [exact HN|].
  apply (fewer_than_two_samples default_evaluator (Some [3]%Z) (Some [8]%Z)
           None [3]%Z [8]%Z eq_refl eq_refl HN).
Defined.

(** *** Scores of the pair-contingency tuple *)

Lemma with_confusion_matrix_run (self : ClusteringMetric)
  (y_true y_pred : option labels) (decimal : option Z) (a b : labels)
  (formula : npfloat * npfloat * npfloat * npfloat -> npfloat)
  (yy yn ny nn : Z) :
  resolve_external self y_true y_pred = Some (a, b) ->
  length a = length b ->
  pair_counts (fit_transform a) (fit_transform b) = Ok (yy, yn, ny, nn) ->
  returns (with_confusion_matrix false formula y_true y_pred decimal) self
  = Ok (Np.round (formula (Num (IZR yy), Num (IZR yn), Num (IZR ny),
                           Num (IZR nn)))
                 (default (self_decimal self) decimal)).
Proof.
  intros Hres Hlen Hcm. unfold with_confusion_matrix.
  rewrite returns_external, Hres, Hlen, Nat.eqb_refl.
  cbv beta iota zeta. rewrite returns_lift.
  unfold compute_confusion_matrix. rewrite Hcm. reflexivity.
Qed.

(** The counts of a pair-contingency tuple are not negative. *)
Lemma pair_counts_nonneg (y_true y_pred : labels) (yy yn ny nn : Z) :
  length y_true = length y_pred ->
  pair_counts y_true y_pred = Ok (yy, yn, ny, nn) ->
  (0 <= yy /\ 0 <= yn /\ 0 <= ny /\ 0 <= nn)%Z.
Proof.
  intros Hlen E.
  destruct (pair_counts_total y_true y_pred Hlen) as (c & Ec & Hc & _).
  rewrite E in Ec. injection Ec as <-. exact Hc.
Qed.

Lemma frac_le (a b c d : R) :
  0 < b -> 0 < d -> a * d <= c * b -> a / b <= c / d.
Proof.
  intros Hb Hd H.
  apply (Rmult_le_reg_r (b * d)); [apply Rmult_lt_0_compat; assumption|].
  replace (a / b * (b * d)) with (a * d) by (field; lra).
  replace (c / d * (b * d)) with (c * b) by (field; lra).
  exact H.
Qed.

Section PairScores.

Variables Y A B : R.
Hypothesis HY : 0 < Y.
Hypothesis HA : 0 <= A.
Hypothesis HB : 0 <= B.

Lemma YA_nonneg : 0 <= Y * A.
Proof. apply Rmult_le_pos; lra. Qed.

Lemma YB_nonneg : 0 <= Y * B.
Proof. apply Rmult_le_pos; lra. Qed.

Lemma ss1_le_jaccard : Y / (Y + 2 * (A + B)) <= Y / (Y + A + B).
Proof.
  pose proof YA_nonneg. pose proof YB_nonneg.
  apply frac_le; lra.
Qed.

Lemma jaccard_le_dice : Y / (Y + A + B) <= 2 * Y / (2 * Y + A + B).
Proof.
  pose proof YA_nonneg. pose proof YB_nonneg.
  apply frac_le; lra.
Qed.

Lemma kulczynski_value :
  0.5 * (Y / (Y + B) + Y / (Y + A))
  = Y * (2 * Y + A + B) / (2 * ((Y + A) * (Y + B))).
Proof.
  assert (E : 0.5 = / 2) by lra. rewrite E. field. split; lra.
Qed.

Lemma dice_le_kulczynski :
  2 * Y / (2 * Y + A + B) <= 0.5 * (Y / (Y + B) + Y / (Y + A)).
Proof.
  rewrite kulczynski_value.
  assert (0 < (Y + A) * (Y + B)) by (apply Rmult_lt_0_compat; lra).
  apply frac_le; [lra|lra|].
  replace (Y * (2 * Y + A + B) * (2 * Y + A + B)
           - 2 * Y * (2 * ((Y + A) * (Y + B))))
    with (Y * ((A - B) * (A - B))) by ring.
  assert (0 <= Y * ((A - B) * (A - B))).
  { apply Rmult_le_pos; [lra|]. apply Rle_0_sqr. }
  assert (E : Y * (2 * Y + A + B) * (2 * Y + A + B)
              = 2 * Y * (2 * ((Y + A) * (Y + B)))
                + Y * ((A - B) * (A - B))) by ring.
  lra.
Qed.

Lemma kulczynski_le_1 : 0.5 * (Y / (Y + B) + Y / (Y + A)) <= 1.
Proof.
  assert (Y / (Y + B) <= 1).
  { apply (Rmult_le_reg_r (Y + B)); [lra|].
    unfold Rdiv. rewrite Rmult_assoc, Rinv_l by lra. lra. }
  assert (Y / (Y + A) <= 1).
  { apply (Rmult_le_reg_r (Y + A)); [lra|].
    unfold Rdiv. rewrite Rmult_assoc, Rinv_l by lra. lra. }
  lra.
Qed.

Lemma ss1_nonneg : 0 <= Y / (Y + 2 * (A + B)).
Proof.
  apply Rmult_le_pos; [lra|]. left. apply Rinv_0_lt_compat. lra.
Qed.

End PairScores.

Ltac finite_div :=
  repeat (cbn [Np.add Np.mul];
          match goal with
          | |- context [Np.div (Num ?x) (Num ?y)] =>
              rewrite (ArrFacts.div_finite x y) by lra
          end);
  cbn [Np.add Np.mul Np.round].

(** When some two samples are together in both clusterings (the count
    [yy] of the pair-contingency tuple is positive), at a precision that is
    not negative, four scores of the tuple are numbers ordered as
    0 <= Sokal-Sneath-1 <= Jaccard <= Czekanowski-Dice <= Kulczynski <= 1. *)
Theorem pair_scores_in_order (self : ClusteringMetric)
  (y_true y_pred : option labels) (decimal : option Z) (a b : labels)
  (yy yn ny nn : Z) :
  resolve_external self y_true y_pred = Some (a, b) ->
  length a = length b ->
  pair_counts (fit_transform a) (fit_transform b) = Ok (yy, yn, ny, nn) ->
  (0 < yy)%Z ->
  (0 <= default (self_decimal self) decimal)%Z ->
  exists ss1 j cd k : R,
    returns (sokal_sneath1_score y_true y_pred decimal) self = Ok (Num ss1) /\
    returns (jaccard_score y_true y_pred decimal) self = Ok (Num j) /\
    returns (czekanowski_dice_score y_true y_pred decimal) self
    = Ok (Num cd) /\
    returns (kulczynski_score y_true y_pred decimal) self = Ok (Num k) /\
    0 <= ss1 <= j /\ j <= cd <= k /\ k <= 1.
Proof.
  intros Hres Hlen Hcm Hyy Hd.
  set (d := default (self_decimal self) decimal) in *.
  assert (Hlen' : length (fit_transform a) = length (fit_transform b))
    by (rewrite (length_fit_transform a), (length_fit_transform b);
        exact Hlen).
  destruct (pair_counts_nonneg _ _ _ _ _ _ Hlen' Hcm)
    as (_ & Hyn & Hny & _).
  assert (HY : 0 < IZR yy) by (apply IZR_lt, Hyy).
  assert (HA : 0 <= IZR yn) by (apply IZR_le, Hyn).
  assert (HB : 0 <= IZR ny) by (apply IZR_le, Hny).
  set (Y := IZR yy) in *. set (A := IZR yn) in *. set (B := IZR ny) in *.
  unfold sokal_sneath1_score, jaccard_score, czekanowski_dice_score,
    kulczynski_score.
  rewrite !(with_confusion_matrix_run self y_true y_pred decimal a b _
              yy yn ny nn Hres Hlen Hcm).
  fold Y A B d. cbv beta iota zeta.
  exists (round_R (Y / (Y + 2 * (A + B))) d), (round_R (Y / (Y + A + B)) d),
    (round_R (2 * Y / (2 * Y + A + B)) d),
    (round_R (0.5 * (Y / (Y + B) + Y / (Y + A))) d).
  split; [finite_div; reflexivity|].
  split; [finite_div; reflexivity|].
  split; [finite_div; reflexivity|].
  split; [finite_div; reflexivity|].
  split; [split|split; [split|]].
  - apply round_R_nonneg; [exact Hd|]. apply ss1_nonneg; assumption.
  - apply round_R_mono; [exact Hd|]. apply ss1_le_jaccard; assumption.
  - apply round_R_mono; [exact Hd|]. apply jaccard_le_dice; assumption.
  - apply round_R_mono; [exact Hd|]. apply dice_le_kulczynski; assumption.
  - eapply Rle_trans;
      [apply (round_R_mono _ 1 d Hd), kulczynski_le_1; assumption|].
    rewrite (NpFacts.round_R_IZR 1 d Hd). lra.
Qed.

Lemma pair_scores_in_order_witness :
  resolve_external default_evaluator
    (Some [0; 0; 1; 2]%Z) (Some [5; 5; 7; 7]%Z)
  = Some ([0; 0; 1; 2]%Z, [5; 5; 7; 7]%Z) /\
  length [0; 0; 1; 2]%Z = length [5; 5; 7; 7]%Z /\
  pair_counts (fit_transform [0; 0; 1; 2]%Z) (fit_transform [5; 5; 7; 7]%Z)
  = Ok (1, 0, 1, 4)%Z /\
  (0 < 1)%Z /\
  (0 <= default (self_decimal default_evaluator) None)%Z /\
  exists ss1 j cd k : R,
    returns (sokal_sneath1_score (Some [0; 0; 1; 2]%Z) (Some [5; 5; 7; 7]%Z)
               None) default_evaluator = Ok (Num ss1) /\
    returns (jaccard_score (Some [0; 0; 1; 2]%Z) (Some [5; 5; 7; 7]%Z) None)
            default_evaluator = Ok (Num j) /\
    returns (czekanowski_dice_score (Some [0; 0; 1; 2]%Z)
               (Some [5; 5; 7; 7]%Z) None) default_evaluator
    = Ok (Num cd) /\
    returns (kulczynski_score (Some [0; 0; 1; 2]%Z) (Some [5; 5; 7; 7]%Z)
               None) default_evaluator = Ok (Num k) /\
    0 <= ss1 <= j /\ j <= cd <= k /\ k <= 1.
Proof.
  assert (H1 : (0 < 1)%Z) by lia.
  assert (Hd : (0 <= default (self_decimal default_evaluator) None)%Z)
    by (simpl; lia).
  split; [reflexivity|]. split; [reflexivity|]. split; [reflexivity|].
  split; [exact H1|]. split; [exact Hd|].
  apply (pair_scores_in_order default_evaluator
           (Some [0; 0; 1; 2]%Z) (Some [5; 5; 7; 7]%Z) None
           [0; 0; 1; 2]%Z [5; 5; 7; 7]%Z 1 0 1 4 eq_refl eq_refl eq_refl
           H1 Hd).
Defined.

(** When no two samples are together in both clusterings ([yy = 0]),
    [f_measure_score] returns [nan]: precision plus recall is zero or
    [nan]; [czekanowski_dice_score] returns 0 on the same input as soon as
    some pair is together in one clustering. *)
Theorem f_measure_without_common_pair (self : ClusteringMetric)
  (y_true y_pred : option labels) (decimal : option Z) (a b : labels)
  (yn ny nn : Z) :
  resolve_external self y_true y_pred = Some (a, b) ->
  length a = length b ->
  pair_counts (fit_transform a) (fit_transform b) = Ok (0, yn, ny, nn)%Z ->
  returns (f_measure_score y_true y_pred decimal) self = Ok NaN /\
  ((0 < yn + ny)%Z ->
   returns (czekanowski_dice_score y_true y_pred decimal) self
   = Ok (Num 0)).
Proof.
  intros Hres Hlen Hcm.
  assert (Hlen' : length (fit_transform a) = length (fit_transform b))
    by (rewrite (length_fit_transform a), (length_fit_transform b);
        exact Hlen).
  destruct (pair_counts_nonneg _ _ _ _ _ _ Hlen' Hcm)
    as (_ & Hyn & Hny & _).
  assert (HA : 0 <= IZR yn) by (apply IZR_le, Hyn).
  assert (HB : 0 <= IZR ny) by (apply IZR_le, Hny).
  unfold f_measure_score, czekanowski_dice_score.
  rewrite !(with_confusion_matrix_run self y_true y_pred decimal a b _
              0 yn ny nn Hres Hlen Hcm).
  set (A := IZR yn) in *. set (B := IZR ny) in *.
  cbv beta iota zeta. split.
  - assert (Hp : Np.div (Num 0) (Np.add (Num 0) (Num B)) = NaN
                 \/ Np.div (Num 0) (Np.add (Num 0) (Num B)) = Num 0).
    { cbn [Np.add]. unfold Np.div.
      destruct (Req_dec_T (0 + B) 0).
      - left. unfold Np.sgn. destruct (Rlt_dec 0 0); [lra|]. reflexivity.
      - right. f_equal. field. lra. }
    assert (Hr : Np.div (Num 0) (Np.add (Num 0) (Num A)) = NaN
                 \/ Np.div (Num 0) (Np.add (Num 0) (Num A)) = Num 0).
    { cbn [Np.add]. unfold Np.div.
      destruct (Req_dec_T (0 + A) 0).
      - left. unfold Np.sgn. destruct (Rlt_dec 0 0); [lra|]. reflexivity.
      - right. f_equal. field. lra. }
    destruct Hp as [-> | ->], Hr as [-> | ->]; try reflexivity.
    cbn [Np.mul Np.add]. unfold Np.div.
    destruct (Req_dec_T (0 + 0) 0) as [_|H]; [|lra].
    unfold Np.sgn.
    destruct (Rlt_dec 0 (2 * 0 * 0)); [lra|].
    destruct (Rlt_dec (2 * 0 * 0) 0); [lra|]. reflexivity.
  - intros Hpos.
    assert (0 < A + B).
    { unfold A, B. rewrite <- plus_IZR. apply IZR_lt, Hpos. }
    cbn [Np.mul Np.add]. rewrite ArrFacts.div_finite by lra.
    cbn [Np.round]. do 2 f_equal.
    replace (2 * 0 / (2 * 0 + A + B)) with 0 by (field; lra).
    apply NpFacts.round_R_0.
Qed.

Lemma f_measure_without_common_pair_witness :
  resolve_external default_evaluator
    (Some [0; 0; 1]%Z) (Some [5; 6; 7]%Z)
  = Some ([0; 0; 1]%Z, [5; 6; 7]%Z) /\
  length [0; 0; 1]%Z = length [5; 6; 7]%Z /\
  pair_counts (fit_transform [0; 0; 1]%Z) (fit_transform [5; 6; 7]%Z)
  = Ok (0, 1, 0, 2)%Z /\
  returns (f_measure_score (Some [0; 0; 1]%Z) (Some [5; 6; 7]%Z) None)
          default_evaluator = Ok NaN /\
  ((0 < 1 + 0)%Z ->
   returns (czekanowski_dice_score (Some [0; 0; 1]%Z) (Some [5; 6; 7]%Z)
              None) default_evaluator
   = Ok (Num 0)).
Proof.
  split; [reflexivity|]. split; [reflexivity|]. split; [reflexivity|].
  apply (f_measure_without_common_pair default_evaluator
           (Some [0; 0; 1]%Z) (Some [5; 6; 7]%Z) None
           [0; 0; 1]%Z [5; 6; 7]%Z 1 0 2 eq_refl eq_refl eq_refl).
Defined.

(** *** The purity score *)

Lemma take_where (a : labels) :
  forall (pre b : labels) (c : Z),
    length a = length b ->
    take (pre ++ b) (where_from (length pre) a c)
    = Ok (class_predictions_of a b c).
Proof.
  induction a as [|x a IH]; intros pre b c Hlen.
  - reflexivity.
  - destruct b as [|u b]; [discriminate|].
    injection Hlen as Hlen.
    assert (Hnext : take (pre ++ u :: b) (where_from (S (length pre)) a c)
                    = Ok (class_predictions_of a b c)).
    { specialize (IH (pre ++ [u]) b c Hlen).
      rewrite <- app_assoc, length_app in IH. cbn [length app] in IH.
      rewrite Nat.add_1_r in IH. exact IH. }
    unfold class_predictions_of.
    cbn [where_from combine List.filter fst].
    destruct (x =? c)%Z.
    + unfold take in *. cbn [mapM map snd]. unfold getitem at 1.
      rewrite nth_error_app2, Nat.sub_diag by lia.
      cbn [nth_error bind]. rewrite Hnext. reflexivity.
    + exact Hnext.
Qed.

Lemma fold_max_bounds (l : list Z) (h L : Z) :
  (h <= L)%Z -> (forall e, In e l -> (e <= L)%Z) ->
  (h <= fold_left Z.max l h <= L)%Z.
Proof.
  revert h. induction l as [|e l IH]; intros h Hh Hl; simpl; [lia|].
  assert (He : (e <= L)%Z) by (apply Hl; left; reflexivity).
  destruct (IH (Z.max h e)) as [H1 H2];
    [lia|intros y Hy; apply Hl; right; exact Hy|].
  lia.
Qed.

Lemma fold_max_mono (l : list Z) (m' m : Z) :
  (m' <= m)%Z -> (m' <= fold_left Z.max l m)%Z.
Proof.
  revert m. induction l as [|z l IH]; intros m Hm; simpl; [exact Hm|].
  apply IH. lia.
Qed.

Lemma fold_max_ge (l : list Z) (h e : Z) :
  In e l -> (e <= fold_left Z.max l h)%Z.
Proof.
  revert h. induction l as [|y l IH]; intros h; [contradiction|].
  intros [->|He]; simpl.
  - apply fold_max_mono. lia.
  - apply IH, He.
Qed.

Lemma occurrences_bounds (v : Z) (x : labels) :
  (0 <= occurrences v x <= Z.of_nat (length x))%Z.
Proof.
  unfold occurrences.
  pose proof (List.filter_length_le (Z.eqb v) x). lia.
Qed.

Lemma majority_bounds (x : labels) :
  (0 <= majority x <= Z.of_nat (length x))%Z.
Proof.
  destruct x as [|h t]; [simpl; lia|].
  unfold majority.
  pose proof (occurrences_bounds 0 (h :: t)) as H0.
  destruct (fold_max_bounds
              (map (fun k => occurrences (Z.of_nat k) (h :: t))
                   (seq 1 (Z.to_nat (fold_left Z.max t h))))
              (occurrences 0 (h :: t)) (Z.of_nat (length (h :: t))))
    as [H1 H2]; [lia| |lia].
  intros e He. apply in_map_iff in He. destruct He as (k & <- & _).
  apply occurrences_bounds.
Qed.

(** Predicted labels that are all the same are their own majority. *)
Lemma majority_of_one_label (x : labels) (v : Z) :
  (0 <= v)%Z -> (forall e, In e x -> e = v) ->
  majority x = Z.of_nat (length x).
Proof.
  intros Hv Hall. destruct x as [|h t]; [reflexivity|].
  pose proof (majority_bounds (h :: t)) as [_ Hle].
  assert (Hocc : occurrences v (h :: t) = Z.of_nat (length (h :: t))).
  { unfold occurrences. f_equal. f_equal. apply RegressionFacts.filter_all.
    intros e He. rewrite (Hall e He). apply Z.eqb_refl. }
  assert (Hmax : fold_left Z.max t h = v).
  { assert (Hh : h = v) by (apply Hall; left; reflexivity).
    destruct (fold_max_bounds t h v) as [H1 H2]; [lia| |lia].
    intros e He. rewrite (Hall e (or_intror He)). lia. }
  unfold majority in *. rewrite Hmax in *.
  destruct (Z.eq_dec v 0%Z) as [->|Hnz].
  - rewrite Hocc in *. cbn [Z.to_nat seq map fold_left] in *. reflexivity.
  - assert (Hge : (occurrences v (h :: t)
                   <= fold_left Z.max
                        (map (fun k => occurrences (Z.of_nat k) (h :: t))
                             (seq 1 (Z.to_nat v)))
                        (occurrences 0 (h :: t)))%Z).
    { apply fold_max_ge. apply in_map_iff. exists (Z.to_nat v). split.
      - rewrite Z2Nat.id by lia. reflexivity.
      - apply in_seq. lia. }
    lia.
Qed.

Lemma bincount_max (x : labels) :
  x <> [] -> (forall e, In e x -> (0 <= e)%Z) ->
  (class_counts ← np_bincount x; np_max_int class_counts) = Ok (majority x).
Proof.
  intros Hne Hpos. destruct x as [|h t]; [contradiction|].
  unfold np_bincount.
  assert (E : existsb (fun v => (v <? 0)%Z) (h :: t) = false).
  { apply not_true_is_false. intros H. apply existsb_exists in H.
    destruct H as (e & He & Hlt). apply Z.ltb_lt in Hlt.
    specialize (Hpos e He). lia. }
  rewrite E. reflexivity.
Qed.

Lemma increasing_insert (x : Z) (l : list Z) :
  increasing l -> increasing (insert_sorted x l).
Proof.
  induction l as [|a l IH]; intros H.
  - simpl. split; [intros y []|exact I].
  - destruct H as [Ha Hl]. cbn [insert_sorted].
    destruct (x <? a)%Z eqn:E1.
    + apply Z.ltb_lt in E1. split; [|split; assumption].
      intros y [<-|Hy]; [exact E1|]. specialize (Ha y Hy). lia.
    + destruct (x =? a)%Z eqn:E2; [split; assumption|].
      apply Z.ltb_ge in E1. apply Z.eqb_neq in E2.
      split; [|apply IH, Hl].
      intros y Hy. apply in_insert_sorted in Hy.
      destruct Hy as [->|Hy]; [lia|apply Ha, Hy].
Qed.

Lemma np_unique_NoDup (l : labels) : List.NoDup (np_unique l).
Proof.
  assert (H : increasing (np_unique l)).
  { induction l as [|x l IH]; [exact I|]. apply increasing_insert, IH. }
  induction (np_unique l) as [|x u IH]; [constructor|].
  destruct H as [Hx Hu]. constructor; [|apply IH, Hu].
  intros Hin. specialize (Hx x Hin). lia.
Qed.

Lemma Zsum_indicator (x : Z) (U : list Z) :
  List.NoDup U ->
  Zsum (map (fun c => if (x =? c)%Z then 1 else 0)%Z U)
  = if in_dec Z.eq_dec x U then 1%Z else 0%Z.
Proof.
  induction 1 as [|c U Hc _ IH]; [reflexivity|].
  cbn [map Zsum fold_right]. unfold Zsum in IH. rewrite IH.
  destruct (Z.eqb_spec x c) as [->|Hne].
  - destruct (in_dec Z.eq_dec c U) as [Hin|_]; [contradiction|].
    destruct (in_dec Z.eq_dec c (c :: U)) as [_|Hn]; [lia|].
    exfalso. apply Hn. left. reflexivity.
  - destruct (in_dec Z.eq_dec x U) as [Hin|Hn];
      destruct (in_dec Z.eq_dec x (c :: U)) as [Hin'|Hn']; try lia.
    + exfalso. apply Hn'. right. exact Hin.
    + destruct Hin' as [->|Hin']; [contradiction|contradiction].
Qed.

(** The classes partition the samples. *)
Lemma classes_partition (K : list (Z * Z)) (U : list Z) :
  List.NoDup U -> (forall tp, In tp K -> In (fst tp) U) ->
  Zsum (map (fun c => Z.of_nat (length
               (List.filter (fun tp : Z * Z => (fst tp =? c)%Z) K))) U)
  = Z.of_nat (length K).
Proof.
  intros HU. induction K as [|tp K IH]; intros Hin.
  - cbn [List.filter length]. clear.
    induction U as [|c U IHU]; [reflexivity|].
    cbn [map Zsum fold_right]. unfold Zsum in IHU. rewrite IHU.
    reflexivity.
  - assert (E : forall c,
              Z.of_nat (length (List.filter
                          (fun tp0 : Z * Z => (fst tp0 =? c)%Z) (tp :: K)))
              = ((if (fst tp =? c)%Z then 1 else 0)
                 + Z.of_nat (length (List.filter
                              (fun tp0 : Z * Z => (fst tp0 =? c)%Z) K)))%Z).
    { intros c. cbn [List.filter]. destruct (fst tp =? c)%Z;
        cbn [length]; lia. }
    rewrite (map_ext _ _ E).
    assert (S : forall (f g : Z -> Z) (l : list Z),
              Zsum (map (fun c => f c + g c)%Z l)
              = (Zsum (map f l) + Zsum (map g l))%Z).
    { intros f g l. induction l as [|c l IHl]; [reflexivity|].
      cbn [map Zsum fold_right]. unfold Zsum in IHl. rewrite IHl. lia. }
    rewrite S, IH by (intros tp0 H0; apply Hin; right; exact H0).
    rewrite (Zsum_indicator (fst tp) U HU).
    destruct (in_dec Z.eq_dec (fst tp) U) as [_|Hn].
    + cbn [length]. lia.
    + exfalso. apply Hn, Hin. left. reflexivity.
Qed.

Lemma Zsum_le (f g : Z -> Z) (l : list Z) :
  (forall c, In c l -> (f c <= g c)%Z) ->
  (Zsum (map f l) <= Zsum (map g l))%Z.
Proof.
  induction l as [|c l IH]; intros H; [simpl; lia|].
  cbn [map Zsum fold_right].
  pose proof (H c (or_introl eq_refl)).
  assert (Zsum (map f l) <= Zsum (map g l))%Z
    by (apply IH; intros y Hy; apply H; right; exact Hy).
  unfold Zsum in *. lia.
Qed.

Lemma Zsum_nonneg (f : Z -> Z) (l : list Z) :
  (forall c, (0 <= f c)%Z) -> (0 <= Zsum (map f l))%Z.
Proof.
  intros H. induction l as [|c l IH]; [simpl; lia|].
  cbn [map Zsum fold_right]. specialize (H c). unfold Zsum in *. lia.
Qed.

Lemma in_class_predictions (a b : labels) (c u : Z) :
  In u (class_predictions_of a b c) <-> In (c, u) (combine a b).
Proof.
  unfold class_predictions_of. rewrite in_map_iff. split.
  - intros ([x v] & <- & H). apply filter_In in H. destruct H as [H E].
    cbn [fst snd] in *. apply Z.eqb_eq in E. subst x. exact H.
  - intros H. exists (c, u). split; [reflexivity|].
    apply filter_In. split; [exact H|]. apply Z.eqb_refl.
Qed.

Lemma in_combine_exists (a b : labels) (x : Z) :
  length a = length b -> In x a -> exists u, In (x, u) (combine a b).
Proof.
  revert b. induction a as [|y a IH]; intros [|v b] Hlen Hx;
    try discriminate; [contradiction|].
  injection Hlen as Hlen. destruct Hx as [->|Hx].
  - exists v. left. reflexivity.
  - destruct (IH b Hlen Hx) as (u & Hu). exists u. right. exact Hu.
Qed.

(** The loop of [purity_score]: the majorities of the classes, added. *)
Lemma purity_loop (a b : labels) :
  length a = length b -> (forall e, In e b -> (0 <= e)%Z) ->
  for_each (np_unique a) (fun c purity =>
    let class_indices := np_where_eq a c in
    class_predictions ← take b class_indices;
    class_counts ← np_bincount class_predictions;
    m ← np_max_int class_counts;
    mret (purity + m)%Z) 0%Z
  = Ok (Zsum (map (fun c => majority (class_predictions_of a b c))
                  (np_unique a))).
Proof.
  intros Hlen Hpos.
  match goal with
  | |- for_each ?U ?body _ = _ =>
      destruct (for_each_measure (fun _ : Z => True) (fun s : Z => s)
                  (fun c => majority (class_predictions_of a b c)) U body)
        with (s := 0%Z) as (s' & E & _ & M)
  end.
  - intros c s Hc _. apply (proj1 (in_np_unique c a)) in Hc.
    exists (s + majority (class_predictions_of a b c))%Z.
    split; [|split; [exact I|reflexivity]].
    cbv zeta. unfold np_where_eq.
    pose proof (take_where a [] b c Hlen) as Ht.
    cbn [app length] in Ht. rewrite Ht, RegressionFacts.bind_Ok.
    pose proof (bincount_max (class_predictions_of a b c)) as Hb.
    unfold mbind, result_bind, bind in Hb |- *.
    destruct (np_bincount (class_predictions_of a b c)) as [counts|e].
    + rewrite Hb; [reflexivity| |].
      * destruct (in_combine_exists a b c Hlen Hc) as (u & Hu).
        apply in_class_predictions in Hu. intros E0. rewrite E0 in Hu.
        contradiction.
      * intros e He. apply in_class_predictions in He.
        apply in_combine_r in He. apply Hpos, He.
    + exfalso.
      assert (Raise e = Ok (majority (class_predictions_of a b c)));
        [|discriminate].
      apply Hb.
      * destruct (in_combine_exists a b c Hlen Hc) as (u & Hu).
        apply in_class_predictions in Hu. intros E0. rewrite E0 in Hu.
        contradiction.
      * intros e0 He. apply in_class_predictions in He.
        apply in_combine_r in He. apply Hpos, He.
  - exact I.
  - rewrite E. f_equal. lia.
Qed.

Lemma purity_sum_bounds (a b : labels) :
  length a = length b ->
  (0 <= Zsum (map (fun c => majority (class_predictions_of a b c))
                  (np_unique a))
   <= Z.of_nat (length a))%Z.
Proof.
  intros Hlen. split.
  - apply Zsum_nonneg. intros c. apply majority_bounds.
  - assert (E : Z.of_nat (length a) = Z.of_nat (length (combine a b)))
      by (rewrite length_combine; lia).
    rewrite E, <- (classes_partition (combine a b) (np_unique a)).
    + apply Zsum_le. intros c _. unfold class_predictions_of.
      pose proof (majority_bounds
                    (map snd (List.filter
                       (fun tp : Z * Z => (fst tp =? c)%Z) (combine a b))))
        as H.
      rewrite length_map in H. lia.
    + apply np_unique_NoDup.
    + intros [x u] H. apply in_combine_l in H. apply (proj2 (in_np_unique x a)), H.
Qed.

Lemma purity_sum_determined (a b : labels) :
  length a = length b -> (forall e, In e b -> (0 <= e)%Z) ->
  determined_by a b ->
  Zsum (map (fun c => majority (class_predictions_of a b c)) (np_unique a))
  = Z.of_nat (length a).
Proof.
  intros Hlen Hpos Hdet.
  assert (E : Z.of_nat (length a) = Z.of_nat (length (combine a b)))
    by (rewrite length_combine; lia).
  rewrite E, <- (classes_partition (combine a b) (np_unique a)).
  - f_equal. apply map_ext_in. intros c Hc. apply (proj1 (in_np_unique c a)) in Hc.
    destruct (in_combine_exists a b c Hlen Hc) as (v & Hv).
    rewrite (majority_of_one_label (class_predictions_of a b c) v).
    + unfold class_predictions_of. rewrite length_map. reflexivity.
    + apply Hpos. apply in_combine_r in Hv. exact Hv.
    + intros e He. apply in_class_predictions in He.
      apply (Hdet c e v He Hv).
  - apply np_unique_NoDup.
  - intros [x u] H. apply in_combine_l in H. apply (proj2 (in_np_unique x a)), H.
Qed.

(** Encoding keeps labels apart. *)
Lemma index_of_inj (x y : Z) (cls : list Z) :
  In x cls -> In y cls -> index_of x cls = index_of y cls -> x = y.
Proof.
  induction cls as [|c cls IH]; [contradiction|].
  intros Hx Hy. cbn [index_of].
  destruct (Z.eqb_spec x c) as [->|Hxc], (Z.eqb_spec y c) as [->|Hyc];
    try discriminate; try reflexivity.
  intros E. injection E as E.
  destruct Hx as [Hx|Hx]; [congruence|].
  destruct Hy as [Hy|Hy]; [congruence|].
  apply IH; assumption.
Qed.

Lemma combine_map2 {A B A' B'} (f : A -> A') (g : B -> B')
  (a : list A) (b : list B) :
  combine (map f a) (map g b)
  = map (fun tp => (f (fst tp), g (snd tp))) (combine a b).
Proof.
  revert b. induction a as [|x a IH]; intros [|u b]; simpl;
    try reflexivity.
  f_equal. apply IH.
Qed.

Lemma determined_encoded (a b : labels) :
  determined_by a b -> determined_by (fit_transform a) (fit_transform b).
Proof.
  intros Hdet x u v Hu Hv.
  unfold fit_transform, transform, fit in Hu, Hv. cbn [classes_] in Hu, Hv.
  rewrite combine_map2 in Hu, Hv.
  apply in_map_iff in Hu. destruct Hu as ([x1 u1] & E1 & H1).
  apply in_map_iff in Hv. destruct Hv as ([x2 u2] & E2 & H2).
  cbn [fst snd] in E1, E2.
  injection E1 as Ex1 Eu1. injection E2 as Ex2 Eu2.
  assert (Hx : x1 = x2).
  { apply (index_of_inj x1 x2 (np_unique a)).
    - apply (proj2 (in_np_unique x1 a)). apply in_combine_l in H1. exact H1.
    - apply (proj2 (in_np_unique x2 a)). apply in_combine_l in H2. exact H2.
    - apply Nat2Z.inj. congruence. }
  subst x2. rewrite (Hdet x1 u1 u2 H1 H2) in Eu1. congruence.
Qed.

Lemma encoded_nonneg (y : labels) (e : Z) :
  In e (fit_transform y) -> (0 <= e)%Z.
Proof.
  unfold fit_transform, transform. intros H. apply in_map_iff in H.
  destruct H as (x & <- & _). lia.
Qed.

(** [purity_score] of vectors of one length, at a precision that is not
    negative.  Without samples it raises [ZeroDivisionError].  With
    samples it returns a number in [0, 1], and exactly 1 when the predicted
    label is a function of the true label: when each true class lies in a
    single predicted cluster, as it does when there is one predicted cluster
    only. *)
Theorem purity_score_range (self : ClusteringMetric)
  (y_true y_pred : option labels) (decimal : option Z) (a b : labels) :
  resolve_external self y_true y_pred = Some (a, b) ->
  length a = length b ->
  (0 <= default (self_decimal self) decimal)%Z ->
  (a = [] ->
   returns (purity_score y_true y_pred decimal) self
   = Raise ZeroDivisionError) /\
  (a <> [] ->
   exists p : R,
     returns (purity_score y_true y_pred decimal) self = Ok (Num p) /\
     0 <= p <= 1 /\
     (determined_by a b -> p = 1)).
Proof.
  intros Hres Hlen Hd.
  set (d := default (self_decimal self) decimal) in *.
  assert (Hlen' : length (fit_transform a) = length (fit_transform b))
    by (rewrite (length_fit_transform a), (length_fit_transform b);
        exact Hlen).
  pose proof (purity_loop (fit_transform a) (fit_transform b) Hlen'
                (encoded_nonneg b)) as Hloop.
  pose proof (purity_sum_bounds (fit_transform a) (fit_transform b) Hlen')
    as [Hlo Hhi].
  set (purity := Zsum (map (fun c => majority
                  (class_predictions_of (fit_transform a) (fit_transform b) c))
                  (np_unique (fit_transform a)))) in *.
  assert (Hrun : returns (purity_score y_true y_pred decimal) self
                 = returns (r ← lift (truediv (IZR purity)
                                        (IZR (Z.of_nat (length a))));
                            mret (Np.round (Num r) d))
                           (with_le self [fit a; fit b])).
  { unfold purity_score.
    rewrite returns_external, Hres, Hlen, Nat.eqb_refl.
    cbv beta iota zeta. rewrite returns_lift.
    match goal with
    | |- context [for_each ?U ?body ?s0] =>
        replace (for_each U body s0) with (Ok purity : result Z)
          by (symmetry; exact Hloop)
    end.
    rewrite (length_fit_transform a), ?Hlen. reflexivity. }
  rewrite Hrun, returns_lift. clear Hrun. split.
  - intros ->. unfold truediv.
    destruct (Req_dec_T (IZR (Z.of_nat (length (@nil Z)))) 0) as [_|H];
      [reflexivity|].
    exfalso. apply H. reflexivity.
  - intros Hne.
    assert (HN : 0 < IZR (Z.of_nat (length a))).
    { apply IZR_lt. destruct a; [contradiction|]. cbn [length]. lia. }
    rewrite (length_fit_transform a) in Hhi.
    apply IZR_le in Hlo, Hhi.
    unfold truediv.
    destruct (Req_dec_T (IZR (Z.of_nat (length a))) 0) as [E0|_]; [lra|].
    rewrite returns_mret. cbn [Np.round].
    exists (round_R (IZR purity / IZR (Z.of_nat (length a))) d).
    split; [reflexivity|]. split.
    + apply (round_R_between _ 0 1 d Hd). split.
      * apply Rmult_le_pos; [exact Hlo|]. left. apply Rinv_0_lt_compat, HN.
      * apply (Rmult_le_reg_r (IZR (Z.of_nat (length a)))); [exact HN|].
        unfold Rdiv. rewrite Rmult_assoc, Rinv_l by lra. lra.
    + intros Hdet.
      pose proof (purity_sum_determined (fit_transform a) (fit_transform b)
                    Hlen' (encoded_nonneg b) (determined_encoded a b Hdet))
        as E.
      fold purity in E. rewrite E, (length_fit_transform a).
      unfold Rdiv. rewrite Rinv_r by lra.
      apply (NpFacts.round_R_IZR 1 d Hd).
Qed.

Lemma purity_score_range_witness :
  resolve_external default_evaluator
    (Some [0; 0; 1; 2]%Z) (Some [5; 5; 7; 7]%Z)
  = Some ([0; 0; 1; 2]%Z, [5; 5; 7; 7]%Z) /\
  length [0; 0; 1; 2]%Z = length [5; 5; 7; 7]%Z /\
  (0 <= default (self_decimal default_evaluator) None)%Z /\
  [0; 0; 1; 2]%Z <> [] /\
  determined_by [0; 0; 1; 2]%Z [5; 5; 7; 7]%Z /\
  returns (purity_score (Some [0; 0; 1; 2]%Z) (Some [5; 5; 7; 7]%Z) None)
          default_evaluator
  = Ok (Num 1).
Proof.
  assert (Hd : (0 <= default (self_decimal default_evaluator) None)%Z)
    by (simpl; lia).
  assert (Hne : [0; 0; 1; 2]%Z <> []) by discriminate.
  assert (Hdet : determined_by [0; 0; 1; 2]%Z [5; 5; 7; 7]%Z).
  { intros x u v Hu Hv. simpl in Hu, Hv.
    repeat match goal with
           | H : _ \/ _ |- _ => destruct H
           | H : (_, _) = (_, _) |- _ => injection H as ? ?
           | H : False |- _ => contradiction
           end; lia. }
  split; [reflexivity|]. split; [reflexivity|]. split; [exact Hd|].
  split; [exact Hne|]. split; [exact Hdet|].
  destruct (purity_score_range default_evaluator
              (Some [0; 0; 1; 2]%Z) (Some [5; 5; 7; 7]%Z) None
              [0; 0; 1; 2]%Z [5; 5; 7; 7]%Z eq_refl eq_refl Hd)
    as [_ H].
  destruct (H Hne) as (p & E & _ & Hp).
  rewrite E, (Hp Hdet). reflexivity.
Defined.

(** *** The Baker-Hubert Gamma index *)

(** A loop over a range whose every iteration takes the invariant at [i]
    to the invariant at [i + 1]. *)
Lemma for_range_inv {S} (P : nat -> S -> Prop) (body : nat -> S -> result S)
  (hi : nat) :
  forall (k lo : nat), (lo + k = hi)%nat ->
  (forall i s, (lo <= i < hi)%nat -> P i s ->
     exists s', body i s = Ok s' /\ P (Datatypes.S i) s') ->
  forall s, P lo s ->
    exists s', for_each (seq lo k) body s = Ok s' /\ P hi s'.
Proof.
  induction k as [|k IH]; intros lo Hk Hbody s Hs.
  - exists s. split; [reflexivity|]. replace hi with lo by lia. exact Hs.
  - cbn [seq for_each].
    destruct (Hbody lo s ltac:(lia) Hs) as (s1 & E1 & P1).
    rewrite E1. cbn [bind].
    apply (IH (Datatypes.S lo)); [lia| |exact P1].
    intros i t Hi. apply Hbody. lia.
Qed.

Lemma two_n_pairs (N : Z) : (2 * (N * (N - 1) / 2) = N * (N - 1))%Z.
Proof.
  destruct (Z.Even_or_Odd N) as [[k ->]|[k ->]].
  - replace (2 * k * (2 * k - 1))%Z with (k * (2 * k - 1) * 2)%Z by ring.
    rewrite Z.div_mul by lia. ring.
  - replace ((2 * k + 1) * (2 * k + 1 - 1))%Z with (k * (2 * k + 1) * 2)%Z
      by ring.
    rewrite Z.div_mul by lia. ring.
Qed.

Lemma insert_repeat {A} (x : A) (n i : nat) :
  <[i := x]> (repeat x n) = repeat x n.
Proof.
  revert i. induction n as [|n IH]; intros [|i]; cbn; try reflexivity.
  f_equal. apply IH.
Qed.

Lemma setitem_lt {A} (l : list A) (i : nat) (v : A) :
  (i < length l)%nat -> setitem l i v = Ok (<[i := v]> l).
Proof.
  intros H. unfold setitem.
  destruct (Nat.ltb_spec i (length l)); [reflexivity|lia].
Qed.

Lemma length_list_insert {A} (l : list A) (i : nat) (v : A) :
  length (<[i := v]> l) = length l.
Proof.
  revert i. induction l as [|x l IH]; intros [|i]; cbn; try reflexivity.
  f_equal. apply IH.
Qed.

(** The pair ([idx], [jdx]) has a place in the two arrays. *)
Lemma pair_index_in_range (N n idx jdx index : nat) :
  (2 * Z.of_nat n = Z.of_nat N * (Z.of_nat N - 1))%Z ->
  (idx < jdx < N)%nat ->
  (2 * Z.of_nat index
   = Z.of_nat idx * (2 * Z.of_nat N - Z.of_nat idx - 1)
     + 2 * (Z.of_nat jdx - Z.of_nat idx - 1))%Z ->
  (index < n)%nat.
Proof.
  intros Hn Hij Hindex.
  assert (H : (2 * Z.of_nat index < 2 * Z.of_nat n)%Z); [|lia].
  rewrite Hn, Hindex.
  set (i := Z.of_nat idx). set (j := Z.of_nat jdx). set (M := Z.of_nat N).
  assert (Hi : (0 <= i)%Z) by (unfold i; lia).
  assert (Hj : (i < j)%Z) by (unfold i, j; lia).
  assert (HM : (j < M)%Z) by (unfold j, M; lia).
  assert (Hsq : (0 <= (M - i - 2) * (M - i - 2))%Z) by apply Z.square_nonneg.
  nia.
Qed.

Section FirstLoop.

Variable X : matrix.
Variable y_pred : labels.
Variable zeros_only : bool.
Variable n : nat.

Hypothesis Hlen : (length X <= length y_pred)%nat.
Hypothesis Hn :
  (2 * Z.of_nat n = Z.of_nat (length X) * (Z.of_nat (length X) - 1))%Z.
Hypothesis Hsame :
  zeros_only = true ->
  forall i j x y, nth_error y_pred i = Some x -> nth_error y_pred j = Some y ->
                  x = y.

Lemma pair_step (idx jdx : nat) (s : list R * list R * nat) :
  (idx < jdx < length X)%nat ->
  filling (length X) n zeros_only idx jdx s ->
  exists s',
    (let '(distances, binary_vector, index) := s in
     xi ← getitem X idx;
     xj ← getitem X jdx;
     distances ← setitem distances index (norm_diff xi xj);
     pi ← getitem y_pred idx;
     pj ← getitem y_pred jdx;
     binary_vector ← setitem binary_vector index
                       (if (pi =? pj)%Z then 0 else 1);
     mret (distances, binary_vector, Datatypes.S index)) = Ok s' /\
    filling (length X) n zeros_only idx (Datatypes.S jdx) s'.
Proof.
  intros Hij. destruct s as [[dist bin] index].
  intros (Hd & Hb & Hindex & Hz).
  pose proof (pair_index_in_range _ _ _ _ _ Hn Hij Hindex) as Hlt.
  destruct (getitem_lt X idx ltac:(lia)) as (xi & Exi).
  destruct (getitem_lt X jdx ltac:(lia)) as (xj & Exj).
  destruct (getitem_lt y_pred idx ltac:(lia)) as (pi & Epi).
  destruct (getitem_lt y_pred jdx ltac:(lia)) as (pj & Epj).
  rewrite Exi, Exj, !RegressionFacts.bind_Ok.
  rewrite (setitem_lt dist index) by lia.
  rewrite Epi, Epj, !RegressionFacts.bind_Ok.
  rewrite (setitem_lt bin index) by lia.
  rewrite !RegressionFacts.bind_Ok.
  eexists. split; [reflexivity|].
  unfold filling. rewrite !length_list_insert.
  split; [exact Hd|]. split; [exact Hb|]. split; [lia|].
  intros Hzo. rewrite (Hz Hzo).
  assert (E : pi = pj).
  { unfold getitem in Epi, Epj.
    destruct (nth_error y_pred idx) as [x|] eqn:E1; [|discriminate].
    destruct (nth_error y_pred jdx) as [y|] eqn:E2; [|discriminate].
    injection Epi as <-. injection Epj as <-.
    apply (Hsame Hzo idx jdx x y E1 E2). }
  rewrite E, Z.eqb_refl. apply insert_repeat.
Qed.

Lemma first_loop :
  exists dist bin index,
    for_each (range 0 (Z.to_nat (Z.of_nat (length X) - 1))) (fun idx =>
      for_each (range (idx + 1) (Z.to_nat (Z.of_nat (length X))))
        (fun jdx '(distances, binary_vector, index) =>
           xi ← getitem X idx;
           xj ← getitem X jdx;
           distances ← setitem distances index (norm_diff xi xj);
           pi ← getitem y_pred idx;
           pj ← getitem y_pred jdx;
           binary_vector ← setitem binary_vector index
                             (if (pi =? pj)%Z then 0 else 1);
           mret (distances, binary_vector, Datatypes.S index)))
      (repeat 0 n, repeat 0 n, 0%nat)
    = Ok (dist, bin, index) /\
    length dist = n /\ length bin = n /\
    (zeros_only = true -> bin = repeat 0 n).
Proof.
  set (N := length X) in *.
  unfold range. rewrite Nat2Z.id, Nat.sub_0_r.
  replace (Z.to_nat (Z.of_nat N - 1)) with (N - 1)%nat by lia.
  match goal with
  | |- exists u v w, for_each _ ?body ?s0 = _ /\ _ =>
      destruct (for_range_inv
                  (fun idx s => filling N n zeros_only idx (idx + 1) s)
                  body (N - 1) (N - 1) 0) with (s := s0)
        as ([[dist bin] index] & E & (Hd & Hb & _ & Hz))
  end.
  - lia.
  - intros idx s Hidx Hs.
    match goal with
    | |- exists s', for_each _ ?body _ = _ /\ _ =>
        destruct (for_range_inv
                    (fun jdx t => filling N n zeros_only idx jdx t)
                    body N (N - (idx + 1)) (idx + 1)) with (s := s)
          as (s' & E' & Hs')
    end.
    + lia.
    + intros jdx t Hjdx Ht. apply pair_step; [lia|exact Ht].
    + exact Hs.
    + exists s'. split; [exact E'|].
      destruct s' as [[dist bin] index].
      destruct Hs' as (Hd & Hb & Hindex & Hz).
      unfold filling. split; [exact Hd|]. split; [exact Hb|].
      split; [|exact Hz]. nia.
  - unfold filling. rewrite !repeat_length.
    split; [reflexivity|]. split; [reflexivity|]. split; [lia|].
    intros _. reflexivity.
  - exists dist, bin, index. repeat split; assumption.
Qed.

End FirstLoop.

(** The comparisons of the second loop: both counters stay non-negative,
    and at zero when no pair lies between two clusters. *)
Lemma second_loop (dist bin : list R) (n_pairs : Z) :
  length dist = Z.to_nat n_pairs -> length bin = Z.to_nat n_pairs ->
  exists s_plus s_minus : Z,
    for_each (range 0 (Z.to_nat (n_pairs - 1))) (fun idx =>
      for_each (range (idx + 1) (Z.to_nat n_pairs))
        (fun jdx '(s_plus, s_minus) =>
           bi ← getitem bin idx;
           if Req_dec_T bi 0 then
             bj ← getitem bin jdx;
             if Req_dec_T bj 1 then
               di ← getitem dist idx;
               dj ← getitem dist jdx;
               mret (s_plus + (if Rlt_dec di dj then 1 else 0),
                     s_minus + (if Rlt_dec dj di then 1 else 0))%Z
             else mret (s_plus, s_minus)
           else mret (s_plus, s_minus))) (0, 0)%Z
    = Ok (s_plus, s_minus) /\
    (0 <= s_plus)%Z /\ (0 <= s_minus)%Z /\
    (bin = repeat 0 (Z.to_nat n_pairs) -> s_plus = 0%Z /\ s_minus = 0%Z).
Proof.
  intros Hd Hb.
  set (P := fun s : Z * Z =>
              (0 <= fst s)%Z /\ (0 <= snd s)%Z /\
              (bin = repeat 0 (Z.to_nat n_pairs) -> s = (0, 0)%Z)).
  match goal with
  | |- exists u v, for_each ?xs ?body ?s0 = _ /\ _ =>
      destruct (for_each_measure P (fun _ => 0%Z) (fun _ : nat => 0%Z)
                  xs body) with (s := s0)
        as ([sp sm] & E & (Hp & Hm & Hz) & _)
  end.
  - intros idx s Hidx Hs. apply in_range in Hidx.
    match goal with
    | |- exists s', for_each ?xs ?body _ = _ /\ _ =>
        destruct (for_each_measure P (fun _ => 0%Z) (fun _ : nat => 0%Z)
                    xs body) with (s := s)
          as (s' & E' & Hs' & _)
    end.
    + intros jdx [sp sm] Hjdx (Hp & Hm & Hz). apply in_range in Hjdx.
      cbn [fst snd] in Hp, Hm.
      destruct (getitem_lt bin idx ltac:(lia)) as (bi & Ebi).
      destruct (getitem_lt bin jdx ltac:(lia)) as (bj & Ebj).
      destruct (getitem_lt dist idx ltac:(lia)) as (di & Edi).
      destruct (getitem_lt dist jdx ltac:(lia)) as (dj & Edj).
      rewrite Ebi, RegressionFacts.bind_Ok.
      destruct (Req_dec_T bi 0) as [_|_].
      * rewrite Ebj, RegressionFacts.bind_Ok.
        destruct (Req_dec_T bj 1) as [Hbj|_].
        -- rewrite Edi, Edj, !RegressionFacts.bind_Ok.
           eexists. split; [reflexivity|]. split; [|reflexivity].
           unfold P. cbn [fst snd].
           split; [destruct (Rlt_dec di dj); lia|].
           split; [destruct (Rlt_dec dj di); lia|].
           intros Hzeros. exfalso. rewrite Hzeros in Ebj.
           unfold getitem in Ebj.
           rewrite nth_error_repeat in Ebj by lia.
           injection Ebj as Ebj. lra.
        -- exists (sp, sm). split; [reflexivity|].
           split; [|reflexivity]. unfold P. cbn [fst snd]. tauto.
      * exists (sp, sm). split; [reflexivity|].
        split; [|reflexivity]. unfold P. cbn [fst snd]. tauto.
    + exact Hs.
    + exists s'. split; [exact E'|]. split; [exact Hs'|reflexivity].
  - unfold P. cbn [fst snd]. split; [lia|]. split; [lia|]. reflexivity.
  - cbn [fst snd] in Hp, Hm. exists sp, sm.
    split; [exact E|]. split; [exact Hp|]. split; [exact Hm|].
    intros Hzeros. specialize (Hz Hzeros). injection Hz as -> ->.
    split; reflexivity.
Qed.

Lemma gamma_in_range (s_plus s_minus : Z) :
  (0 <= s_plus)%Z -> (0 <= s_minus)%Z ->
  -1 <= (if (s_plus + s_minus =? 0)%Z then 0
         else IZR (s_plus - s_minus) / IZR (s_plus + s_minus)) <= 1.
Proof.
  intros Hp Hm. destruct (Z.eqb_spec (s_plus + s_minus) 0) as [_|Hne]; [lra|].
  assert (H : 0 < IZR (s_plus + s_minus)) by (apply IZR_lt; lia).
  assert (Hp' : 0 <= IZR s_plus) by (apply IZR_le, Hp).
  assert (Hm' : 0 <= IZR s_minus) by (apply IZR_le, Hm).
  rewrite minus_IZR. rewrite plus_IZR in *.
  split.
  - apply (Rmult_le_reg_r (IZR s_plus + IZR s_minus)); [exact H|].
    unfold Rdiv. rewrite Rmult_assoc, Rinv_l by lra. lra.
  - apply (Rmult_le_reg_r (IZR s_plus + IZR s_minus)); [exact H|].
    unfold Rdiv. rewrite Rmult_assoc, Rinv_l by lra. lra.
Qed.

(** For a feature matrix and predicted labels, one label at least for each
    row, at a precision that is not negative, [baker_hubert_gamma_index]
    returns a number in [-1, 1]: every pair of samples has its place in the
    two arrays, no read or write is out of range, and the last division is
    by a count that is not zero.  With a single predicted cluster no pair
    lies between clusters and the index is 0.0. *)
Theorem baker_hubert_gamma_index_range (self : ClusteringMetric)
  (X : option matrix) (y_pred : option labels) (decimal : option Z)
  (Xm : matrix) (a : labels) :
  resolve_X self X = Some Xm ->
  resolve_internal self y_pred = Some a ->
  (length Xm <= length a)%nat ->
  (0 <= default (self_decimal self) decimal)%Z ->
  exists g : R,
    returns (baker_hubert_gamma_index X y_pred decimal) self = Ok (Num g) /\
    -1 <= g <= 1 /\
    (length (np_unique a) = 1%nat -> g = 0).
Proof.
  intros HX Hres Hlen Hd.
  set (d := default (self_decimal self) decimal) in *.
  set (N := Z.of_nat (length Xm)).
  set (n_pairs := (N * (N - 1) / 2)%Z).
  assert (H2n : (2 * n_pairs = N * (N - 1))%Z) by apply two_n_pairs.
  assert (Hn0 : (0 <= n_pairs)%Z) by (unfold N in *; nia).
  set (z := if Nat.eq_dec (length (np_unique a)) 1%nat then true else false).
  assert (Hsame : z = true ->
            forall i j x y, nth_error (fit_transform a) i = Some x ->
                            nth_error (fit_transform a) j = Some y -> x = y).
  { unfold z. destruct (Nat.eq_dec (length (np_unique a)) 1%nat) as [H1|];
      [|discriminate].
    intros _ i j x y Hx Hy.
    destruct (single_cluster_const _ (single_cluster_encoded a H1))
      as (c & _ & Hall).
    rewrite List.Forall_forall in Hall.
    rewrite <- (Hall x (nth_error_In _ _ Hx)).
    apply (Hall y (nth_error_In _ _ Hy)). }
  destruct (first_loop Xm (fit_transform a) z (Z.to_nat n_pairs))
    as (dist & bin & index & E1 & Hdl & Hbl & Hz).
  { rewrite length_fit_transform. exact Hlen. }
  { rewrite Z2Nat.id by exact Hn0. exact H2n. }
  { exact Hsame. }
  destruct (second_loop dist bin n_pairs Hdl Hbl)
    as (sp & sm & E2 & Hp & Hm & Hzero).
  exists (round_R (if (sp + sm =? 0)%Z then 0
                   else IZR (sp - sm) / IZR (sp + sm)) d).
  split; [|split].
  - unfold baker_hubert_gamma_index.
    rewrite returns_bind, check_X_run, HX.
    rewrite returns_bind, internal_prologue, Hres.
    cbv beta iota zeta. fold N. fold n_pairs. rewrite returns_lift.
    match goal with
    | |- context [for_each ?xs ?body (?d0, ?b0, 0%nat)] =>
        replace (for_each xs body (d0, b0, 0%nat))
          with (Ok (dist, bin, index) : result (list R * list R * nat))
          by (symmetry; exact E1)
    end.
    cbv beta iota zeta. rewrite returns_lift.
    match goal with
    | |- context [for_each ?xs ?body (0, 0)%Z] =>
        replace (for_each xs body (0, 0)%Z)
          with (Ok (sp, sm) : result (Z * Z))
          by (symmetry; exact E2)
    end.
    reflexivity.
  - apply (round_R_between _ (-1) 1 d Hd).
    replace (IZR (-1)) with (-1) by lra. replace (IZR 1) with 1 by lra.
    apply gamma_in_range; assumption.
  - intros H1.
    assert (Hzt : z = true).
    { unfold z. destruct (Nat.eq_dec (length (np_unique a)) 1%nat);
        [reflexivity|contradiction]. }
    destruct (Hzero (Hz Hzt)) as [-> ->]. cbn [Z.add Z.eqb].
    apply NpFacts.round_R_0.
Qed.

Lemma baker_hubert_gamma_index_range_witness :
  resolve_X default_evaluator (Some [[0; 0]; [1; 0]; [4; 3]])
  = Some [[0; 0]; [1; 0]; [4; 3]] /\
  resolve_internal default_evaluator (Some [0; 0; 1]%Z)
  = Some [0; 0; 1]%Z /\
  (length [[0; 0]; [1; 0]; [4; 3]] <= length [0; 0; 1]%Z)%nat /\
  (0 <= default (self_decimal default_evaluator) None)%Z /\
  exists g : R,
    returns (baker_hubert_gamma_index (Some [[0; 0]; [1; 0]; [4; 3]])
               (Some [0; 0; 1]%Z) None) default_evaluator
    = Ok (Num g) /\
    -1 <= g <= 1 /\
    (length (np_unique [0; 0; 1]%Z) = 1%nat -> g = 0).
Proof.
  assert (Hlen : (length [[0; 0]; [1; 0]; [4; 3]]
                  <= length [0; 0; 1]%Z)%nat) by (simpl; lia).
  assert (Hd : (0 <= default (self_decimal default_evaluator) None)%Z)
    by (simpl; lia).
  split; [reflexivity|]. split; [reflexivity|]. split; [exact Hlen|].
  split; [exact Hd|].
  apply (baker_hubert_gamma_index_range default_evaluator
           (Some [[0; 0]; [1; 0]; [4; 3]]) (Some [0; 0; 1]%Z) None
           [[0; 0]; [1; 0]; [4; 3]] [0; 0; 1]%Z eq_refl eq_refl Hlen Hd).
Defined.

(** *** Scores of the pairs on which two clusterings agree *)

(** The two counters of [rand_score] are the diagonal of the
    pair-contingency tuple. *)
Lemma rand_counts (y_true y_pred : labels) (yy yn ny nn : Z) :
  pair_counts y_true y_pred = Ok (yy, yn, ny, nn) ->
  for_pairs (length y_true) (fun idx jdx '(a, b) =>
    ti ← getitem y_true idx;
    tj ← getitem y_true jdx;
    let same_cluster_true := (ti =? tj)%Z in
    pi ← getitem y_pred idx;
    pj ← getitem y_pred jdx;
    let same_cluster_pred := (pi =? pj)%Z in
    mret (if same_cluster_true && same_cluster_pred then (a + 1, b)
          else if negb same_cluster_true && negb same_cluster_pred
               then (a, b + 1)
               else (a, b))%Z) (0, 0)%Z
  = Ok (yy, nn).
Proof.
  intros E.
  match goal with
  | |- ?l = _ =>
      assert (H : result_rel
                    (fun (s : Z * Z) (c : Z * Z * Z * Z) =>
                       let '(yy', _, _, nn') := c in s = (yy', nn'))
                    l (Ok (yy, yn, ny, nn)))
  end.
  { rewrite <- E. unfold pair_counts. apply for_pairs_rel; [|reflexivity].
    intros i j [a b] [[[yy' yn'] ny'] nn'] Hrel.
    injection Hrel as -> ->. unfold pair_cell. read_entries. }
  match type of H with
  | result_rel _ ?l _ => destruct l as [[a b]|e]; [|contradiction]
  end.
  cbn in H. rewrite H. reflexivity.
Qed.

Section Agreement.

Variables Y A B D : R.
Hypothesis HY : 0 <= Y.
Hypothesis HA : 0 <= A.
Hypothesis HB : 0 <= B.
Hypothesis HD : 0 <= D.
Hypothesis HT : 0 < Y + A + B + D.

Lemma rogers_tanimoto_le_rand :
  0 <= (Y + D) / (Y + D + 2 * (A + B)) <= (Y + D) / (Y + A + B + D).
Proof.
  assert (0 <= (Y + D) * (A + B)) by (apply Rmult_le_pos; lra).
  split.
  - apply Rmult_le_pos; [lra|]. left. apply Rinv_0_lt_compat. lra.
  - apply frac_le; lra.
Qed.

Lemma half_is_inv_2 : 0.5 = / 2.
Proof. lra. Qed.

Lemma rand_le_sokal_sneath2 :
  (Y + D) / (Y + A + B + D) <= (Y + D) / (Y + D + 0.5 * (A + B)) <= 1.
Proof.
  assert (0 <= (Y + D) * (A + B)) by (apply Rmult_le_pos; lra).
  assert (H5 : 0.5 * (A + B) = (A + B) / 2) by lra.
  destruct (Req_dec_T (Y + D) 0) as [E|E].
  - rewrite E. unfold Rdiv. rewrite !Rmult_0_l. lra.
  - assert (0 < Y + D + 0.5 * (A + B)) by lra.
    split.
    + apply frac_le; lra.
    + apply (Rmult_le_reg_r (Y + D + 0.5 * (A + B))); [lra|].
      unfold Rdiv. rewrite Rmult_assoc, Rinv_l by lra. lra.
Qed.

Lemma russel_rao_le_rand :
  0 <= Y / (Y + A + B + D) <= (Y + D) / (Y + A + B + D).
Proof.
  assert (Hi : 0 < / (Y + A + B + D)) by (apply Rinv_0_lt_compat, HT).
  unfold Rdiv. split.
  - apply Rmult_le_pos; lra.
  - apply Rmult_le_compat_r; lra.
Qed.

End Agreement.

(** For vectors of one length with two samples or more, at a precision
    that is not negative, with ([yy], [yn], [ny], [nn]) their
    pair-contingency tuple: [rand_score] returns [(yy + nn) / (yy + yn + ny
    + nn)] rounded, and the scores are ordered as
    0 <= Rogers-Tanimoto <= Rand <= Sokal-Sneath-2 <= 1 and
    0 <= Russel-Rao <= Rand. *)
Theorem agreement_scores_in_order (self : ClusteringMetric)
  (y_true y_pred : option labels) (decimal : option Z) (a b : labels)
  (yy yn ny nn : Z) :
  resolve_external self y_true y_pred = Some (a, b) ->
  length a = length b ->
  (2 <= length a)%nat ->
  pair_counts (fit_transform a) (fit_transform b) = Ok (yy, yn, ny, nn) ->
  (0 <= default (self_decimal self) decimal)%Z ->
  exists rt ra ss2 rr : R,
    returns (rogers_tanimoto_score y_true y_pred decimal) self
    = Ok (Num rt) /\
    returns (rand_score y_true y_pred decimal) self
    = Ok (Num (round_R (IZR (yy + nn) / IZR (yy + yn + ny + nn))
                       (default (self_decimal self) decimal))) /\
    returns (rand_score y_true y_pred decimal) self = Ok (Num ra) /\
    returns (sokal_sneath2_score y_true y_pred decimal) self
    = Ok (Num ss2) /\
    returns (russel_rao_score y_true y_pred decimal) self = Ok (Num rr) /\
    0 <= rt <= ra /\ ra <= ss2 <= 1 /\ 0 <= rr <= ra.
Proof.
  intros Hres Hlen HN Hcm Hd.
  set (d := default (self_decimal self) decimal) in *.
  assert (Hlen' : length (fit_transform a) = length (fit_transform b))
    by (rewrite (length_fit_transform a), (length_fit_transform b);
        exact Hlen).
  destruct (pair_counts_total _ _ Hlen') as (c & Ec & Hc & Hsum).
  rewrite Hcm in Ec. injection Ec as <-.
  cbn [cells_nonneg cells_sum] in Hc, Hsum.
  destruct Hc as (Hyy & Hyn & Hny & Hnn).
  rewrite (length_fit_transform a) in Hsum.
  assert (HT : (0 < yy + yn + ny + nn)%Z) by nia.
  assert (HY : 0 <= IZR yy) by (apply IZR_le, Hyy).
  assert (HA : 0 <= IZR yn) by (apply IZR_le, Hyn).
  assert (HB : 0 <= IZR ny) by (apply IZR_le, Hny).
  assert (HD : 0 <= IZR nn) by (apply IZR_le, Hnn).
  assert (HTR : 0 < IZR yy + IZR yn + IZR ny + IZR nn).
  { rewrite <- !plus_IZR. apply IZR_lt, HT. }
  assert (Era : IZR (yy + nn) / IZR (yy + yn + ny + nn)
                = (IZR yy + IZR nn) / (IZR yy + IZR yn + IZR ny + IZR nn))
    by (rewrite !plus_IZR; reflexivity).
  set (Y := IZR yy) in *. set (A := IZR yn) in *.
  set (B := IZR ny) in *. set (D := IZR nn) in *.
  assert (Erand : returns (rand_score y_true y_pred decimal) self
                  = Ok (Num (round_R ((Y + D) / (Y + A + B + D)) d))).
  { unfold rand_score.
    rewrite returns_external, Hres, Hlen, Nat.eqb_refl.
    cbv beta iota zeta. rewrite returns_lift.
    match goal with
    | |- context [for_pairs ?n ?body ?s0] =>
        replace (for_pairs n body s0) with (Ok (yy, nn) : result (Z * Z))
          by (symmetry; exact (rand_counts _ _ _ _ _ _ Hcm))
    end.
    cbv beta iota zeta. rewrite returns_lift.
    rewrite (length_fit_transform a), ?Hlen.
    assert (Hb : Z.of_nat (length b) = Z.of_nat (length a)) by lia.
    rewrite ?Hb, <- Hsum.
    unfold truediv.
    destruct (Req_dec_T (IZR (2 * (yy + yn + ny + nn)) / 2) 0) as [E0|_].
    - rewrite mult_IZR, !plus_IZR in E0. fold Y A B D in E0. lra.
    - rewrite returns_mret. cbn [Np.round]. do 3 f_equal.
      rewrite mult_IZR, !plus_IZR. fold Y A B D. field. lra. }
  pose proof (rogers_tanimoto_le_rand Y A B D HY HA HB HD HTR) as [R0 R1].
  pose proof (rand_le_sokal_sneath2 Y A B D HY HA HB HD HTR) as [R2 R3].
  pose proof (russel_rao_le_rand Y A B D HY HD HTR) as [R4 R5].
  unfold rogers_tanimoto_score, sokal_sneath2_score, russel_rao_score.
  rewrite !(with_confusion_matrix_run self y_true y_pred decimal a b _
              yy yn ny nn Hres Hlen Hcm).
  fold Y A B D d. cbv beta iota zeta.
  exists (round_R ((Y + D) / (Y + D + 2 * (A + B))) d),
    (round_R ((Y + D) / (Y + A + B + D)) d),
    (round_R ((Y + D) / (Y + D + 0.5 * (A + B))) d),
    (round_R (Y / (Y + A + B + D)) d).
  split; [finite_div; reflexivity|].
  split; [rewrite Era; exact Erand|].
  split; [exact Erand|].
  split.
  { destruct (Req_dec_T (Y + D) 0) as [E|E].
    - assert (0 < A + B) by lra. finite_div. reflexivity.
    - finite_div. reflexivity. }
  split.
  { unfold Np.sum. cbn [fold_left Np.add].
    rewrite ArrFacts.div_finite by lra. cbn [Np.round].
    do 3 f_equal. f_equal. lra. }
  split; [split|split; [split|split]].
  - apply round_R_nonneg; assumption.
  - apply round_R_mono; assumption.
  - apply round_R_mono; assumption.
  - eapply Rle_trans; [apply (round_R_mono _ 1 d Hd), R3|].
    rewrite (NpFacts.round_R_IZR 1 d Hd). lra.
  - apply round_R_nonneg; assumption.
  - apply round_R_mono; assumption.
Qed.

Lemma agreement_scores_in_order_witness :
  resolve_external default_evaluator
    (Some [0; 0; 1; 2]%Z) (Some [5; 5; 7; 7]%Z)
  = Some ([0; 0; 1; 2]%Z, [5; 5; 7; 7]%Z) /\
  length [0; 0; 1; 2]%Z = length [5; 5; 7; 7]%Z /\
  (2 <= length [0; 0; 1; 2]%Z)%nat /\
  pair_counts (fit_transform [0; 0; 1; 2]%Z) (fit_transform [5; 5; 7; 7]%Z)
  = Ok (1, 0, 1, 4)%Z /\
  (0 <= default (self_decimal default_evaluator) None)%Z /\
  exists rt ra ss2 rr : R,
    returns (rogers_tanimoto_score (Some [0; 0; 1; 2]%Z)
               (Some [5; 5; 7; 7]%Z) None) default_evaluator
    = Ok (Num rt) /\
    returns (rand_score (Some [0; 0; 1; 2]%Z) (Some [5; 5; 7; 7]%Z) None)
            default_evaluator
    = Ok (Num (round_R (IZR (1 + 4) / IZR (1 + 0 + 1 + 4))
                       (default (self_decimal default_evaluator) None))) /\
    returns (rand_score (Some [0; 0; 1; 2]%Z) (Some [5; 5; 7; 7]%Z) None)
            default_evaluator = Ok (Num ra) /\
    returns (sokal_sneath2_score (Some [0; 0; 1; 2]%Z)
               (Some [5; 5; 7; 7]%Z) None) default_evaluator
    = Ok (Num ss2) /\
    returns (russel_rao_score (Some [0; 0; 1; 2]%Z) (Some [5; 5; 7; 7]%Z)
               None) default_evaluator = Ok (Num rr) /\
    0 <= rt <= ra /\ ra <= ss2 <= 1 /\ 0 <= rr <= ra.
Proof.
  assert (HN : (2 <= length [0; 0; 1; 2]%Z)%nat) by (simpl; lia).
  assert (Hd : (0 <= default (self_decimal default_evaluator) None)%Z)
    by (simpl; lia).
  split; [reflexivity|]. split; [reflexivity|]. split; [exact HN|].
  split; [reflexivity|]. split; [exact Hd|].
  apply (agreement_scores_in_order default_evaluator
           (Some [0; 0; 1; 2]%Z) (Some [5; 5; 7; 7]%Z) None
           [0; 0; 1; 2]%Z [5; 5; 7; 7]%Z 1 0 1 4 eq_refl eq_refl HN
           eq_refl Hd).
Defined.

End ClusteringMore.
